(** * Air-Pollution-Forecasting: AQI calculators, source reconciler, HTTP handlers

    A shallow embedding of the pure parts of
      - backend/forecaster.py         ([get_air_quality_index]),
      - backend/real_data_fetcher.py  ([calculate_aqi_from_pm25],
                                       [combine_data_sources],
                                       [fetch_combined_data] and the fetchers),
      - backend/app.py                (the request handlers and the
                                       synthetic generators),
    followed by the properties of the specification, stated on it.

    Numbers.  A finite Python float is a rational ([Q]).  The modules
    [Forecaster], [Fetcher] and [App] keep every arithmetic expression
    of the source as written and evaluate it without rounding error; the
    modules [Forecaster64] and [Fetcher64] evaluate the two AQI
    calculators as the source does, each operation rounded to binary64,
    and are used where a property depends on the rounding.  Integers
    returned by [round] are [Z].  Equalities between computed rationals
    are stated with [==].

    Effects.  Exceptions are an explicit [result] type.  [random.uniform],
    the clock, the console and the three HTTP providers are inputs of the
    model. *)

From Stdlib Require Import ZArith QArith Qround Qpower Qabs Lqa Lia.
From stdpp Require Import gmap strings list.

Local Open Scope Z_scope.

(* ===================================================================== *)
(** ** Python values, exceptions and built-ins *)
(* ===================================================================== *)

Module Py.

(** The exceptions the modelled code can raise. [NoRealData] is the
    [Exception("No real data available")] of [get_current_conditions];
    [UnicodeEncodeError] is raised by [print] and is a [ValueError] for
    an [except ValueError] clause; [ImportError] stands for whatever the
    import of a module raises. *)
Inductive exn :=
| TypeError
| ValueError
| KeyError
| AttributeError
| OverflowError
| NoRealData
| UnicodeEncodeError
| ImportError.

(** [isinstance(e, ValueError)]. *)
Definition is_ValueError (e : exn) : bool :=
  match e with
  | ValueError | UnicodeEncodeError => true
  | _ => false
  end.

Inductive result (A : Type) :=
| Ok (a : A)
| Raise (e : exn).
Arguments Ok {A} a.
Arguments Raise {A} e.

Definition bind {A B} (r : result A) (k : A -> result B) : result B :=
  match r with
  | Ok a => k a
  | Raise e => Raise e
  end.

(** Values stored in the dictionaries the fetcher handles. *)
Inductive pyval :=
| PyNone
| PyNum (q : Q)
| PyStr (s : string)
| PyList (l : list string)
| PyTime (t : Z).

(** A parsed JSON request body ([request.get_json()]); [JNull] is
    [None], a [JObj] is a dictionary given by its items, a [JNum] is a
    finite number (a JSON number too large for a float, which Python
    reads as infinity, is left out). *)
#[local] Unset Elimination Schemes.
Inductive jval :=
| JNull
| JBool (b : bool)
| JNum (q : Q)
| JStr (s : string)
| JArr (l : list jval)
| JObj (items : list (string * jval)).
#[local] Set Elimination Schemes.

(** Truth value of [if v:]. *)
Definition truthy (v : pyval) : bool :=
  match v with
  | PyNone => false
  | PyNum q => negb (Qeq_bool q 0)
  | PyStr s => negb (String.eqb s "")
  | PyList l => match l with [] => false | _ => true end
  | PyTime _ => true
  end.

(** Truth value of a JSON value. *)
Definition jtruthy (v : jval) : bool :=
  match v with
  | JNull => false
  | JBool b => b
  | JNum q => negb (Qeq_bool q 0)
  | JStr s => negb (String.eqb s "")
  | JArr l => match l with [] => false | _ => true end
  | JObj items => match items with [] => false | _ => true end
  end.

(** Lookup in a dictionary given by its items. *)
Fixpoint assoc {A} (d : list (string * A)) (k : string) : option A :=
  match d with
  | [] => None
  | (k', v) :: rest => if String.eqb k' k then Some v else assoc rest k
  end.

(** [needle in hay] on strings. *)
Fixpoint str_contains (needle hay : string) : bool :=
  String.prefix needle hay ||
  match hay with
  | EmptyString => false
  | String _ rest => str_contains needle rest
  end.

Definition is_jstr (k : string) (v : jval) : bool :=
  match v with
  | JStr s => String.eqb s k
  | _ => false
  end.

(** [k in data]: a key of a dictionary, an element of a list, a
    substring of a string; anything else is not iterable. *)
Definition contains (data : jval) (k : string) : result bool :=
  match data with
  | JObj items => Ok (bool_decide (is_Some (assoc items k)))
  | JArr l => Ok (existsb (is_jstr k) l)
  | JStr s => Ok (str_contains k s)
  | _ => Raise TypeError
  end.

(** [data[k]] with a string [k]. *)
Definition getitem (data : jval) (k : string) : result jval :=
  match data with
  | JObj items =>
      match assoc items k with
      | Some v => Ok v
      | None => Raise KeyError
      end
  | _ => Raise TypeError
  end.

(** [data.get(k, dflt)]: only a dictionary has [get]. *)
Definition jget (data : jval) (k : string) (dflt : jval) : result jval :=
  match data with
  | JObj items => Ok (default dflt (assoc items k))
  | _ => Raise AttributeError
  end.

(** [int(v)]: a float is truncated towards zero, a string is parsed
    ([int_of_str], [None] standing for [ValueError]), [None], lists and
    dictionaries are a [TypeError]. *)
Definition py_int (int_of_str : string -> option Z) (v : jval)
  : result Z :=
  match v with
  | JNum q => Ok (Z.quot (Qnum q) (Z.pos (Qden q)))
  | JBool b => Ok (if b then 1 else 0)
  | JStr s =>
      match int_of_str s with
      | Some z => Ok z
      | None => Raise ValueError
      end
  | _ => Raise TypeError
  end.

(** [d.get(k)]: the value, [None] when the key is missing. *)
Definition dict_get (d : gmap string pyval) (k : string) : pyval :=
  default PyNone (d !! k).

(** [a < b] on rationals as a boolean. *)
Definition Qlt_bool (a b : Q) : bool := negb (Qle_bool b a).

(** [round(x)] with one argument: nearest integer, ties to the even one. *)
Definition py_round (x : Q) : Z :=
  let f := Qfloor x in
  match (x - inject_Z f ?= 1 # 2)%Q with
  | Lt => f
  | Gt => f + 1
  | Eq => if Z.even f then f else f + 1
  end.

(** [round(x, n)]: [x] rounded to [n] decimals, still a float. *)
Definition py_round_n (x : Q) (n : nat) : Q :=
  let s := inject_Z (10 ^ Z.of_nat n) in
  (inject_Z (py_round (x * s)) / s)%Q.

(** [max(a, b)] returns [a] unless [b] is strictly greater. *)
Definition py_max (a b : Q) : Q := if Qlt_bool a b then b else a.

(** [random.uniform(a, b)] is [a + (b - a) * self.random()]; [u] is the
    value [random()] returns. *)
Definition uniform (u a b : Q) : Q := (a + (b - a) * u)%Q.

(** All the results, in order, or the first exception. *)
Fixpoint sequence {A} (l : list (result A)) : result (list A) :=
  match l with
  | [] => Ok []
  | r :: rest =>
      bind r (fun a => bind (sequence rest) (fun l' => Ok (a :: l')))
  end.

End Py.
Import Py.

(* ===================================================================== *)
(** ** forecaster.py: the table-driven AQI calculator *)
(* ===================================================================== *)

Module Forecaster.

(** A breakpoint tuple [(bp_lo, bp_hi, aqi_lo, aqi_hi)]. *)
Definition bracket : Type := Z * Z * Z * Z.

(** The [aqi_breakpoints] dictionary of [get_air_quality_index]. *)
Definition aqi_breakpoints : list (string * list bracket) :=
  [ ("PM2.5", [(0, 30, 0, 50); (30, 60, 51, 100); (60, 90, 101, 200);
               (90, 120, 201, 300); (120, 250, 301, 400)]);
    ("PM10",  [(0, 50, 0, 50); (50, 100, 51, 100); (100, 250, 101, 200);
               (250, 350, 201, 300); (350, 430, 301, 400)]);
    ("NO2",   [(0, 40, 0, 50); (40, 80, 51, 100); (80, 180, 101, 200);
               (180, 280, 201, 300); (280, 400, 301, 400)]) ].

(** [aqi_breakpoints[pollutant]], [None] when [pollutant not in
    aqi_breakpoints]. *)
Fixpoint lookup_breakpoints (tbl : list (string * list bracket))
         (pollutant : string) : option (list bracket) :=
  match tbl with
  | [] => None
  | (k, bps) :: rest =>
      if String.eqb k pollutant then Some bps
      else lookup_breakpoints rest pollutant
  end.

(** [bp_lo <= level <= bp_hi]. *)
Definition in_bracket (b : bracket) (level : Q) : bool :=
  let '(bp_lo, bp_hi, _, _) := b in
  Qle_bool (inject_Z bp_lo) level && Qle_bool level (inject_Z bp_hi).

(** [((aqi_hi - aqi_lo) / (bp_hi - bp_lo)) * (level - bp_lo) + aqi_lo],
    without rounding error; [Forecaster64.interpolate] is the same
    expression in binary64. *)
Definition interpolate (b : bracket) (level : Q) : Q :=
  let '(bp_lo, bp_hi, aqi_lo, aqi_hi) := b in
  ((inject_Z (aqi_hi - aqi_lo) / inject_Z (bp_hi - bp_lo))
     * (level - inject_Z bp_lo) + inject_Z aqi_lo)%Q.

(** The inner [for] loop up to its [break]: the value [aqi] computed at
    the first bracket that contains [level], [None] when the loop runs
    off the end of the list. *)
Fixpoint scan_brackets (bps : list bracket) (level : Q) : option Q :=
  match bps with
  | [] => None
  | b :: rest =>
      if in_bracket b level then Some (interpolate b level)
      else scan_brackets rest level
  end.

(** The sub-index of one item of [pollutant_levels], if it has one. *)
Definition sub_index (pollutant : string) (level : Q) : option Q :=
  match lookup_breakpoints aqi_breakpoints pollutant with
  | Some bps => scan_brackets bps level
  | None => None
  end.

(** The two loop variables. *)
Record loop_state := LoopState {
  max_aqi : Q;
  dominant : option string
}.

(** One iteration of the outer loop. *)
Definition loop_step (st : loop_state) (item : string * Q) : loop_state :=
  let '(pollutant, level) := item in
  match sub_index pollutant level with
  | Some aqi =>
      if Qlt_bool (max_aqi st) aqi then LoopState aqi (Some pollutant)
      else st
  | None => st
  end.

Definition loop_init : loop_state := LoopState 0 None.

(** The outer loop over [pollutant_levels.items()], in dictionary order.
    Items whose key is not in the table (such as the ['timestamp'] of a
    prediction) are skipped before their value is looked at; the model
    keeps their key and a number. *)
Definition run_loop (pollutant_levels : list (string * Q)) : loop_state :=
  fold_left loop_step pollutant_levels loop_init.

(** The [if max_aqi <= 50 ... else] chain: category and colour. *)
Definition aqi_category (max_aqi : Q) : string * string :=
  if Qle_bool max_aqi 50 then ("Good", "green")
  else if Qle_bool max_aqi 100 then ("Satisfactory", "yellow")
  else if Qle_bool max_aqi 200 then ("Moderate", "orange")
  else if Qle_bool max_aqi 300 then ("Poor", "red")
  else ("Very Poor", "maroon").

(** The returned dictionary. *)
Record aqi_result := AqiResult {
  aqi : Z;
  category : string;
  color : string;
  dominant_pollutant : option string
}.

Definition get_air_quality_index (pollutant_levels : list (string * Q))
  : aqi_result :=
  let st := run_loop pollutant_levels in
  let '(cat, col) := aqi_category (max_aqi st) in
  AqiResult (py_round (max_aqi st)) cat col (dominant st).

End Forecaster.


(* ===================================================================== *)
(** ** real_data_fetcher.py: the three providers and the reconciler *)
(* ===================================================================== *)

Module Fetcher.

(** [calculate_aqi_from_pm25]: AQI from PM2.5, US EPA breakpoints,
    without rounding error; [Fetcher64.calculate_aqi_from_pm25] is the
    same function in binary64. *)
Definition calculate_aqi_from_pm25 (pm25 : Q) : Q :=
  (if Qle_bool pm25 12.0 then pm25 * 50 / 12.0
   else if Qle_bool pm25 35.4 then
     50 + (pm25 - 12.0) * 50 / (35.4 - 12.0)
   else if Qle_bool pm25 55.4 then
     100 + (pm25 - 35.4) * 50 / (55.4 - 35.4)
   else if Qle_bool pm25 150.4 then
     150 + (pm25 - 55.4) * 50 / (150.4 - 55.4)
   else if Qle_bool pm25 250.4 then
     200 + (pm25 - 150.4) * 100 / (250.4 - 150.4)
   else
     300 + (pm25 - 250.4) * 100 / (350.4 - 250.4))%Q.

(** The same function on a dictionary value: comparing anything but a
    number with [12.0] raises [TypeError]. *)
Definition calculate_aqi_from_pm25_val (pm25 : pyval) : result pyval :=
  match pm25 with
  | PyNum q => Ok (PyNum (calculate_aqi_from_pm25 q))
  | _ => Raise TypeError
  end.

(** [combined.update({...})] of the ['openweather'] branch. *)
Definition update_openweather (combined source_data : gmap string pyval)
  : gmap string pyval :=
  <["O3" := dict_get source_data "o3"]>
    (<["CO" := dict_get source_data "co"]>
       (<["SO2" := dict_get source_data "so2"]>
          (<["NO2" := dict_get source_data "no2"]>
             (<["PM10" := dict_get source_data "pm10"]>
                (<["PM2.5" := dict_get source_data "pm2_5"]> combined))))).

(** [combined.update({...})] of the ['airvisual'] branch. *)
Definition update_airvisual (combined source_data : gmap string pyval)
  : gmap string pyval :=
  <["wind_speed" := dict_get source_data "wind_speed"]>
    (<["pressure" := dict_get source_data "pressure"]>
       (<["humidity" := dict_get source_data "humidity"]>
          (<["temperature" := dict_get source_data "temperature"]>
             (<["AQI" := dict_get source_data "aqi_us"]> combined)))).

(** [if key not in combined: combined[key] = v]. *)
Definition fill_if_absent (key : string) (v : pyval)
           (combined : gmap string pyval) : gmap string pyval :=
  match combined !! key with
  | None => <[key := v]> combined
  | Some _ => combined
  end.

(** The ['waqi'] branch. *)
Definition fill_from_waqi (combined source_data : gmap string pyval)
  : gmap string pyval :=
  fill_if_absent "AQI" (dict_get source_data "aqi")
    (fill_if_absent "PM10" (dict_get source_data "pm10")
       (fill_if_absent "PM2.5" (dict_get source_data "pm25") combined)).

(** One iteration of [for source_name, source_data in
    data_sources.items()]. *)
Definition combine_step (combined : gmap string pyval)
           (src : string * gmap string pyval) : gmap string pyval :=
  let '(source_name, source_data) := src in
  if String.eqb source_name "openweather" then
    update_openweather combined source_data
  else if String.eqb source_name "airvisual" then
    update_airvisual combined source_data
  else if String.eqb source_name "waqi" then
    fill_from_waqi combined source_data
  else combined.

(** The dictionary [combined] starts from; [now] is [datetime.now()]. *)
Definition combine_init (now : Z)
           (data_sources : list (string * gmap string pyval))
  : gmap string pyval :=
  <["sources_used" := PyList (map fst data_sources)]>
    (<["timestamp" := PyTime now]> ∅).

(** [combined] when the loop over the sources is over. *)
Definition combine_loop (now : Z)
           (data_sources : list (string * gmap string pyval))
  : gmap string pyval :=
  fold_left combine_step data_sources (combine_init now data_sources).

(** [if 'AQI' not in combined and combined.get('PM2.5'):
      combined['AQI'] = self.calculate_aqi_from_pm25(combined['PM2.5'])]. *)
Definition derive_aqi (combined : gmap string pyval)
  : result (gmap string pyval) :=
  match combined !! "AQI" with
  | Some _ => Ok combined
  | None =>
      if truthy (dict_get combined "PM2.5") then
        bind (calculate_aqi_from_pm25_val (dict_get combined "PM2.5"))
             (fun a => Ok (<["AQI" := a]> combined))
      else Ok combined
  end.

(** The [if aqi <= 50 ... else] chain of [combine_data_sources]. *)
Definition aqi_category (aqi : Q) : string * string :=
  if Qle_bool aqi 50 then ("Good", "#00e400")
  else if Qle_bool aqi 100 then ("Satisfactory", "#ffff00")
  else if Qle_bool aqi 200 then ("Moderate", "#ff7e00")
  else if Qle_bool aqi 300 then ("Poor", "#ff0000")
  else ("Very Poor", "#8f3f97").

(** [aqi = combined.get('AQI', 0)] and the chain on it: [aqi <= 50]
    raises [TypeError] unless [aqi] is a number. *)
Definition categorize (combined : gmap string pyval)
  : result (gmap string pyval) :=
  match default (PyNum 0) (combined !! "AQI") with
  | PyNum aqi =>
      let '(cat, col) := aqi_category aqi in
      Ok (<["color" := PyStr col]> (<["category" := PyStr cat]> combined))
  | _ => Raise TypeError
  end.

(** The part of [combine_data_sources] after the loop. *)
Definition finish (combined : gmap string pyval)
  : result (gmap string pyval) :=
  bind (derive_aqi combined) categorize.

Definition combine_data_sources (now : Z)
           (data_sources : list (string * gmap string pyval))
  : result (gmap string pyval) :=
  finish (combine_loop now data_sources).

(** *** The providers *)

(** [self.city_coords]. *)
Definition city_coords : list (string * (Q * Q)) :=
  [ ("Mumbai", (19.0760, 72.8777)%Q);
    ("Delhi", (28.7041, 77.1025)%Q);
    ("Bangalore", (12.9716, 77.5946)%Q);
    ("Chennai", (13.0827, 80.2707)%Q);
    ("Kolkata", (22.5726, 88.3639)%Q);
    ("Hyderabad", (17.3850, 78.4867)%Q) ].

(** [city_mapping] of [fetch_airvisual_data]: city, state, country. *)
Definition city_mapping : list (string * (string * string * string)) :=
  [ ("Mumbai", ("Mumbai", "Maharashtra", "India"));
    ("Delhi", ("Delhi", "Delhi", "India"));
    ("Bangalore", ("Bangalore", "Karnataka", "India"));
    ("Chennai", ("Chennai", "Tamil Nadu", "India"));
    ("Kolkata", ("Kolkata", "West Bengal", "India"));
    ("Hyderabad", ("Hyderabad", "Telangana", "India")) ].

(** [d.get(city)] on a dictionary with string keys: a list or a
    dictionary is unhashable ([TypeError]); any other non-string key is
    simply not found. *)
Definition city_get {A} (d : list (string * A)) (city : jval)
  : result (option A) :=
  match city with
  | JStr s => Ok (assoc d s)
  | JArr _ | JObj _ => Raise TypeError
  | _ => Ok None
  end.

(** The instance attributes [__init__] assigns, but for [city_coords],
    which is the constant above; [getenv_key] is
    [os.getenv('OPENWEATHER_API_KEY')]. *)
Definition init (getenv_key : option string) : gmap string pyval :=
  {[ "openweather_api_key" :=
       match getenv_key with Some k => PyStr k | None => PyNone end ]}.

(** [self.name]. *)
Definition getattr (self : gmap string pyval) (name : string)
  : result pyval :=
  match self !! name with
  | Some v => Ok v
  | None => Raise AttributeError
  end.

(** The outside world of the fetcher: for each provider, what the
    request, [raise_for_status], [response.json()] and the extraction of
    the fields give, from the request parameters: a record, [None]
    (the provider's own status is not a success), or an exception. *)
Record providers := Providers {
  openweather_api : Q -> Q -> pyval -> result (gmap string pyval);
  airvisual_api : string * string * string -> pyval
                  -> result (option (gmap string pyval));
  waqi_api : jval -> pyval -> result (option (gmap string pyval))
}.

(** [try: ... except Exception: return None]. *)
Definition except_none {A} (r : result (option A)) : option A :=
  match r with
  | Ok x => x
  | Raise _ => None
  end.

Definition fetch_openweather_pollution (self : gmap string pyval)
           (w : providers) (city : jval) : option (gmap string pyval) :=
  except_none
    (bind (city_get city_coords city) (fun coords =>
     match coords with
     | None => Raise ValueError
     | Some (lat, lon) =>
         bind (getattr self "openweather_api_key") (fun key =>
         bind (openweather_api w lat lon key) (fun d => Ok (Some d)))
     end)).

Definition fetch_airvisual_data (self : gmap string pyval)
           (w : providers) (city : jval) : option (gmap string pyval) :=
  except_none
    (bind (city_get city_mapping city) (fun city_info =>
     match city_info with
     | None => Raise ValueError
     | Some info =>
         bind (getattr self "airvisual_api_key") (fun key =>
         airvisual_api w info key)
     end)).

Definition fetch_waqi_data (self : gmap string pyval)
           (w : providers) (city : jval) : option (gmap string pyval) :=
  except_none
    (bind (getattr self "waqi_token") (fun token =>
     waqi_api w city token)).

(** [if data:] on what a fetcher returned. *)
Definition usable (data : option (gmap string pyval)) : bool :=
  match data with
  | Some d => negb (bool_decide (d = ∅))
  | None => false
  end.

(** [results], filled in the order of the three [if]s. *)
Definition collect (openweather_data airvisual_data waqi_data
                    : option (gmap string pyval))
  : list (string * gmap string pyval) :=
  (if usable openweather_data
   then [("openweather", default ∅ openweather_data)] else [])
  ++ (if usable airvisual_data
      then [("airvisual", default ∅ airvisual_data)] else [])
  ++ (if usable waqi_data
      then [("waqi", default ∅ waqi_data)] else []).

Definition fetch_combined_data (self : gmap string pyval) (w : providers)
           (now : Z) (city : jval) : result (option (gmap string pyval)) :=
  let openweather_data := fetch_openweather_pollution self w city in
  let airvisual_data := fetch_airvisual_data self w city in
  let waqi_data := fetch_waqi_data self w city in
  let results := collect openweather_data airvisual_data waqi_data in
  match results with
  | [] => Ok None
  | _ => bind (combine_data_sources now results) (fun c => Ok (Some c))
  end.

End Fetcher.

(* ===================================================================== *)
(** ** app.py: the synthetic generators and the request handlers *)
(* ===================================================================== *)

Module App.
Import Fetcher.

(** A moment as the generators read it: [.hour], [.weekday()],
    [.timetuple().tm_yday] and the three [strftime] renderings. *)
Record moment := Moment {
  hour_of : Z;
  weekday_of : Z;
  tm_yday_of : Z;
  str_full : string;     (* '%Y-%m-%d %H:%M:%S' *)
  str_day : string;      (* '%a' *)
  str_date : string      (* '%m/%d' *)
}.

(** Everything a handler reads from outside the request. *)
Record env := Env {
  rnd : nat -> Q;                  (* successive values of random() *)
  now : moment;                    (* datetime.now() *)
  now_plus_hours : Z -> result moment;
                                   (* now + timedelta(hours=h) *)
  days_ago_str : Z -> result string;
                                   (* (now - timedelta(days=d))
                                        .strftime('%Y-%m-%d') *)
  math_pi : Q;
  math_sin : Q -> Q;
  int_of_str : string -> option Z; (* int(s) on a string *)
  stdout_encodes : string -> bool; (* sys.stdout can encode the text *)
  real_data_fetcher : gmap string pyval;
  world : providers;
  fetch_time : Z                   (* datetime.now() of the reconciler *)
}.

(** [print(f"... {v} ...")].  [sys.stdout] is taken to be open and to
    encode in UTF-8: the fixed text of the line, numbers, [None] and the
    [repr] of the strings inside a list or a dictionary (which escapes
    what cannot be printed) always go through.  The text of a string is
    written as it is, and when it cannot be encoded (a lone surrogate)
    [print] raises [UnicodeEncodeError].  Calls of [logger] never
    raise and are left out. *)
Definition print_value (e : env) (v : jval) : result unit :=
  match v with
  | JStr s => if stdout_encodes e s then Ok tt else Raise UnicodeEncodeError
  | _ => Ok tt
  end.

(** [base_pollution], the same dictionary in the three generators. *)
Definition base_pollution : list (string * Q) :=
  [ ("Mumbai", 80%Q); ("Delhi", 150%Q); ("Bangalore", 60%Q);
    ("Chennai", 70%Q); ("Kolkata", 100%Q); ("Hyderabad", 75%Q) ].

(** [base_pollution.get(city, 75)]. *)
Definition base_pollution_get (city : jval) : result Q :=
  bind (city_get base_pollution city) (fun b => Ok (default 75%Q b)).

(** The chain of [generate_current_conditions]. *)
Definition current_category (aqi : Q) : string * string :=
  if Qle_bool aqi 50 then ("Good", "#00e400")
  else if Qle_bool aqi 100 then ("Satisfactory", "#ffff00")
  else if Qle_bool aqi 200 then ("Moderate", "#ff7e00")
  else if Qle_bool aqi 300 then ("Poor", "#ff0000")
  else ("Very Poor", "#8f3f97").

(** The chain of [generate_mock_forecast]. *)
Definition forecast_category (aqi : Q) : string :=
  if Qle_bool aqi 50 then "Good"
  else if Qle_bool aqi 100 then "Satisfactory"
  else if Qle_bool aqi 200 then "Moderate"
  else if Qle_bool aqi 300 then "Poor"
  else "Very Poor".

(** The chain of [generate_historical_data]. *)
Definition historical_category (aqi : Q) : string :=
  if Qle_bool aqi 50 then "Good"
  else if Qle_bool aqi 100 then "Satisfactory"
  else if Qle_bool aqi 200 then "Moderate"
  else if Qle_bool aqi 300 then "Poor"
  else "Very Poor".

Definition in_hours (h : Z) (l : list Z) : bool := existsb (Z.eqb h) l.

(** The body of [generate_current_conditions] once [base] is known. *)
Definition current_conditions_from (e : env) (base : Q)
  : gmap string pyval :=
  let current_hour := hour_of (now e) in
  let rush_hour_effect :=
    if in_hours current_hour [7; 8; 9; 18; 19; 20] then 1.3%Q else 1.0%Q in
  let pm25 :=
    py_max 10 (base * rush_hour_effect + uniform (rnd e 0) (-20) 25)%Q in
  let pm10 :=
    (pm25 * uniform (rnd e 1) 1.6 2.0 + uniform (rnd e 2) (-15) 20)%Q in
  let no2 :=
    (base * 0.4 * rush_hour_effect + uniform (rnd e 3) (-12) 15)%Q in
  let so2 := (base * 0.2 + uniform (rnd e 4) (-8) 10)%Q in
  let co := (base * 0.08 + uniform (rnd e 5) (-2) 4)%Q in
  let o3 := (60 + uniform (rnd e 6) (-25) 35)%Q in
  let aqi := py_max (py_max (pm25 * 2.2) (pm10 * 1.1))%Q (no2 * 1.8)%Q in
  let '(category, color) := current_category aqi in
  list_to_map
    [ ("PM2.5", PyNum (py_round_n pm25 1));
      ("PM10", PyNum (py_round_n pm10 1));
      ("NO2", PyNum (py_round_n no2 1));
      ("SO2", PyNum (py_round_n so2 1));
      ("CO", PyNum (py_round_n co 2));
      ("O3", PyNum (py_round_n o3 1));
      ("AQI", PyNum (inject_Z (py_round aqi)));
      ("category", PyStr category);
      ("color", PyStr color);
      ("temperature", PyNum (py_round_n (uniform (rnd e 7) 15 35) 1));
      ("humidity", PyNum (py_round_n (uniform (rnd e 8) 30 85) 0));
      ("wind_speed", PyNum (py_round_n (uniform (rnd e 9) 2 20) 1));
      ("pressure", PyNum (py_round_n (uniform (rnd e 10) 995 1025) 1));
      ("timestamp", PyStr (str_full (now e))) ].

Definition generate_current_conditions (e : env) (city : jval)
  : result (gmap string pyval) :=
  bind (base_pollution_get city) (fun base =>
  Ok (current_conditions_from e base)).

(** One iteration of the loop of [generate_mock_forecast]: the [i]-th
    element [hour] of [actual_hours]. *)
Definition forecast_row (e : env) (base : Q) (i : nat) (hour : Z)
  : result (gmap string pyval) :=
  bind (now_plus_hours e hour) (fun timestamp =>
  let r k := rnd e (8 * i + k)%nat in
  let hour_of_day := hour_of timestamp in
  let day_of_week := weekday_of timestamp in
  let day_of_year := tm_yday_of timestamp in
  let seasonal_factor :=
    (1 + 0.3 * math_sin e (2 * math_pi e * inject_Z day_of_year / 365))%Q in
  let weekend_factor := if 5 <=? day_of_week then 0.8%Q else 1.0%Q in
  let daily_factor :=
    if in_hours hour_of_day [7; 8; 9; 18; 19; 20] then 1.4%Q
    else if in_hours hour_of_day [2; 3; 4; 5] then 0.7%Q
    else 1.0%Q in
  let random_factor := uniform (r 0%nat) 0.8 1.3 in
  let total_factor :=
    (seasonal_factor * weekend_factor * daily_factor * random_factor)%Q in
  let pm25 :=
    py_max 5 (base * 0.6 * total_factor + uniform (r 1%nat) (-15) 20)%Q in
  let pm10 :=
    (pm25 * uniform (r 2%nat) 1.6 2.2 + uniform (r 3%nat) (-10) 15)%Q in
  let no2 := (base * 0.4 * total_factor + uniform (r 4%nat) (-8) 12)%Q in
  let so2 := (base * 0.2 * total_factor + uniform (r 5%nat) (-5) 8)%Q in
  let co := (base * 0.08 * total_factor + uniform (r 6%nat) (-1) 3)%Q in
  let o3 :=
    (50 + 20 * math_sin e (2 * math_pi e * inject_Z hour_of_day / 24)
     + uniform (r 7%nat) (-15) 25)%Q in
  let aqi :=
    py_max (py_max (py_max (pm25 * 2.2) (pm10 * 1.1)) (no2 * 1.8))%Q
           (so2 * 1.5)%Q in
  let category := forecast_category aqi in
  Ok (list_to_map
        [ ("timestamp", PyStr (str_full timestamp));
          ("hour", PyNum (inject_Z hour_of_day));
          ("day", PyStr (str_day timestamp));
          ("date", PyStr (str_date timestamp));
          ("PM2.5", PyNum (py_round_n pm25 1));
          ("PM10", PyNum (py_round_n pm10 1));
          ("NO2", PyNum (py_round_n no2 1));
          ("SO2", PyNum (py_round_n so2 1));
          ("CO", PyNum (py_round_n co 2));
          ("O3", PyNum (py_round_n o3 1));
          ("AQI", PyNum (inject_Z (py_round aqi)));
          ("category", PyStr category) ])).

(** [list(range(0, hours, step))]. *)
Definition range_step (hours step : Z) : list Z :=
  map (fun i => Z.of_nat i * step)
      (seq 0 (Z.to_nat ((hours + step - 1) / step))).

(** The [except] clause prints [str(e)], which is ASCII here, and
    raises [e] again. *)
Definition generate_mock_forecast (e : env) (city : jval) (hours : Z)
  : result (list (gmap string pyval)) :=
  bind (print_value e city) (fun _ =>
  bind (base_pollution_get city) (fun base =>
  let step := if hours <=? 48 then 1 else if hours <=? 168 then 2 else 4 in
  let actual_hours := range_step hours step in
  sequence (imap (forecast_row e base) actual_hours))).

(** One iteration of the loop of [generate_historical_data]. *)
Definition historical_row (e : env) (base : Q) (day : nat)
  : result (gmap string pyval) :=
  bind (days_ago_str e (Z.of_nat day)) (fun date =>
  let r k := rnd e (5 * day + k)%nat in
  let daily_variation := uniform (r 0%nat) 0.6 1.5 in
  let pm25 :=
    py_max 15 (base * daily_variation + uniform (r 1%nat) (-25) 30)%Q in
  let pm10 :=
    (pm25 * uniform (r 2%nat) 1.6 2.2 + uniform (r 3%nat) (-20) 25)%Q in
  let no2 :=
    (base * 0.4 * daily_variation + uniform (r 4%nat) (-15) 18)%Q in
  let aqi := py_max (py_max (pm25 * 2.2) (pm10 * 1.1))%Q (no2 * 1.8)%Q in
  let category := historical_category aqi in
  Ok (list_to_map
        [ ("date", PyStr date);
          ("PM2.5", PyNum (py_round_n pm25 1));
          ("PM10", PyNum (py_round_n pm10 1));
          ("NO2", PyNum (py_round_n no2 1));
          ("AQI", PyNum (inject_Z (py_round aqi)));
          ("category", PyStr category) ])).

Definition generate_historical_data (e : env) (city : jval) (days : Z)
  : result (list (gmap string pyval)) :=
  bind (base_pollution_get city) (fun base =>
  bind (sequence (map (historical_row e base) (seq 0 (Z.to_nat days))))
       (fun historical => Ok (rev historical))).

(** *** Responses *)

(** The ['error'] string of a failure response. *)
Inductive errmsg :=
| Msg (s : string)          (* a literal of the source *)
| StrOf (ex : exn)          (* str(e) *)
| InvalidInput (ex : exn).  (* f"Invalid input: {str(e)}" *)

(** What a handler returns: [jsonify({'success': False, 'error': ...})]
    with a status, or one of the [200] bodies with ['success': True]. *)
Inductive response :=
| JsonError (status : Z) (error : errmsg)
| CurrentOk (city : jval) (conditions : gmap string pyval)
            (data_type : string)
| ForecastOk (city : jval) (predictions : list (gmap string pyval))
             (hours : Z) (generated_at : string)
| HistoricalOk (city : jval) (data : list (gmap string pyval)) (days : Z).

Definition status_code (r : response) : Z :=
  match r with
  | JsonError status _ => status
  | _ => 200
  end.

Definition success (r : response) : bool :=
  match r with
  | JsonError _ _ => false
  | _ => true
  end.

(** [not data or 'city' not in data]. *)
Definition city_missing (data : jval) : result bool :=
  if negb (jtruthy data) then Ok true
  else bind (contains data "city") (fun b => Ok (negb b)).

(** The inner [try] of [get_current_conditions]: the real reading, or
    the exception that sends the handler to the synthetic data. *)
Definition real_conditions (e : env) (city : jval)
  : result (gmap string pyval) :=
  bind (fetch_combined_data (real_data_fetcher e) (world e)
                            (fetch_time e) city)
       (fun real_data =>
          if usable real_data then Ok (default ∅ real_data)
          else Raise NoRealData).

Definition get_current_conditions (e : env) (data : jval) : response :=
  let body :=
    bind (city_missing data) (fun missing =>
    if missing then Ok (JsonError 400 (Msg "City parameter is required"))
    else
      bind (getitem data "city") (fun city =>
      match real_conditions e city with
      | Ok real_data => Ok (CurrentOk city real_data "real")
      | Raise _ =>
          bind (generate_current_conditions e city)
               (fun current_conditions =>
                  Ok (CurrentOk city current_conditions "synthetic"))
      end)) in
  match body with
  | Ok r => r
  | Raise ex => JsonError 500 (StrOf ex)
  end.

(** The two [print] calls with a value of the request are
    [print(f"Received forecast request: {data}")] and
    [print(f"Generating forecast for {city}, {hours} hours")]; the
    [except ValueError] clause also catches their [UnicodeEncodeError]. *)
Definition get_forecast (e : env) (data : jval) : response :=
  let body :=
    bind (print_value e data) (fun _ =>
    bind (city_missing data) (fun missing =>
    if missing then Ok (JsonError 400 (Msg "City parameter is required"))
    else
      bind (getitem data "city") (fun city =>
      bind (jget data "hours" (JNum 24)) (fun h =>
      bind (py_int (int_of_str e) h) (fun hours =>
      bind (print_value e city) (fun _ =>
      if (hours <? 1) || (168 <? hours) then
        Ok (JsonError 400 (Msg "Hours must be between 1 and 168"))
      else
        bind (generate_mock_forecast e city hours)
             (fun formatted_predictions =>
                Ok (ForecastOk city formatted_predictions hours
                               (str_full (now e)))))))))) in
  match body with
  | Ok r => r
  | Raise ex =>
      if is_ValueError ex then JsonError 400 (InvalidInput ex)
      else JsonError 500 (Msg "Internal server error occurred")
  end.

Definition get_historical_data (e : env) (data : jval) : response :=
  let body :=
    bind (jget data "city" (JStr "Mumbai")) (fun city =>
    bind (jget data "days" (JNum 7)) (fun d =>
    bind (py_int (int_of_str e) d) (fun days =>
    bind (generate_historical_data e city days) (fun historical_data =>
    Ok (HistoricalOk city historical_data days))))) in
  match body with
  | Ok r => r
  | Raise ex => JsonError 500 (StrOf ex)
  end.

End App.

(* ===================================================================== *)
(** ** Sample inputs *)
(* ===================================================================== *)

Module Samples.
Import Fetcher App.

(** A record as [fetch_openweather_pollution] builds it. *)
Definition openweather_record (pm2_5 : Q) : gmap string pyval :=
  list_to_map
    [ ("timestamp", PyTime 1793700000);
      ("aqi", PyNum 3);
      ("co", PyNum 320.4%Q);
      ("no", PyNum 0.1%Q);
      ("no2", PyNum 12%Q);
      ("o3", PyNum 48%Q);
      ("so2", PyNum 6%Q);
      ("pm2_5", PyNum pm2_5);
      ("pm10", PyNum 61%Q);
      ("nh3", PyNum 2%Q);
      ("source", PyStr "OpenWeatherMap") ].

(** An OpenWeather record handed to [combine_data_sources] without the
    two particulate fields. *)
Definition openweather_partial : gmap string pyval :=
  list_to_map
    [ ("timestamp", PyTime 1793700000);
      ("aqi", PyNum 3);
      ("no2", PyNum 12%Q);
      ("o3", PyNum 48%Q);
      ("source", PyStr "OpenWeatherMap") ].

(** A record as [fetch_waqi_data] builds it. *)
Definition waqi_record (pm25 aqi : pyval) : gmap string pyval :=
  list_to_map
    [ ("timestamp", PyTime 1793700000);
      ("aqi", aqi);
      ("pm25", pm25);
      ("pm10", PyNum 120%Q);
      ("o3", PyNone);
      ("no2", PyNum 14%Q);
      ("so2", PyNone);
      ("co", PyNone);
      ("dominant_pollutant", PyStr "pm25");
      ("city_name", PyStr "Mumbai");
      ("source", PyStr "WAQI") ].

(** Providers that all answer. *)
Definition online : providers :=
  {| openweather_api := fun _ _ _ => Ok (openweather_record 40);
     airvisual_api := fun _ _ => Ok None;
     waqi_api := fun _ _ => Ok (Some (waqi_record (PyNum 90) (PyNum 75))) |}.

(** Providers that cannot be reached. *)
Definition offline : providers :=
  {| openweather_api := fun _ _ _ => Raise ValueError;
     airvisual_api := fun _ _ => Raise ValueError;
     waqi_api := fun _ _ => Raise ValueError |}.

(** A Tuesday morning, a generator that always draws the middle of the
    interval, and the fetcher as app.py builds it.  The examples below
    do not reach [math_sin] and [int_of_str].  In these samples a text
    that starts with a question mark stands for one the console cannot
    encode. *)
Definition env_sample : env :=
  {| rnd := fun _ => (1 # 2)%Q;
     now := Moment 10 1 307 "2026-11-03 10:15:00" "Tue" "11/03";
     now_plus_hours := fun h =>
       Ok (Moment ((10 + h) mod 24) (((10 + h) / 24 + 1) mod 7)
                  (307 + (10 + h) / 24)
                  "2026-11-03 10:15:00" "Tue" "11/03");
     days_ago_str := fun d =>
       Ok (nth (Z.to_nat d)
               ["2026-11-03"; "2026-11-02"; "2026-11-01"] "2026-10-31");
     math_pi := (355 # 113)%Q;
     math_sin := fun _ => 0%Q;
     int_of_str := fun _ => None;
     stdout_encodes := fun s => negb (String.prefix "?" s);
     real_data_fetcher := init (Some "0123456789abcdef");
     world := online;
     fetch_time := 1793700000 |}.

End Samples.

(* ===================================================================== *)
(** ** Vocabulary of the specification *)
(* ===================================================================== *)

Module Spec.
Import Forecaster.

(** The interpolation as the specification writes it:
    [aqi_lo + (aqi_hi - aqi_lo) * (value - bp_lo) / (bp_hi - bp_lo)]. *)
Definition spec_sub_index (b : bracket) (value : Q) : Q :=
  let '(bp_lo, bp_hi, aqi_lo, aqi_hi) := b in
  (inject_Z aqi_lo
   + (inject_Z aqi_hi - inject_Z aqi_lo) * (value - inject_Z bp_lo)
     / (inject_Z bp_hi - inject_Z bp_lo))%Q.

(** The sub-indices the loop meets, with their pollutants, in the order
    of [pollutant_levels.items()]. *)
Definition sub_indices (pollutant_levels : list (string * Q))
  : list (string * Q) :=
  omap (fun item => (fun s => (item.1, s)) <$> sub_index item.1 item.2)
       pollutant_levels.

(** The maximum and its first holder: [st] bounds every sub-index of
    [subs]; either nothing exceeded the initial 0 and no pollutant was
    recorded, or [max_aqi st] is a sub-index of [subs], every earlier one
    is strictly smaller, and its pollutant is the recorded one. *)
Definition loop_invariant (subs : list (string * Q)) (st : loop_state)
  : Prop :=
  (forall x, x ∈ subs -> (x.2 <= max_aqi st)%Q) /\
  ((max_aqi st = 0%Q /\ dominant st = None /\
    forall x, x ∈ subs -> (x.2 == 0)%Q)
   \/
   ((0 < max_aqi st)%Q /\
    exists pre p post,
      subs = pre ++ (p, max_aqi st) :: post /\
      (forall x, x ∈ pre -> (x.2 < max_aqi st)%Q) /\
      dominant st = Some p)).

(** [b] is the first bracket of [bps] that contains [value]. *)
Definition first_hit (bps : list bracket) (value : Q) (b : bracket)
  : Prop :=
  exists pre post,
    bps = pre ++ b :: post /\
    Forall (fun b' => in_bracket b' value = false) pre /\
    in_bracket b value = true.

(** A category chain with the thresholds 50 / 100 / 200 / 300, each
    threshold belonging to the lower category. *)
Definition threshold_chain (f : Q -> string) : Prop :=
  forall a : Q,
    ((a <= 50)%Q -> f a = "Good") /\
    ((50 < a)%Q -> (a <= 100)%Q -> f a = "Satisfactory") /\
    ((100 < a)%Q -> (a <= 200)%Q -> f a = "Moderate") /\
    ((200 < a)%Q -> (a <= 300)%Q -> f a = "Poor") /\
    ((300 < a)%Q -> f a = "Very Poor").

(** The AQI the providers offer, by the priority of the reconciler:
    AirVisual's [aqi_us] when AirVisual is among the sources, otherwise
    WAQI's [aqi] when WAQI is, otherwise nothing. *)
Definition offered_aqi (data_sources : list (string * gmap string pyval))
  : option pyval :=
  match assoc data_sources "airvisual" with
  | Some d => Some (dict_get d "aqi_us")
  | None =>
      match assoc data_sources "waqi" with
      | Some d => Some (dict_get d "aqi")
      | None => None
      end
  end.

(** The cities the service lists ([/api/cities]); they are the keys of
    [city_coords], [city_mapping] and [base_pollution]. *)
Definition supported_cities : list string :=
  ["Mumbai"; "Delhi"; "Bangalore"; "Chennai"; "Kolkata"; "Hyderabad"].

End Spec.

(* ===================================================================== *)
(** ** forecaster.py: the training rows and the report *)
(* ===================================================================== *)

Module Report.
Import Forecaster.

(** [min(a, b)] returns [a] unless [b] is strictly smaller. *)
Definition py_min (a b : Q) : Q := if Qlt_bool b a then b else a.

(** The lists [generate_synthetic_data] draws from. *)
Definition cities : list string :=
  ["Mumbai"; "Delhi"; "Bangalore"; "Chennai"; "Kolkata"; "Hyderabad"].

Definition weather_conditions : list string :=
  ["Clear"; "Cloudy"; "Rainy"; "Foggy"; "Stormy"].

(** The three dictionaries indexed with [[...]] in the loop. *)
Definition training_base_pollution : list (string * Q) :=
  [ ("Mumbai", 80%Q); ("Delhi", 150%Q); ("Bangalore", 60%Q);
    ("Chennai", 70%Q); ("Kolkata", 100%Q); ("Hyderabad", 75%Q) ].

Definition seasonal_mults : list (string * Q) :=
  [ ("Winter", 1.5%Q); ("Spring", 1.0%Q); ("Summer", 1.2%Q);
    ("Monsoon", 0.7%Q) ].

Definition weather_mults : list (string * Q) :=
  [ ("Clear", 1.0%Q); ("Cloudy", 1.1%Q); ("Rainy", 0.6%Q);
    ("Foggy", 1.4%Q); ("Stormy", 0.7%Q) ].

(** [d[k]]: [KeyError] when the key is missing. *)
Definition index {A} (d : list (string * A)) (k : string) : result A :=
  match assoc d k with
  | Some v => Ok v
  | None => Raise KeyError
  end.

(** What numpy's generator returns during one iteration, in the order
    of the calls. *)
Record draws := Draws {
  city_choice : string;        (* np.random.choice(cities) *)
  temperature_noise : Q;       (* np.random.normal(0, 5) *)
  humidity_noise : Q;          (* np.random.normal(0, 15) *)
  wind_draw : Q;               (* np.random.exponential(8) *)
  pressure_noise : Q;          (* np.random.normal(0, 20) *)
  weather_choice : string;     (* np.random.choice(weather_conditions) *)
  pm25_noise : Q;              (* np.random.normal(0, 15) *)
  pm10_noise : Q;              (* np.random.normal(0, 20) *)
  no2_noise : Q;               (* np.random.normal(0, 10) *)
  so2_noise : Q;               (* np.random.normal(0, 8) *)
  co_noise : Q;                (* np.random.normal(0, 5) *)
  o3_noise : Q                 (* np.random.normal(0, 15) *)
}.

(** The columns of one row, but for the timestamp itself. *)
Record training_row := TrainingRow {
  row_city : string;
  row_pm25 : Q;
  row_pm10 : Q;
  row_no2 : Q;
  row_so2 : Q;
  row_co : Q;
  row_o3 : Q;
  row_temperature : Q;
  row_humidity : Q;
  row_wind_speed : Q;
  row_pressure : Q;
  row_weather_condition : string;
  row_season : string;
  row_hour : Z;
  row_day_of_week : Z;
  row_is_weekend : Z
}.

(** The chain on [month]: season, [temp_base], [humidity_base]. *)
Definition season_of (month : Z) : string * Q * Q :=
  if existsb (Z.eqb month) [12; 1; 2] then ("Winter", 15%Q, 70%Q)
  else if existsb (Z.eqb month) [3; 4; 5] then ("Spring", 25%Q, 60%Q)
  else if existsb (Z.eqb month) [6; 7; 8; 9] then ("Monsoon", 28%Q, 85%Q)
  else ("Summer", 35%Q, 45%Q).

(** The body of the loop of [generate_synthetic_data]: one row, from
    [timestamp.hour], [timestamp.weekday()], [timestamp.month] and the
    draws. *)
Definition synthetic_record (hour day_of_week month : Z) (d : draws)
  : result training_row :=
  let city := city_choice d in
  let is_weekend := if 5 <=? day_of_week then 1 else 0 in
  let '(season, temp_base, humidity_base) := season_of month in
  let temperature := (temp_base + temperature_noise d)%Q in
  let humidity :=
    py_max 20 (py_min 100 (humidity_base + humidity_noise d)%Q) in
  let wind_speed := py_max 0 (wind_draw d) in
  let pressure := (1013 + pressure_noise d)%Q in
  let weather_condition := weather_choice d in
  bind (index training_base_pollution city) (fun base_pollution =>
  bind (index seasonal_mults season) (fun seasonal_mult =>
  let rush_hour_mult :=
    if existsb (Z.eqb hour) [7; 8; 18; 19] then 1.3%Q else 1.0%Q in
  let weekend_mult := if is_weekend =? 0 then 1.0%Q else 0.8%Q in
  bind (index weather_mults weather_condition) (fun weather_mult =>
  let wind_mult := py_max 0.5 (1.2 - wind_speed / 20)%Q in
  let pollution_factor :=
    (base_pollution * seasonal_mult * rush_hour_mult * weekend_mult
     * weather_mult * wind_mult)%Q in
  let pm25 := py_max 0 (pollution_factor * 0.6 + pm25_noise d)%Q in
  let pm10 := py_max 0 (pm25 * 1.8 + pm10_noise d)%Q in
  let no2 := py_max 0 (pollution_factor * 0.4 + no2_noise d)%Q in
  let so2 := py_max 0 (pollution_factor * 0.2 + so2_noise d)%Q in
  let co := py_max 0 (pollution_factor * 0.1 + co_noise d)%Q in
  let o3 := py_max 0 (60 + (temperature - 25) * 2 + o3_noise d)%Q in
  Ok (TrainingRow city pm25 pm10 no2 so2 co o3 temperature humidity
                  wind_speed pressure weather_condition season hour
                  day_of_week is_weekend)))).

(** The chain of [generate_report] on the rounded AQI of the first
    prediction: the line it prints. *)
Definition report_advice (aqi : Z) : string :=
  if aqi <=? 50 then "- Air quality is good. Enjoy outdoor activities!"
  else if aqi <=? 100 then
    "- Air quality is satisfactory. Sensitive individuals should limit outdoor exposure."
  else if aqi <=? 200 then
    "- Air quality is moderate. Consider reducing outdoor activities."
  else
    "- Air quality is poor. Avoid outdoor activities. Use air purifiers indoors.".

(** One iteration of the search for the peak: [max_aqi] and [peak_hour]. *)
Definition peak_step (st : Z * option nat)
           (item : nat * list (string * Q)) : Z * option nat :=
  let '(i, pred) := item in
  let aqi := aqi (get_air_quality_index pred) in
  if st.1 <? aqi then (aqi, Some i) else st.

(** The loop over [enumerate(predictions)]. *)
Definition find_peak (predictions : list (list (string * Q)))
  : Z * option nat :=
  fold_left peak_step (imap pair predictions) (0, None).

(** What the search for the peak holds after any number of
    predictions. *)
Definition peak_invariant (predictions : list (list (string * Q)))
           (st : Z * option nat) : Prop :=
  (forall pred, pred ∈ predictions ->
                (aqi (get_air_quality_index pred) <= st.1)%Z) /\
  match st.2 with
  | None => st.1 = 0%Z
  | Some i =>
      (0 < st.1)%Z /\
      exists pred,
        predictions !! i = Some pred /\
        aqi (get_air_quality_index pred) = st.1 /\
        forall j pred', (j < i)%nat -> predictions !! j = Some pred' ->
                        (aqi (get_air_quality_index pred') < st.1)%Z
  end.

(** What [generate_report] prints. *)
Record report := MkReport {
  aqi_info : aqi_result;
  peak_aqi : Z;
  peak_hour : option nat;
  advice : string
}.

(** [generate_report] once [predict_future] has returned [predictions]
    (the models are outside the embedding): [None] stands for the
    [IndexError] of [predictions[0]] on an empty list.  The plot is not
    modelled. *)
Definition generate_report (predictions : list (list (string * Q)))
  : option report :=
  match predictions with
  | [] => None
  | current :: _ =>
      let aqi_info := get_air_quality_index current in
      let '(max_aqi, peak_hour) := find_peak predictions in
      Some (MkReport aqi_info max_aqi peak_hour
                     (report_advice (aqi aqi_info)))
  end.

End Report.

(* ===================================================================== *)
(** ** app.py and real_data_fetcher.py: the remaining entry points *)
(* ===================================================================== *)

Module Service.
Import Fetcher App.

(** The dictionary [generate_health_recommendations] returns. *)
Record recommendations := Recommendations {
  level : string;
  rec_color : string;
  message : string;
  activities : list string;
  precautions : list string
}.

Definition generate_health_recommendations (aqi : Z) : recommendations :=
  if aqi <=? 50 then
    Recommendations
      "Good" "green"
      "Air quality is excellent. Perfect for all outdoor activities."
      ["Running"; "Cycling"; "Outdoor Sports"; "Walking"]
      []
  else if aqi <=? 100 then
    Recommendations
      "Satisfactory" "yellow"
      "Air quality is acceptable for most people."
      ["Light Exercise"; "Walking"; "Outdoor Dining"]
      ["Sensitive individuals should limit prolonged outdoor exposure"]
  else if aqi <=? 200 then
    Recommendations
      "Moderate" "orange"
      "Air quality is unhealthy for sensitive groups."
      ["Indoor Exercise"; "Short Walks"; "Avoid Strenuous Activity"]
      ["Wear masks outdoors"; "Limit outdoor time"; "Keep windows closed"]
  else
    Recommendations
      "Unhealthy" "red"
      "Air quality is unhealthy for all people."
      ["Stay Indoors"; "Use Air Purifiers"; "Avoid Outdoor Activities"]
      ["Wear N95 masks if going outside";
       "Consult doctor if breathing issues";
       "Keep all windows closed"].

(** A response of the two handlers below: the body of the 200 answer
    (with ['success': True]), or a status with
    [{'success': False, 'error': ...}]. *)
Inductive reply (A : Type) :=
| Reply200 (body : A)
| ReplyError (status : Z) (error : errmsg).
Arguments Reply200 {A} body.
Arguments ReplyError {A} status error.

Definition reply_status {A} (r : reply A) : Z :=
  match r with
  | Reply200 _ => 200
  | ReplyError status _ => status
  end.

(** [/api/health-recommendations]: the body holds ['aqi'] and
    ['recommendations']. *)
Definition get_health_recommendations (e : env) (data : jval)
  : reply (Z * recommendations) :=
  let body :=
    bind (jget data "aqi" (JNum 50)) (fun a =>
    bind (py_int (int_of_str e) a) (fun aqi =>
    Ok (aqi, generate_health_recommendations aqi))) in
  match body with
  | Ok r => Reply200 r
  | Raise ex => ReplyError 500 (StrOf ex)
  end.

(** One entry of [sources_status]: ['status'] and ['last_updated'].  The
    fetchers catch their exceptions themselves, so the ['error'] entry of
    the bare [except:] is not reached. *)
Definition source_status (data : option (gmap string pyval))
  : string * pyval :=
  if usable data then ("active", dict_get (default ∅ data) "timestamp")
  else ("inactive", PyNone).

(** [/api/data-sources]: ['sources'] and ['total_active']. *)
Definition get_data_sources (e : env)
  : reply (list (string * (string * pyval)) * Z) :=
  let test_city := JStr "Mumbai" in
  let self := real_data_fetcher e in
  let sources_status :=
    [ ("openweather",
       source_status (fetch_openweather_pollution self (world e) test_city));
      ("airvisual",
       source_status (fetch_airvisual_data self (world e) test_city));
      ("waqi",
       source_status (fetch_waqi_data self (world e) test_city)) ] in
  Reply200
    (sources_status,
     Z.of_nat
       (length (filter (fun s => s.2.1 = "active") sources_status))).

(** [get_real_air_quality] of real_data_fetcher.py: a fetcher of its
    own, and no [try] around it.  Each branch prints a line with the
    city; the fallback then runs [from app import
    generate_current_conditions], [import_app] being what that import
    does. *)
Definition get_real_air_quality (e : env) (getenv_key : option string)
           (import_app : result unit) (city : jval)
  : result (gmap string pyval) :=
  bind (fetch_combined_data (init getenv_key) (world e) (fetch_time e) city)
       (fun real_data =>
          if usable real_data then
            bind (print_value e city) (fun _ => Ok (default ∅ real_data))
          else
            bind (print_value e city) (fun _ =>
            bind import_app (fun _ =>
            generate_current_conditions e city))).

(** The keys every reading has, real or synthetic. *)
Definition reading_keys : list string :=
  ["PM2.5"; "PM10"; "NO2"; "SO2"; "CO"; "O3"; "category"; "color";
   "timestamp"].

(** All the keys [combine_data_sources] can set. *)
Definition combined_keys : list string :=
  ["timestamp"; "sources_used"; "PM2.5"; "PM10"; "NO2"; "SO2"; "CO"; "O3";
   "AQI"; "temperature"; "humidity"; "pressure"; "wind_speed"; "category";
   "color"].

(** The local variables [rush_hour_effect], [pm25], [pm10], [no2] and
    [aqi] of [generate_current_conditions], by name. *)
Definition current_rush (e : env) : Q :=
  if in_hours (hour_of (now e)) [7; 8; 9; 18; 19; 20] then 1.3%Q else 1.0%Q.

Definition current_pm25 (e : env) (base : Q) : Q :=
  py_max 10 (base * current_rush e + uniform (rnd e 0) (-20) 25)%Q.

Definition current_pm10 (e : env) (base : Q) : Q :=
  (current_pm25 e base * uniform (rnd e 1) 1.6 2.0
   + uniform (rnd e 2) (-15) 20)%Q.

Definition current_no2 (e : env) (base : Q) : Q :=
  (base * 0.4 * current_rush e + uniform (rnd e 3) (-12) 15)%Q.

Definition current_aqi (e : env) (base : Q) : Q :=
  py_max (py_max (current_pm25 e base * 2.2) (current_pm10 e base * 1.1))%Q
         (current_no2 e base * 1.8)%Q.

(** [list(range(0, hours, step))] with the step [generate_mock_forecast]
    chooses. *)
Definition forecast_step (hours : Z) : Z :=
  if hours <=? 48 then 1 else if hours <=? 168 then 2 else 4.

End Service.

(* ===================================================================== *)
(** ** More sample inputs *)
(* ===================================================================== *)

Module More.
Import Fetcher App Report.

(** Draws that pull every value of a training row down. *)
Definition gloomy_draws : draws :=
  {| city_choice := "Delhi";
     temperature_noise := (-12)%Q;
     humidity_noise := (-70)%Q;
     wind_draw := 31.5%Q;
     pressure_noise := (-18)%Q;
     weather_choice := "Foggy";
     pm25_noise := (-400)%Q;
     pm10_noise := (-35)%Q;
     no2_noise := (-400)%Q;
     so2_noise := (-400)%Q;
     co_noise := (-400)%Q;
     o3_noise := (-90)%Q |}.

(** A record as [fetch_airvisual_data] builds it. *)
Definition airvisual_record (aqi_us : pyval) : gmap string pyval :=
  list_to_map
    [ ("timestamp", PyTime 1793700000);
      ("aqi_us", aqi_us);
      ("aqi_cn", PyNum 88%Q);
      ("main_pollutant_us", PyStr "p2");
      ("main_pollutant_cn", PyStr "p2");
      ("temperature", PyNum 29%Q);
      ("humidity", PyNum 64%Q);
      ("pressure", PyNum 1009%Q);
      ("wind_speed", PyNum 3.6%Q);
      ("source", PyStr "AirVisual") ].

(** An OpenWeather record of a clean hour: no particulates at all. *)
Definition openweather_clean : gmap string pyval :=
  list_to_map
    [ ("timestamp", PyTime 1793700000);
      ("aqi", PyNum 1);
      ("co", PyNum 201.9%Q);
      ("no", PyNum 0%Q);
      ("no2", PyNum 3%Q);
      ("o3", PyNum 40%Q);
      ("so2", PyNum 1%Q);
      ("pm2_5", PyNum 0%Q);
      ("pm10", PyNum 0%Q);
      ("nh3", PyNum 0%Q);
      ("source", PyStr "OpenWeatherMap") ].

End More.

(* ===================================================================== *)
(** ** Binary64 arithmetic and the two calculators in it *)
(* ===================================================================== *)

(** The floats of the source are IEEE 754 binary64 numbers.  A finite
    one is a rational, and an operation returns the exact result rounded
    to the nearest binary64 number, ties to the even significand.
    Overflow to infinity is left out: the values met here stay far below
    [2 ^ 1024]. *)
Module Binary64.
Local Open Scope Q_scope.

(** [floor(log2 x)] for a positive [x]. *)
Definition ilog2 (x : Q) : Z :=
  let k := (Z.log2 (Qnum x) - Z.log2 (Z.pos (Qden x)))%Z in
  if Qle_bool (2 ^ k) x then k else (k - 1)%Z.

(** The exponent of the last place of the binary64 numbers around [x]:
    53 significant bits, and no exponent below that of the subnormal
    numbers. *)
Definition ulp_exponent (x : Q) : Z :=
  Z.max (ilog2 (Qabs x) - 52) (-1074).

(** The binary64 number nearest to [x], ties to even. *)
Definition round64 (x : Q) : Q :=
  if Qeq_bool x 0 then 0
  else
    let e := ulp_exponent x in
    inject_Z (py_round (x * 2 ^ (- e))) * 2 ^ e.

(** [a + b], [a - b], [a * b] and [a / b] on floats. *)
Definition fadd (a b : Q) : Q := round64 (a + b).
Definition fsub (a b : Q) : Q := round64 (a - b).
Definition fmul (a b : Q) : Q := round64 (a * b).
Definition fdiv (a b : Q) : Q := round64 (a / b).

End Binary64.

(** [get_air_quality_index] with the arithmetic of the source.  The
    table holds integers, [level] is a float (or an integer, which the
    operations convert without error): the quotient of two integers is
    the correctly rounded float, and the comparisons are exact. *)
Module Forecaster64.
Import Forecaster Binary64.
Local Open Scope Q_scope.

(** [((aqi_hi - aqi_lo) / (bp_hi - bp_lo)) * (level - bp_lo) + aqi_lo]. *)
Definition interpolate (b : bracket) (level : Q) : Q :=
  let '(bp_lo, bp_hi, aqi_lo, aqi_hi) := b in
  fadd (fmul (fdiv (inject_Z (aqi_hi - aqi_lo)) (inject_Z (bp_hi - bp_lo)))
             (fsub level (inject_Z bp_lo)))
       (inject_Z aqi_lo).

Fixpoint scan_brackets (bps : list bracket) (level : Q) : option Q :=
  match bps with
  | [] => None
  | b :: rest =>
      if in_bracket b level then Some (interpolate b level)
      else scan_brackets rest level
  end.

Definition sub_index (pollutant : string) (level : Q) : option Q :=
  match lookup_breakpoints aqi_breakpoints pollutant with
  | Some bps => scan_brackets bps level
  | None => None
  end.

Definition loop_step (st : loop_state) (item : string * Q) : loop_state :=
  let '(pollutant, level) := item in
  match sub_index pollutant level with
  | Some aqi =>
      if Qlt_bool (max_aqi st) aqi then LoopState aqi (Some pollutant)
      else st
  | None => st
  end.

Definition run_loop (pollutant_levels : list (string * Q)) : loop_state :=
  fold_left loop_step pollutant_levels loop_init.

Definition get_air_quality_index (pollutant_levels : list (string * Q))
  : aqi_result :=
  let st := run_loop pollutant_levels in
  let '(cat, col) := aqi_category (max_aqi st) in
  AqiResult (py_round (max_aqi st)) cat col (dominant st).

(** The sub-indices the loop meets, with their pollutants, in the order
    of [pollutant_levels.items()]. *)
Definition sub_indices (pollutant_levels : list (string * Q))
  : list (string * Q) :=
  omap (fun item => (fun s => (item.1, s)) <$> sub_index item.1 item.2)
       pollutant_levels.

(** The shape of the brackets of the table: non-negative bounds, a positive width of at most 150
    and an AQI band of at most 100 within 0..400. *)
Definition bracket_shape (b : bracket) : Prop :=
  let '(bp_lo, bp_hi, aqi_lo, aqi_hi) := b in
  (0 <= bp_lo /\ bp_lo < bp_hi /\ bp_hi - bp_lo <= 150 /\
   0 <= aqi_lo /\ aqi_lo <= aqi_hi /\ aqi_hi <= 400 /\
   aqi_hi - aqi_lo <= 100)%Z.

(** The float [0.8999999999999999], which is [0x1.cccccccccccccp-1]. *)
Definition just_below_0_9 : Q := 8106479329266892 # 9007199254740992.

End Forecaster64.

(** [calculate_aqi_from_pm25] with the arithmetic of the source: a
    decimal literal is the binary64 number nearest to it. *)
Module Fetcher64.
Import Binary64.
Local Open Scope Q_scope.

Definition calculate_aqi_from_pm25 (pm25 : Q) : Q :=
  let lit := round64 in
  if Qle_bool pm25 (lit 12.0) then fdiv (fmul pm25 50) (lit 12.0)
  else if Qle_bool pm25 (lit 35.4) then
    fadd 50 (fdiv (fmul (fsub pm25 (lit 12.0)) 50)
                  (fsub (lit 35.4) (lit 12.0)))
  else if Qle_bool pm25 (lit 55.4) then
    fadd 100 (fdiv (fmul (fsub pm25 (lit 35.4)) 50)
                   (fsub (lit 55.4) (lit 35.4)))
  else if Qle_bool pm25 (lit 150.4) then
    fadd 150 (fdiv (fmul (fsub pm25 (lit 55.4)) 50)
                   (fsub (lit 150.4) (lit 55.4)))
  else if Qle_bool pm25 (lit 250.4) then
    fadd 200 (fdiv (fmul (fsub pm25 (lit 150.4)) 100)
                   (fsub (lit 250.4) (lit 150.4)))
  else
    fadd 300 (fdiv (fmul (fsub pm25 (lit 250.4)) 100)
                   (fsub (lit 350.4) (lit 250.4))).

(** The float after [60.0], which is [60 + 2 ^ -47]. *)
Definition just_above_60 : Q := 8444249301319681 # 140737488355328.

End Fetcher64.

(* ===================================================================== *)
(** * Properties *)
(* ===================================================================== *)

Import Spec.

Import Forecaster.

(** ** Comparisons and rounding *)

Section Numbers.
Local Open Scope Q_scope.

Lemma Qle_bool_false (a b : Q) : Qle_bool a b = false <-> b < a.
Proof.
  rewrite <- not_true_iff_false, Qle_bool_iff.
  split; [apply Qnot_le_lt | apply Qlt_not_le].
Qed.

Lemma Qlt_bool_iff (a b : Q) : Qlt_bool a b = true <-> a < b.
Proof.
  unfold Qlt_bool. rewrite negb_true_iff. apply Qle_bool_false.
Qed.

Lemma Qlt_bool_false (a b : Q) : Qlt_bool a b = false <-> b <= a.
Proof.
  unfold Qlt_bool. rewrite negb_false_iff. apply Qle_bool_iff.
Qed.

Lemma py_max_le_l (a b : Q) : a <= py_max a b.
Proof.
  unfold py_max. destruct (Qlt_bool a b) eqn:E.
  - apply Qlt_bool_iff in E. lra.
  - lra.
Qed.

Lemma py_round_floor (x : Q) :
  (Qfloor x <= py_round x <= Qfloor x + 1)%Z.
Proof.
  unfold py_round.
  destruct (x - inject_Z (Qfloor x) ?= 1 # 2); [|lia..].
  destruct (Z.even (Qfloor x)); lia.
Qed.

(** [round] never reorders two numbers. *)
Lemma py_round_mono (x y : Q) : x <= y -> (py_round x <= py_round y)%Z.
Proof.
  intros Hxy.
  pose proof (Qfloor_resp_le _ _ Hxy) as Hfl.
  pose proof (py_round_floor x) as Hx.
  pose proof (py_round_floor y) as Hy.
  destruct (Z.eq_dec (Qfloor x) (Qfloor y)) as [Heq | Hne]; [|lia].
  unfold py_round in *. rewrite <- Heq in *.
  destruct (Qcompare_spec (x - inject_Z (Qfloor x)) (1 # 2)) as [Ex|Ex|Ex];
    destruct (Qcompare_spec (y - inject_Z (Qfloor x)) (1 # 2)) as [Ey|Ey|Ey];
    try lia; try lra;
    destruct (Z.even (Qfloor x)); lia.
Qed.

(** [round] leaves an integer alone. *)
Lemma py_round_inject_Z (n : Z) : py_round (inject_Z n) = n.
Proof.
  unfold py_round. rewrite Qfloor_Z.
  assert (E : (inject_Z n - inject_Z n ?= 1 # 2) = Lt).
  { apply Qlt_alt. unfold Qminus. rewrite Qplus_opp_r. reflexivity. }
  now rewrite E.
Qed.

Lemma py_round_le_Z (x : Q) (n : Z) :
  x <= inject_Z n -> (py_round x <= n)%Z.
Proof.
  intros H. rewrite <- (py_round_inject_Z n). now apply py_round_mono.
Qed.

Lemma py_round_ge_Z (x : Q) (n : Z) :
  inject_Z n <= x -> (n <= py_round x)%Z.
Proof.
  intros H. rewrite <- (py_round_inject_Z n) at 1. now apply py_round_mono.
Qed.

End Numbers.

(** ** The breakpoint scan *)

Section Scan.
Local Open Scope Q_scope.

Lemma in_bracket_true (b : bracket) (v : Q) :
  in_bracket b v = true <->
  inject_Z (b.1.1.1) <= v /\ v <= inject_Z (b.1.1.2).
Proof.
  destruct b as [[[lo hi] al] ah]. cbn.
  now rewrite andb_true_iff, !Qle_bool_iff.
Qed.

Lemma in_bracket_false (b : bracket) (v : Q) :
  in_bracket b v = false <->
  v < inject_Z (b.1.1.1) \/ inject_Z (b.1.1.2) < v.
Proof.
  destruct b as [[[lo hi] al] ah]. cbn.
  now rewrite andb_false_iff, !Qle_bool_false.
Qed.

Lemma scan_brackets_cons (b : bracket) (bps : list bracket) (v s : Q) :
  scan_brackets (b :: bps) v = Some s ->
  (in_bracket b v = true /\ s = interpolate b v) \/
  (in_bracket b v = false /\ scan_brackets bps v = Some s).
Proof.
  cbn. destruct (in_bracket b v); [left | right]; split; congruence.
Qed.

(** A successful lookup returns one of the three lists of the table. *)
Lemma lookup_breakpoints_In (tbl : list (string * list bracket))
      (p : string) (bps : list bracket) :
  lookup_breakpoints tbl p = Some bps -> In (p, bps) tbl.
Proof.
  induction tbl as [|[k b] tbl IH]; cbn; [discriminate|].
  destruct (String.eqb_spec k p) as [->|Hne].
  - intros [= ->]. now left.
  - intros H. right. now apply IH.
Qed.

End Scan.

(** Rational constants that the table leaves as [inject_Z] of an integer
    difference, or under a division, are evaluated so that linear
    arithmetic applies. *)
Ltac qconst :=
  unfold Qdiv in *;
  repeat match goal with
    | |- context [inject_Z ?z] =>
        let c := eval vm_compute in (inject_Z z) in
        progress change (inject_Z z) with c
    | H : context [inject_Z ?z] |- _ =>
        let c := eval vm_compute in (inject_Z z) in
        progress change (inject_Z z) with c in H
    | |- context [Qinv ?q] =>
        let c := eval vm_compute in (Qinv q) in
        progress change (Qinv q) with c
    | H : context [Qinv ?q] |- _ =>
        let c := eval vm_compute in (Qinv q) in
        progress change (Qinv q) with c in H
    end.

(** Case analysis of a scan of one of the concrete lists: which bracket
    was hit, with the bounds on the level as hypotheses. *)
Ltac scan_inv H :=
  first
    [ discriminate H
    | apply scan_brackets_cons in H;
      let Hin := fresh "Hin" in
      let Hs := fresh "Hs" in
      let Hout := fresh "Hout" in
      destruct H as [[Hin Hs] | [Hout H]];
      [ apply in_bracket_true in Hin; cbn [fst snd] in Hin;
        destruct Hin as [? ?]; unfold interpolate in Hs
      | apply in_bracket_false in Hout; cbn [fst snd] in Hout;
        scan_inv H ] ].

(** Case analysis on the pollutant of a sub-index: the three entries of
    the table. *)
Ltac table_cases p :=
  unfold sub_index in *;
  let L := fresh "L" in
  let bps := fresh "bps" in
  destruct (lookup_breakpoints aqi_breakpoints p) as [bps|] eqn:L;
  [ apply lookup_breakpoints_In in L; cbn [In aqi_breakpoints] in L;
    repeat (destruct L as [L | L]; [injection L as <- <- |]);
    [..| contradiction]
  | try discriminate ].

Section SubIndex.
Local Open Scope Q_scope.

(** Every bracket of the table has a positive width: the interpolation
    never divides by zero. *)
Lemma aqi_breakpoints_widths :
  Forall (fun entry =>
            Forall (fun b : bracket => (b.1.1.1 < b.1.1.2)%Z) entry.2)
         aqi_breakpoints.
Proof. repeat constructor. Qed.

(** Inside the table a sub-index lies between 0 and 400. *)
Lemma sub_index_range (p : string) (v s : Q) :
  sub_index p v = Some s -> 0 <= s <= 400.
Proof.
  intros H. table_cases p; scan_inv H; subst s; qconst; lra.
Qed.

(** It is never strictly between two AQI bands. *)
Lemma sub_index_bands (p : string) (v s : Q) :
  sub_index p v = Some s ->
  s <= 50 \/ 51 <= s <= 100 \/ 101 <= s <= 200 \/ 201 <= s <= 300
  \/ 301 <= s.
Proof.
  intros H. table_cases p; scan_inv H; subst s; qconst.
  all: first [ left; lra
             | right; left; lra
             | right; right; left; lra
             | right; right; right; left; lra
             | right; right; right; right; lra ].
Qed.

(** Within the table the sub-index grows with the concentration, inside
    a bracket and from one bracket to the next. *)
Lemma sub_index_mono (p : string) (v1 v2 s1 s2 : Q) :
  v1 <= v2 ->
  sub_index p v1 = Some s1 -> sub_index p v2 = Some s2 -> s1 <= s2.
Proof.
  intros Hv H1 H2.
  table_cases p; scan_inv H1; scan_inv H2; subst s1 s2; qconst; lra.
Qed.

End SubIndex.

(** ** The loop over the pollutants *)

Section Loop.
Local Open Scope Q_scope.

Lemma elem_of_sub_indices (l : list (string * Q)) (p : string) (s : Q) :
  (p, s) ∈ sub_indices l <->
  exists v, (p, v) ∈ l /\ sub_index p v = Some s.
Proof.
  unfold sub_indices. rewrite list_elem_of_omap. split.
  - intros ([p' v] & Hin & Hs). cbn in Hs.
    destruct (sub_index p' v) as [s'|] eqn:E; [|discriminate].
    injection Hs as -> ->. eauto.
  - intros (v & Hin & Hs). exists (p, v). split; [exact Hin|].
    cbn. now rewrite Hs.
Qed.

Lemma sub_indices_snoc (l : list (string * Q)) (p : string) (v : Q) :
  sub_indices (l ++ [(p, v)]) =
  sub_indices l ++ match sub_index p v with
                   | Some s => [(p, s)]
                   | None => []
                   end.
Proof.
  unfold sub_indices. rewrite omap_app. f_equal.
  cbn. now destruct (sub_index p v).
Qed.

Lemma sub_indices_nonneg (l : list (string * Q)) (x : string * Q) :
  x ∈ sub_indices l -> 0 <= x.2.
Proof.
  destruct x as [p s]. rewrite elem_of_sub_indices.
  intros (v & _ & Hs). cbn. now apply sub_index_range in Hs.
Qed.

(** What the two loop variables hold after any number of iterations. *)
Lemma run_loop_invariant (l : list (string * Q)) :
  loop_invariant (sub_indices l) (run_loop l).
Proof.
  unfold run_loop.
  induction l as [|[p v] l IH] using rev_ind.
  - split.
    + intros x Hx. cbn in Hx. now apply elem_of_nil in Hx.
    + left. cbn. repeat split. intros x Hx. now apply elem_of_nil in Hx.
  - rewrite fold_left_app, sub_indices_snoc. cbn [fold_left loop_step].
    destruct IH as [Hub Hdom].
    set (st := fold_left loop_step l loop_init) in *.
    destruct (sub_index p v) as [s|] eqn:Es; [|now rewrite app_nil_r].
    assert (Hs0 : 0 <= s) by (now apply sub_index_range in Es).
    destruct (Qlt_bool (max_aqi st) s) eqn:Elt.
    + (* the new sub-index is strictly greater: it takes over *)
      apply Qlt_bool_iff in Elt. split; cbn [max_aqi dominant].
      * intros x Hx. apply elem_of_app in Hx as [Hx | Hx].
        -- specialize (Hub x Hx). lra.
        -- apply list_elem_of_singleton in Hx as ->. cbn. lra.
      * right. split.
        -- destruct Hdom as [(E0 & _) | (Hpos & _)];
             [rewrite E0 in Elt|]; lra.
        -- exists (sub_indices l), p, []. repeat split.
           intros x Hx. specialize (Hub x Hx). lra.
    + (* otherwise both variables are kept *)
      apply Qlt_bool_false in Elt. split.
      * intros x Hx. apply elem_of_app in Hx as [Hx | Hx].
        -- now apply Hub.
        -- apply list_elem_of_singleton in Hx as ->. exact Elt.
      * destruct Hdom as [(E0 & Hnone & Hz) | (Hpos & pre & q & post & E & Hpre & Hq)].
        -- left. repeat split; [exact E0 | exact Hnone |].
           intros x Hx. apply elem_of_app in Hx as [Hx | Hx].
           ++ now apply Hz.
           ++ apply list_elem_of_singleton in Hx as ->. cbn.
              rewrite E0 in Elt. lra.
        -- right. split; [exact Hpos|].
           exists pre, q, (post ++ [(p, s)]). repeat split.
           ++ rewrite E. now rewrite <- app_assoc.
           ++ exact Hpre.
           ++ exact Hq.
Qed.

(** Raising one sub-index never lowers [max_aqi]. *)
Lemma loop_step_mono (st1 st2 : loop_state) (p : string) (v1 v2 : Q) :
  max_aqi st1 <= max_aqi st2 ->
  v1 <= v2 ->
  is_Some (sub_index p v2) \/ sub_index p v1 = None ->
  max_aqi (loop_step st1 (p, v1)) <= max_aqi (loop_step st2 (p, v2)).
Proof.
  intros Hst Hv Hin. cbn.
  destruct (sub_index p v1) as [s1|] eqn:E1;
    destruct (sub_index p v2) as [s2|] eqn:E2.
  - pose proof (sub_index_mono _ _ _ _ _ Hv E1 E2) as Hs.
    destruct (Qlt_bool (max_aqi st1) s1) eqn:L1;
      destruct (Qlt_bool (max_aqi st2) s2) eqn:L2; cbn;
      rewrite ?Qlt_bool_iff, ?Qlt_bool_false in *; lra.
  - destruct Hin as [[? Hx] | Hx]; discriminate.
  - destruct (Qlt_bool (max_aqi st2) s2) eqn:L2; cbn;
      rewrite ?Qlt_bool_iff, ?Qlt_bool_false in *; lra.
  - exact Hst.
Qed.

Lemma loop_step_same (st1 st2 : loop_state) (item : string * Q) :
  max_aqi st1 <= max_aqi st2 ->
  max_aqi (loop_step st1 item) <= max_aqi (loop_step st2 item).
Proof.
  intros Hst. destruct item as [p v]. cbn.
  destruct (sub_index p v) as [s|]; [|exact Hst].
  destruct (Qlt_bool (max_aqi st1) s) eqn:L1;
    destruct (Qlt_bool (max_aqi st2) s) eqn:L2; cbn;
    rewrite ?Qlt_bool_iff, ?Qlt_bool_false in *; lra.
Qed.

Lemma fold_loop_step_same (l : list (string * Q)) (st1 st2 : loop_state) :
  max_aqi st1 <= max_aqi st2 ->
  max_aqi (fold_left loop_step l st1) <= max_aqi (fold_left loop_step l st2).
Proof.
  revert st1 st2. induction l as [|item l IH]; intros st1 st2 Hst.
  - exact Hst.
  - cbn [fold_left]. apply IH. now apply loop_step_same.
Qed.

Lemma run_loop_mono (l1 l2 : list (string * Q)) (p : string) (v1 v2 : Q) :
  v1 <= v2 ->
  is_Some (sub_index p v2) \/ sub_index p v1 = None ->
  max_aqi (run_loop (l1 ++ (p, v1) :: l2))
  <= max_aqi (run_loop (l1 ++ (p, v2) :: l2)).
Proof.
  intros Hv Hin. unfold run_loop. rewrite !fold_left_app.
  cbn [fold_left]. apply fold_loop_step_same.
  apply loop_step_mono; [lra | exact Hv | exact Hin].
Qed.

End Loop.

(** Case analysis on every rational comparison of the goal. *)
Ltac qbool_cases :=
  repeat match goal with
    | |- context [Qle_bool ?a ?b] =>
        let E := fresh "E" in
        destruct (Qle_bool a b) eqn:E;
        [ apply Qle_bool_iff in E | apply Qle_bool_false in E ]
    end.

(** ** Categories *)

Section Categories.
Local Open Scope Q_scope.

Ltac chain := intros a; repeat split; intros; qbool_cases;
              first [ reflexivity | exfalso; lra ].

Lemma forecaster_chain : threshold_chain (fun a => (Forecaster.aqi_category a).1).
Proof. unfold Forecaster.aqi_category. chain. Qed.

Lemma fetcher_chain : threshold_chain (fun a => (Fetcher.aqi_category a).1).
Proof. unfold Fetcher.aqi_category. chain. Qed.

Lemma current_chain : threshold_chain (fun a => (App.current_category a).1).
Proof. unfold App.current_category. chain. Qed.

Lemma forecast_chain : threshold_chain App.forecast_category.
Proof. unfold App.forecast_category. chain. Qed.

Lemma historical_chain : threshold_chain App.historical_category.
Proof. unfold App.historical_category. chain. Qed.

(** Two values in the same band get the same category. *)
Lemma threshold_chain_band (f : Q -> string) (a b : Q) :
  threshold_chain f ->
  (a <= 50 /\ b <= 50) \/ (50 < a <= 100 /\ 50 < b <= 100) \/
  (100 < a <= 200 /\ 100 < b <= 200) \/ (200 < a <= 300 /\ 200 < b <= 300) \/
  (300 < a /\ 300 < b) ->
  f a = f b.
Proof.
  intros Hf H.
  destruct (Hf a) as (A1 & A2 & A3 & A4 & A5).
  destruct (Hf b) as (B1 & B2 & B3 & B4 & B5).
  destruct H as [[? ?] | [[[? ?] [? ?]] | [[[? ?] [? ?]] | [[[? ?] [? ?]] | [? ?]]]]].
  - now rewrite A1, B1.
  - now rewrite A2, B2.
  - now rewrite A3, B3.
  - now rewrite A4, B4.
  - now rewrite A5, B5.
Qed.

Lemma inject_Z_round_le (x : Q) (n : Z) :
  x <= inject_Z n -> inject_Z (py_round x) <= inject_Z n.
Proof. intros H. rewrite <- Zle_Qle. now apply py_round_le_Z. Qed.

Lemma inject_Z_round_ge (x : Q) (n : Z) :
  inject_Z n <= x -> inject_Z n <= inject_Z (py_round x).
Proof. intros H. rewrite <- Zle_Qle. now apply py_round_ge_Z. Qed.

(** In [get_air_quality_index] the category is computed from [max_aqi]
    before rounding; it is also the category of the rounded value that
    is returned, because no sub-index falls between two bands. *)
Lemma get_air_quality_index_category (l : list (string * Q)) :
  category (get_air_quality_index l)
  = (Forecaster.aqi_category
       (inject_Z (aqi (get_air_quality_index l)))).1.
Proof.
  unfold get_air_quality_index.
  set (m := max_aqi (run_loop l)).
  assert (Hb : m <= 50 \/ 51 <= m <= 100 \/ 101 <= m <= 200
               \/ 201 <= m <= 300 \/ 301 <= m).
  { destruct (run_loop_invariant l) as [_ [(E0 & _) | (_ & pre & p & post & E & _)]].
    - left. fold m in E0. rewrite E0. lra.
    - assert (Hin : (p, m) ∈ sub_indices l).
      { rewrite E. apply elem_of_app. right. apply elem_of_cons. now left. }
      apply elem_of_sub_indices in Hin as (v & _ & Hs).
      now apply sub_index_bands in Hs. }
  destruct (Forecaster.aqi_category m) as [cat col] eqn:Ecat. cbn [category aqi].
  change cat with ((cat, col).1). rewrite <- Ecat.
  apply (threshold_chain_band _ _ _ forecaster_chain).
  destruct Hb as [H | [[H1 H2] | [[H1 H2] | [[H1 H2] | H]]]].
  - left. split; [exact H|]. now apply (inject_Z_round_le m 50).
  - right; left. pose proof (inject_Z_round_ge m 51 H1).
    pose proof (inject_Z_round_le m 100 H2).
    change (inject_Z 51) with 51 in *. change (inject_Z 100) with 100 in *. lra.
  - right; right; left. pose proof (inject_Z_round_ge m 101 H1).
    pose proof (inject_Z_round_le m 200 H2).
    change (inject_Z 101) with 101 in *. change (inject_Z 200) with 200 in *. lra.
  - right; right; right; left. pose proof (inject_Z_round_ge m 201 H1).
    pose proof (inject_Z_round_le m 300 H2).
    change (inject_Z 201) with 201 in *. change (inject_Z 300) with 300 in *. lra.
  - right; right; right; right. pose proof (inject_Z_round_ge m 301 H).
    change (inject_Z 301) with 301 in *. lra.
Qed.

End Categories.

(** ** The reconciler *)

Section Reconciler.
Import Fetcher.

Implicit Types (c d : gmap string pyval)
         (ds : list (string * gmap string pyval)).

(** *** One source at a time *)

Lemma update_openweather_pm25 c d :
  update_openweather c d !! "PM2.5" = Some (dict_get d "pm2_5").
Proof. unfold update_openweather. now simplify_map_eq. Qed.

Lemma update_openweather_pm10 c d :
  update_openweather c d !! "PM10" = Some (dict_get d "pm10").
Proof. unfold update_openweather. now simplify_map_eq. Qed.

Lemma update_openweather_aqi c d :
  update_openweather c d !! "AQI" = c !! "AQI".
Proof. unfold update_openweather. now simplify_map_eq. Qed.

Lemma update_airvisual_aqi c d :
  update_airvisual c d !! "AQI" = Some (dict_get d "aqi_us").
Proof. unfold update_airvisual. now simplify_map_eq. Qed.

Lemma update_airvisual_pm25 c d :
  update_airvisual c d !! "PM2.5" = c !! "PM2.5".
Proof. unfold update_airvisual. now simplify_map_eq. Qed.

Lemma update_airvisual_pm10 c d :
  update_airvisual c d !! "PM10" = c !! "PM10".
Proof. unfold update_airvisual. now simplify_map_eq. Qed.

Lemma fill_if_absent_same (k : string) (v : pyval) c :
  fill_if_absent k v c !! k = Some (default v (c !! k)).
Proof.
  unfold fill_if_absent. destruct (c !! k) as [x|] eqn:E; cbn.
  - exact E.
  - apply lookup_insert_eq.
Qed.

Lemma fill_if_absent_other (k k' : string) (v : pyval) c :
  k <> k' -> fill_if_absent k v c !! k' = c !! k'.
Proof.
  intros Hne. unfold fill_if_absent. destruct (c !! k); [reflexivity|].
  now apply lookup_insert_ne.
Qed.

(** The WAQI branch looks at the presence of the key only: whatever is
    stored under it, even [None], is kept. *)
Lemma fill_from_waqi_pm25 c d :
  fill_from_waqi c d !! "PM2.5"
  = Some (default (dict_get d "pm25") (c !! "PM2.5")).
Proof.
  unfold fill_from_waqi.
  rewrite !fill_if_absent_other by discriminate.
  apply fill_if_absent_same.
Qed.

Lemma fill_from_waqi_pm10 c d :
  fill_from_waqi c d !! "PM10"
  = Some (default (dict_get d "pm10") (c !! "PM10")).
Proof.
  unfold fill_from_waqi.
  rewrite fill_if_absent_other by discriminate.
  rewrite fill_if_absent_same.
  now rewrite fill_if_absent_other by discriminate.
Qed.

Lemma fill_from_waqi_aqi c d :
  fill_from_waqi c d !! "AQI"
  = Some (default (dict_get d "aqi") (c !! "AQI")).
Proof.
  unfold fill_from_waqi.
  rewrite fill_if_absent_same.
  now rewrite !fill_if_absent_other by discriminate.
Qed.

(** Which branch a source name takes. *)
Lemma combine_step_openweather c d :
  combine_step c ("openweather", d) = update_openweather c d.
Proof. reflexivity. Qed.

Lemma combine_step_airvisual c d :
  combine_step c ("airvisual", d) = update_airvisual c d.
Proof. reflexivity. Qed.

Lemma combine_step_waqi c d :
  combine_step c ("waqi", d) = fill_from_waqi c d.
Proof. reflexivity. Qed.

Lemma combine_step_cases c (name : string) d :
  (name = "openweather" /\ combine_step c (name, d) = update_openweather c d)
  \/ (name = "airvisual" /\ combine_step c (name, d) = update_airvisual c d)
  \/ (name = "waqi" /\ combine_step c (name, d) = fill_from_waqi c d)
  \/ (name <> "openweather" /\ name <> "airvisual" /\ name <> "waqi"
      /\ combine_step c (name, d) = c).
Proof.
  unfold combine_step.
  destruct (String.eqb_spec name "openweather") as [->|H1]; [now left|].
  destruct (String.eqb_spec name "airvisual") as [->|H2];
    [right; now left|].
  destruct (String.eqb_spec name "waqi") as [->|H3];
    [right; right; now left|].
  right; right; right. repeat split; assumption.
Qed.

(** *** Fields that survive the rest of the loop *)

(** Once a pollutant key is set, only OpenWeather can change it. *)
Lemma combine_step_keeps_pm25 c (name : string) d (x : pyval) :
  name <> "openweather" ->
  c !! "PM2.5" = Some x -> combine_step c (name, d) !! "PM2.5" = Some x.
Proof.
  intros Hne Hx.
  destruct (combine_step_cases c name d)
    as [[-> _] | [[_ ->] | [[_ ->] | (_ & _ & _ & ->)]]].
  - contradiction.
  - now rewrite update_airvisual_pm25.
  - now rewrite fill_from_waqi_pm25, Hx.
  - exact Hx.
Qed.

Lemma combine_step_keeps_pm10 c (name : string) d (x : pyval) :
  name <> "openweather" ->
  c !! "PM10" = Some x -> combine_step c (name, d) !! "PM10" = Some x.
Proof.
  intros Hne Hx.
  destruct (combine_step_cases c name d)
    as [[-> _] | [[_ ->] | [[_ ->] | (_ & _ & _ & ->)]]].
  - contradiction.
  - now rewrite update_airvisual_pm10.
  - now rewrite fill_from_waqi_pm10, Hx.
  - exact Hx.
Qed.

(** Once the AQI key is set, only AirVisual can change it. *)
Lemma combine_step_keeps_aqi c (name : string) d (x : pyval) :
  name <> "airvisual" ->
  c !! "AQI" = Some x -> combine_step c (name, d) !! "AQI" = Some x.
Proof.
  intros Hne Hx.
  destruct (combine_step_cases c name d)
    as [[_ ->] | [[-> _] | [[_ ->] | (_ & _ & _ & ->)]]].
  - now rewrite update_openweather_aqi.
  - contradiction.
  - now rewrite fill_from_waqi_aqi, Hx.
  - exact Hx.
Qed.

(** The AQI key stays absent unless AirVisual or WAQI is met. *)
Lemma combine_step_no_aqi c (name : string) d :
  name <> "airvisual" -> name <> "waqi" ->
  c !! "AQI" = None -> combine_step c (name, d) !! "AQI" = None.
Proof.
  intros Hav Hwq Hx.
  destruct (combine_step_cases c name d)
    as [[_ ->] | [[-> _] | [[-> _] | (_ & _ & _ & ->)]]];
    try contradiction.
  - now rewrite update_openweather_aqi.
  - exact Hx.
Qed.

(** A property of [combined] that every source with an allowed name
    keeps is kept by a run of the loop over such sources. *)
Lemma fold_keeps (P : gmap string pyval -> Prop) (allowed : string -> Prop)
      ds :
  (forall c name d, allowed name -> P c -> P (combine_step c (name, d))) ->
  Forall (fun src => allowed src.1) ds ->
  forall c, P c -> P (fold_left combine_step ds c).
Proof.
  intros Hstep Hds. induction Hds as [|[name d] ds Hn _ IH]; intros c Hc.
  - exact Hc.
  - cbn [fold_left]. apply IH. now apply Hstep.
Qed.

(** With distinct source names, the sources before and after a given
    one are other sources. *)
Lemma split_source ds (name : string) d :
  NoDup ds.*1 -> (name, d) ∈ ds ->
  exists pre post,
    ds = pre ++ (name, d) :: post /\
    Forall (fun src => src.1 <> name) pre /\
    Forall (fun src => src.1 <> name) post.
Proof.
  intros Hnd Hin.
  apply list_elem_of_split in Hin as (pre & post & ->).
  exists pre, post. split; [reflexivity|].
  rewrite fmap_app, fmap_cons in Hnd. cbn in Hnd.
  apply NoDup_app in Hnd as (_ & Hpre & Hpost).
  apply NoDup_cons in Hpost as [Hpost _].
  split; apply Forall_forall; intros [n x] Hx E; cbn in E; subst n.
  - apply (Hpre name).
    + apply list_elem_of_fmap. now exists (name, x).
    + apply elem_of_cons. now left.
  - apply Hpost. apply list_elem_of_fmap. now exists (name, x).
Qed.

(** *** The loop as a whole *)

(** OpenWeather decides the pollutant keys wherever it stands in the
    dictionary of sources. *)
Lemma loop_pm25_openweather ds d c :
  NoDup ds.*1 -> ("openweather", d) ∈ ds ->
  fold_left combine_step ds c !! "PM2.5" = Some (dict_get d "pm2_5").
Proof.
  intros Hnd Hin.
  destruct (split_source _ _ _ Hnd Hin) as (pre & post & -> & _ & Hpost).
  rewrite fold_left_app. cbn [fold_left].
  apply (fold_keeps (fun c => c !! "PM2.5" = Some _)
                    (fun n => n <> "openweather")).
  - intros; now apply combine_step_keeps_pm25.
  - exact Hpost.
  - rewrite combine_step_openweather. apply update_openweather_pm25.
Qed.

Lemma loop_pm10_openweather ds d c :
  NoDup ds.*1 -> ("openweather", d) ∈ ds ->
  fold_left combine_step ds c !! "PM10" = Some (dict_get d "pm10").
Proof.
  intros Hnd Hin.
  destruct (split_source _ _ _ Hnd Hin) as (pre & post & -> & _ & Hpost).
  rewrite fold_left_app. cbn [fold_left].
  apply (fold_keeps (fun c => c !! "PM10" = Some _)
                    (fun n => n <> "openweather")).
  - intros; now apply combine_step_keeps_pm10.
  - exact Hpost.
  - rewrite combine_step_openweather. apply update_openweather_pm10.
Qed.

(** AirVisual decides the AQI key wherever it stands. *)
Lemma loop_aqi_airvisual ds d c :
  NoDup ds.*1 -> ("airvisual", d) ∈ ds ->
  fold_left combine_step ds c !! "AQI" = Some (dict_get d "aqi_us").
Proof.
  intros Hnd Hin.
  destruct (split_source _ _ _ Hnd Hin) as (pre & post & -> & _ & Hpost).
  rewrite fold_left_app. cbn [fold_left].
  apply (fold_keeps (fun c => c !! "AQI" = Some _)
                    (fun n => n <> "airvisual")).
  - intros; now apply combine_step_keeps_aqi.
  - exact Hpost.
  - rewrite combine_step_airvisual. apply update_airvisual_aqi.
Qed.

(** Without AirVisual, WAQI decides it. *)
Lemma loop_aqi_waqi ds d c :
  NoDup ds.*1 -> ("waqi", d) ∈ ds -> "airvisual" ∉ ds.*1 ->
  c !! "AQI" = None ->
  fold_left combine_step ds c !! "AQI" = Some (dict_get d "aqi").
Proof.
  intros Hnd Hin Hav Hc.
  assert (Hall : Forall (fun src => src.1 <> "airvisual") ds).
  { apply Forall_forall. intros [n x] Hx E. cbn in E. subst n.
    apply Hav. apply list_elem_of_fmap. now exists ("airvisual", x). }
  destruct (split_source _ _ _ Hnd Hin) as (pre & post & -> & Hpre & Hpost).
  apply Forall_app in Hall as [Hall1 Hall2].
  apply Forall_cons in Hall2 as [_ Hall2].
  rewrite fold_left_app. cbn [fold_left].
  apply (fold_keeps (fun c => c !! "AQI" = Some _)
                    (fun n => n <> "airvisual")).
  - intros; now apply combine_step_keeps_aqi.
  - exact Hall2.
  - rewrite combine_step_waqi, fill_from_waqi_aqi.
    assert (E : fold_left combine_step pre c !! "AQI" = None).
    { apply (fold_keeps (fun c => c !! "AQI" = None)
                        (fun n => n <> "airvisual" /\ n <> "waqi")).
      - intros c' n x [? ?] ?. now apply combine_step_no_aqi.
      - apply Forall_forall. intros src Hsrc. split.
        + exact (proj1 (Forall_forall _ _) Hall1 src Hsrc).
        + exact (proj1 (Forall_forall _ _) Hpre src Hsrc).
      - exact Hc. }
    now rewrite E.
Qed.

(** Without AirVisual and WAQI, it stays absent. *)
Lemma loop_no_aqi ds c :
  "airvisual" ∉ ds.*1 -> "waqi" ∉ ds.*1 ->
  c !! "AQI" = None ->
  fold_left combine_step ds c !! "AQI" = None.
Proof.
  intros Hav Hwq Hc.
  apply (fold_keeps (fun c => c !! "AQI" = None)
                    (fun n => n <> "airvisual" /\ n <> "waqi")).
  - intros c' n x [? ?] ?. now apply combine_step_no_aqi.
  - apply Forall_forall. intros [n x] Hx.
    split; intros E; cbn in E; subst n; [apply Hav | apply Hwq];
      apply list_elem_of_fmap; eexists (_, x); eauto.
  - exact Hc.
Qed.

Lemma combine_init_aqi (now : Z) ds : combine_init now ds !! "AQI" = None.
Proof. unfold combine_init. now simplify_map_eq. Qed.

Lemma assoc_Some_elem_of {A} (d : list (string * A)) (k : string) (v : A) :
  assoc d k = Some v -> (k, v) ∈ d.
Proof.
  induction d as [|[k' v'] d IH]; cbn; [discriminate|].
  destruct (String.eqb_spec k' k) as [->|Hne].
  - intros [= ->]. apply elem_of_cons. now left.
  - intros H. apply elem_of_cons. right. now apply IH.
Qed.

Lemma assoc_None_not_elem_of {A} (d : list (string * A)) (k : string) :
  assoc d k = None <-> k ∉ d.*1.
Proof.
  induction d as [|[k' v'] d IH]; cbn.
  - split; [intros _ H; now apply elem_of_nil in H | reflexivity].
  - rewrite not_elem_of_cons.
    destruct (String.eqb_spec k' k) as [->|Hne].
    + split; [discriminate | now intros [? _]].
    + rewrite IH. split; [intros H; split; [congruence | exact H] | now intros [_ H]].
Qed.

(** The AQI key after the loop holds what the providers offer. *)
Lemma loop_aqi_offered (now : Z) ds :
  NoDup ds.*1 -> combine_loop now ds !! "AQI" = offered_aqi ds.
Proof.
  intros Hnd. unfold combine_loop, offered_aqi.
  destruct (assoc ds "airvisual") as [av|] eqn:Eav.
  - apply loop_aqi_airvisual; [exact Hnd | now apply assoc_Some_elem_of].
  - apply assoc_None_not_elem_of in Eav.
    destruct (assoc ds "waqi") as [wq|] eqn:Ewq.
    + apply loop_aqi_waqi;
        [exact Hnd | now apply assoc_Some_elem_of | exact Eav
         | apply combine_init_aqi].
    + apply assoc_None_not_elem_of in Ewq.
      apply loop_no_aqi; [exact Eav | exact Ewq | apply combine_init_aqi].
Qed.

(** *** After the loop *)

Lemma categorize_ok c (a : Q) :
  c !! "AQI" = Some (PyNum a) ->
  categorize c
  = Ok (<["color" := PyStr (aqi_category a).2]>
          (<["category" := PyStr (aqi_category a).1]> c)).
Proof.
  intros E. unfold categorize. rewrite E. cbn.
  now destruct (aqi_category a).
Qed.

(** A numeric AQI from a provider is kept and categorised. *)
Lemma finish_provided c (a : Q) :
  c !! "AQI" = Some (PyNum a) ->
  finish c
  = Ok (<["color" := PyStr (aqi_category a).2]>
          (<["category" := PyStr (aqi_category a).1]> c)).
Proof.
  intros E. unfold finish, derive_aqi. rewrite E. cbn [bind].
  now apply categorize_ok.
Qed.

(** A missing AQI is derived from a non-zero numeric PM2.5. *)
Lemma finish_derived c (v : Q) :
  c !! "AQI" = None -> c !! "PM2.5" = Some (PyNum v) -> ~ (v == 0)%Q ->
  finish c
  = Ok (<["color" := PyStr (aqi_category (calculate_aqi_from_pm25 v)).2]>
          (<["category" :=
               PyStr (aqi_category (calculate_aqi_from_pm25 v)).1]>
             (<["AQI" := PyNum (calculate_aqi_from_pm25 v)]> c))).
Proof.
  intros E Ev Hv. unfold finish, derive_aqi, dict_get. rewrite E, Ev.
  cbn -[categorize aqi_category calculate_aqi_from_pm25].
  destruct (Qeq_bool v 0) eqn:Ez; [now apply Qeq_bool_eq in Ez|].
  cbn -[categorize aqi_category calculate_aqi_from_pm25].
  apply categorize_ok. apply lookup_insert_eq.
Qed.

(** What [finish] returns differs from [combined] on the three keys
    AQI, category and color only. *)
Lemma finish_other_keys c c' (k : string) :
  finish c = Ok c' ->
  k <> "AQI" -> k <> "category" -> k <> "color" ->
  c' !! k = c !! k.
Proof.
  unfold finish, derive_aqi, categorize. intros H K1 K2 K3.
  destruct (c !! "AQI") as [x|] eqn:E; cbn [bind] in H.
  - rewrite E in H. cbn in H. destruct x; try discriminate.
    destruct (aqi_category q). injection H as <-.
    now rewrite !lookup_insert_ne by congruence.
  - destruct (truthy (dict_get c "PM2.5")).
    + destruct (dict_get c "PM2.5"); try discriminate.
      cbn in H. rewrite lookup_insert_eq in H. cbn in H.
      destruct (aqi_category _). injection H as <-.
      now rewrite !lookup_insert_ne by congruence.
    + cbn in H. rewrite E in H. cbn in H.
      destruct (aqi_category 0). injection H as <-.
      now rewrite !lookup_insert_ne by congruence.
Qed.

(** The category stored is the one of the AQI stored (0 when there is
    none). *)
Lemma finish_category c c' :
  finish c = Ok c' ->
  exists a : Q,
    default (PyNum 0) (c' !! "AQI") = PyNum a /\
    c' !! "category" = Some (PyStr (aqi_category a).1) /\
    c' !! "color" = Some (PyStr (aqi_category a).2).
Proof.
  unfold finish. intros H.
  destruct (derive_aqi c) as [c1|] eqn:E1; [|discriminate].
  cbn [bind] in H. unfold categorize in H.
  destruct (default (PyNum 0) (c1 !! "AQI")) as [|a| | |] eqn:Ea;
    try discriminate.
  destruct (aqi_category a) as [cat col] eqn:Ecat. injection H as <-.
  exists a. repeat split.
  - rewrite !(lookup_insert_ne _ _ "AQI") by discriminate. exact Ea.
  - rewrite (lookup_insert_ne _ _ "category") by discriminate.
    rewrite Ecat. apply lookup_insert_eq.
  - rewrite Ecat. apply lookup_insert_eq.
Qed.

End Reconciler.

(** ** The AQI calculators *)

Section Calculators.
Import Fetcher.
Local Open Scope Q_scope.

Lemma Forall_in_bracket_false_cons (b : bracket) (pre : list bracket)
      (v : Q) :
  in_bracket b v = false ->
  Forall (fun b' => in_bracket b' v = false) pre ->
  Forall (fun b' => in_bracket b' v = false) (b :: pre).
Proof. intros. now constructor. Qed.

(** The scan returns the interpolation in the first bracket that
    contains the level, and nothing when there is none. *)
Lemma scan_brackets_first_hit (bps : list bracket) (v s : Q) :
  scan_brackets bps v = Some s <->
  exists b, first_hit bps v b /\ s = interpolate b v.
Proof.
  induction bps as [|b0 bps IH]; cbn.
  - split; [discriminate|].
    intros (b & (pre & post & E & _) & _). now destruct pre.
  - destruct (in_bracket b0 v) eqn:E0.
    + split.
      * intros [= <-]. exists b0. split; [|reflexivity].
        exists [], bps. repeat split; [constructor | exact E0].
      * intros (b & (pre & post & E & Hpre & Hb) & ->).
        destruct pre as [|b1 pre]; cbn in E; injection E as -> ->.
        -- reflexivity.
        -- apply Forall_cons in Hpre as [Hb1 _]. congruence.
    + rewrite IH. split.
      * intros (b & (pre & post & -> & Hpre & Hb) & ->).
        exists b. split; [|reflexivity].
        exists (b0 :: pre), post. repeat split;
          [now apply Forall_in_bracket_false_cons | exact Hb].
      * intros (b & (pre & post & E & Hpre & Hb) & ->).
        destruct pre as [|b1 pre]; cbn in E; injection E as -> ->.
        -- congruence.
        -- apply Forall_cons in Hpre as [_ Hpre].
           exists b. split; [|reflexivity]. now exists pre, post.
Qed.

Lemma sub_index_first_hit (p : string) (v s : Q) :
  sub_index p v = Some s <->
  exists bps b,
    lookup_breakpoints aqi_breakpoints p = Some bps /\
    first_hit bps v b /\ s = interpolate b v.
Proof.
  unfold sub_index.
  destruct (lookup_breakpoints aqi_breakpoints p) as [bps|].
  - rewrite scan_brackets_first_hit. split.
    + intros (b & Hb & E). now exists bps, b.
    + intros (bps' & b & [= <-] & Hb & E). now exists b.
  - split; [discriminate|]. now intros (? & ? & [=] & _).
Qed.

(** The source's arrangement of the interpolation and the
    specification's are the same number. *)
Lemma interpolate_spec (b : bracket) (v : Q) :
  interpolate b v == spec_sub_index b v.
Proof.
  destruct b as [[[bp_lo bp_hi] aqi_lo] aqi_hi].
  unfold interpolate, spec_sub_index, Z.sub.
  rewrite !inject_Z_plus, !inject_Z_opp. unfold Qdiv, Qminus. ring.
Qed.

Lemma calculate_aqi_from_pm25_mono (v1 v2 : Q) :
  v1 <= v2 -> calculate_aqi_from_pm25 v1 <= calculate_aqi_from_pm25 v2.
Proof.
  intros Hv. unfold calculate_aqi_from_pm25.
  qbool_cases; qconst; lra.
Qed.

End Calculators.

(** C2 (amended).  [calculate_aqi_from_pm25] is non-decreasing on every
    pair of concentrations.  [get_air_quality_index] is non-decreasing in
    the concentration of one pollutant, the other items being the same,
    as long as the larger concentration still lies in a bracket of the
    pollutant's table (or the smaller one has no sub-index either): within
    a bracket and from one bracket to the next. *)
Theorem aqi_monotone_within_table
        (before after : list (string * Q)) (p : string) (v1 v2 : Q) :
  (v1 <= v2)%Q ->
  is_Some (sub_index p v2) \/ sub_index p v1 = None ->
  (Fetcher.calculate_aqi_from_pm25 v1
   <= Fetcher.calculate_aqi_from_pm25 v2)%Q /\
  aqi (get_air_quality_index (before ++ (p, v1) :: after))
  <= aqi (get_air_quality_index (before ++ (p, v2) :: after)).
Proof.
  intros Hv Hin. split; [now apply calculate_aqi_from_pm25_mono|].
  pose proof (run_loop_mono before after p v1 v2 Hv Hin) as Hm.
  unfold get_air_quality_index.
  destruct (Forecaster.aqi_category (max_aqi (run_loop (before ++ (p, v1) :: after)))).
  destruct (Forecaster.aqi_category (max_aqi (run_loop (before ++ (p, v2) :: after)))).
  cbn [aqi]. now apply py_round_mono.
Qed.

(** C2, witness: PM2.5 going from 29 (first bracket) to 31 (second
    bracket) next to a fixed PM10 reading. *)
Lemma aqi_monotone_within_table_witness :
  (Fetcher.calculate_aqi_from_pm25 29
   <= Fetcher.calculate_aqi_from_pm25 31)%Q /\
  aqi (get_air_quality_index [("PM10", 20%Q); ("PM2.5", 29%Q)])
  <= aqi (get_air_quality_index [("PM10", 20%Q); ("PM2.5", 31%Q)]).
Proof.
  apply (aqi_monotone_within_table [("PM10", 20%Q)] [] "PM2.5" 29 31).
  - vm_compute. discriminate.
  - left. vm_compute. eexists. reflexivity.
Defined.

(** C2, as stated, fails.  PM2.5 = 250 is the top of the last bracket and
    gives AQI 400; PM2.5 = 251 lies in no bracket and gives AQI 0. *)
Lemma get_air_quality_index_drops_above_table :
  (250 <= 251)%Q /\
  aqi (get_air_quality_index [("PM2.5", 250%Q)]) = 400 /\
  aqi (get_air_quality_index [("PM2.5", 251%Q)]) = 0 /\
  ~ (aqi (get_air_quality_index [("PM2.5", 250%Q)])
     <= aqi (get_air_quality_index [("PM2.5", 251%Q)])).
Proof.
  repeat split; [vm_compute; discriminate|].
  vm_compute. intros H. now apply H.
Qed.

(** C3 (amended).  [calculate_aqi_from_pm25] returns exactly 50 for
    PM2.5 = 12.0 and exactly 0 for PM2.5 = 0.  [get_air_quality_index] on
    a reading that holds PM2.5 only returns 0 for PM2.5 = 0, but 20 for
    PM2.5 = 12.0: its first bracket ends at 30, where it returns 50. *)
Theorem pm25_boundary_values :
  (Fetcher.calculate_aqi_from_pm25 12.0 == 50)%Q /\
  (Fetcher.calculate_aqi_from_pm25 0 == 0)%Q /\
  aqi (get_air_quality_index [("PM2.5", 0%Q)]) = 0 /\
  aqi (get_air_quality_index [("PM2.5", 12.0%Q)]) = 20 /\
  aqi (get_air_quality_index [("PM2.5", 30%Q)]) = 50.
Proof. repeat split. Qed.

(** C3, as stated, fails on [get_air_quality_index]: a reading that holds
    only PM2.5 = 12.0 does not get AQI 50. *)
Lemma get_air_quality_index_pm25_12_is_not_50 :
  aqi (get_air_quality_index [("PM2.5", 12.0%Q)]) <> 50.
Proof. vm_compute. discriminate. Qed.

(** C4.  Every if-chain that maps an AQI to a category (in
    [get_air_quality_index], in [combine_data_sources] and in the three
    generators of app.py) uses the thresholds 50 / 100 / 200 / 300 with
    each threshold in the lower category: 50 is Good, 51 Satisfactory,
    300 Poor and 301 Very Poor.  In [get_air_quality_index] the chain is
    applied to the maximum before rounding and gives the category of the
    rounded AQI that is returned as well; in [combine_data_sources] it is
    applied to the AQI stored in the result (0 when there is none). *)
Theorem category_thresholds_boundary_exact :
  let chains :=
    [ (fun a => (Forecaster.aqi_category a).1);
      (fun a => (Fetcher.aqi_category a).1);
      (fun a => (App.current_category a).1);
      App.forecast_category;
      App.historical_category ] in
  Forall threshold_chain chains /\
  Forall (fun f : Q -> string =>
            f 50%Q = "Good" /\ f 51%Q = "Satisfactory" /\
            f 300%Q = "Poor" /\ f 301%Q = "Very Poor") chains /\
  (forall l,
      category (get_air_quality_index l)
      = (Forecaster.aqi_category (max_aqi (run_loop l))).1 /\
      category (get_air_quality_index l)
      = (Forecaster.aqi_category
           (inject_Z (aqi (get_air_quality_index l)))).1) /\
  (forall now ds,
      match Fetcher.combine_data_sources now ds with
      | Ok c =>
          exists a : Q,
            default (PyNum 0) (c !! "AQI") = PyNum a /\
            c !! "category" = Some (PyStr (Fetcher.aqi_category a).1) /\
            c !! "color" = Some (PyStr (Fetcher.aqi_category a).2)
      | Raise _ => True
      end).
Proof.
  cbv zeta. split; [|split; [|split]].
  - constructor; [exact forecaster_chain|].
    constructor; [exact fetcher_chain|].
    constructor; [exact current_chain|].
    constructor; [exact forecast_chain|].
    constructor; [exact historical_chain|].
    constructor.
  - repeat (constructor; [repeat split|]). constructor.
  - intros l. split; [|apply get_air_quality_index_category].
    unfold get_air_quality_index.
    now destruct (Forecaster.aqi_category (max_aqi (run_loop l))).
  - intros now ds. unfold Fetcher.combine_data_sources.
    destruct (Fetcher.finish (Fetcher.combine_loop now ds)) as [c|] eqn:E;
      [|exact I].
    now apply finish_category in E.
Qed.

(** ** The reconciler: claims *)

Section ReconcilerClaims.
Import Fetcher.

Implicit Types (ds : list (string * gmap string pyval)).

(** With OpenWeather as the only provider of the three, the AQI is
    derived from its PM2.5. *)
Lemma combine_openweather_only (now : Z) ds (ow : gmap string pyval)
      (v : Q) :
  NoDup ds.*1 -> ("openweather", ow) ∈ ds ->
  "airvisual" ∉ ds.*1 -> "waqi" ∉ ds.*1 ->
  ow !! "pm2_5" = Some (PyNum v) -> ~ (v == 0)%Q ->
  exists c,
    combine_data_sources now ds = Ok c /\
    c !! "PM2.5" = Some (PyNum v) /\
    c !! "AQI" = Some (PyNum (calculate_aqi_from_pm25 v)).
Proof.
  intros Hnd Hin Hav Hwq Hpm Hv.
  assert (Hl : combine_loop now ds !! "PM2.5" = Some (PyNum v)).
  { unfold combine_loop. rewrite (loop_pm25_openweather _ ow) by assumption.
    unfold dict_get. now rewrite Hpm. }
  assert (Ha : combine_loop now ds !! "AQI" = None).
  { apply loop_no_aqi; [exact Hav | exact Hwq | apply combine_init_aqi]. }
  unfold combine_data_sources.
  rewrite (finish_derived _ v Ha Hl Hv). eexists. split; [reflexivity|].
  split.
  - rewrite !lookup_insert_ne by discriminate. exact Hl.
  - rewrite !(lookup_insert_ne _ _ "AQI") by discriminate.
    apply lookup_insert_eq.
Qed.

(** Whatever OpenWeather gives for PM2.5 is in the result, when there
    is one; there is one when the AQI offered is a number. *)
Lemma combine_openweather_pm25 (now : Z) ds (ow : gmap string pyval) :
  NoDup ds.*1 -> ("openweather", ow) ∈ ds ->
  combine_loop now ds !! "PM2.5" = Some (dict_get ow "pm2_5") /\
  combine_loop now ds !! "PM10" = Some (dict_get ow "pm10") /\
  (forall c,
      combine_data_sources now ds = Ok c ->
      c !! "PM2.5" = Some (dict_get ow "pm2_5") /\
      c !! "PM10" = Some (dict_get ow "pm10")) /\
  (forall a : Q,
      offered_aqi ds = Some (PyNum a) ->
      exists c, combine_data_sources now ds = Ok c /\
                c !! "AQI" = Some (PyNum a)).
Proof.
  intros Hnd Hin.
  assert (H25 : combine_loop now ds !! "PM2.5" = Some (dict_get ow "pm2_5"))
    by now apply loop_pm25_openweather.
  assert (H10 : combine_loop now ds !! "PM10" = Some (dict_get ow "pm10"))
    by now apply loop_pm10_openweather.
  repeat split; [exact H25 | exact H10 | | |].
  - rewrite (finish_other_keys _ _ "PM2.5" H) by discriminate. exact H25.
  - rewrite (finish_other_keys _ _ "PM10" H) by discriminate. exact H10.
  - intros a Ha. rewrite <- (loop_aqi_offered now ds Hnd) in Ha.
    unfold combine_data_sources. rewrite (finish_provided _ a Ha).
    eexists. split; [reflexivity|].
    now rewrite !lookup_insert_ne by discriminate.
Qed.

End ReconcilerClaims.

(** Closed side conditions on concrete lists of sources. *)
Ltac by_decide := apply (bool_decide_unpack _); vm_compute; exact I.
Ltac by_elem_of :=
  repeat (apply elem_of_cons; first [ left; reflexivity | right ]).

(** C5 (amended).  When OpenWeather is the only one of the three
    providers among the sources and supplies a non-zero numeric PM2.5
    (such as 40), no source sets the AQI and the combined reading gets
    the AQI that the reconciler's own [calculate_aqi_from_pm25] (US EPA
    breakpoints) computes for that PM2.5; this is not the value of the
    table-driven [get_air_quality_index]. *)
Theorem combined_aqi_is_calculate_aqi_from_pm25
        (now : Z) (ds : list (string * gmap string pyval))
        (ow : gmap string pyval) (v : Q) :
  NoDup ds.*1 -> ("openweather", ow) ∈ ds ->
  "airvisual" ∉ ds.*1 -> "waqi" ∉ ds.*1 ->
  ow !! "pm2_5" = Some (PyNum v) -> ~ (v == 0)%Q ->
  offered_aqi ds = None /\
  exists c,
    Fetcher.combine_data_sources now ds = Ok c /\
    c !! "PM2.5" = Some (PyNum v) /\
    c !! "AQI" = Some (PyNum (Fetcher.calculate_aqi_from_pm25 v)).
Proof.
  intros Hnd Hin Hav Hwq Hpm Hv. split.
  - unfold offered_aqi.
    apply assoc_None_not_elem_of in Hav, Hwq. now rewrite Hav, Hwq.
  - now apply (combine_openweather_only now ds ow v).
Qed.

(** C5, witness: the only source is an OpenWeather record with
    PM2.5 = 40; the AQI is [calculate_aqi_from_pm25 40], that is 111.5. *)
Lemma combined_aqi_is_calculate_aqi_from_pm25_witness :
  (Fetcher.calculate_aqi_from_pm25 40 == 223 # 2)%Q /\
  offered_aqi [("openweather", Samples.openweather_record 40)] = None /\
  exists c,
    Fetcher.combine_data_sources
      0 [("openweather", Samples.openweather_record 40)] = Ok c /\
    c !! "PM2.5" = Some (PyNum 40) /\
    c !! "AQI" = Some (PyNum (Fetcher.calculate_aqi_from_pm25 40)).
Proof.
  split; [reflexivity|].
  apply (combined_aqi_is_calculate_aqi_from_pm25
           0 [("openweather", Samples.openweather_record 40)]
           (Samples.openweather_record 40) 40).
  - by_decide.
  - by_elem_of.
  - by_decide.
  - by_decide.
  - reflexivity.
  - intros H. discriminate H.
Defined.

(** C5, as stated, fails.  With an OpenWeather record holding
    PM2.5 = 40 as the only source, the combined AQI is 111.5; the AQI
    calculator of section 4.1, [get_air_quality_index], gives 67 for
    PM2.5 = 40. *)
Lemma combined_aqi_is_not_the_table_aqi :
  exists c a,
    Fetcher.combine_data_sources
      0 [("openweather", Samples.openweather_record 40)] = Ok c /\
    c !! "AQI" = Some (PyNum a) /\
    (a == 223 # 2)%Q /\
    aqi (get_air_quality_index [("PM2.5", 40%Q)]) = 67 /\
    ~ (a == inject_Z (aqi (get_air_quality_index [("PM2.5", 40%Q)])))%Q.
Proof.
  destruct (combine_openweather_only
              0 [("openweather", Samples.openweather_record 40)]
              (Samples.openweather_record 40) 40)
    as (c & Hc & _ & Ha);
    [by_decide | by_elem_of | by_decide | by_decide | reflexivity
     | intros H; discriminate H |].
  exists c, (Fetcher.calculate_aqi_from_pm25 40).
  split; [exact Hc|]. split; [exact Ha|].
  split; [reflexivity|]. split; [reflexivity|].
  intros H. vm_compute in H. discriminate H.
Qed.

(** C6.  When OpenWeather and WAQI are both among the sources and both
    supply a PM2.5 value, the combined reading carries OpenWeather's
    value, whatever WAQI's value is and whichever of the two comes first;
    a reading is produced whenever the AQI the providers offer is a
    number. *)
Theorem openweather_pm25_wins
        (now : Z) (ds : list (string * gmap string pyval))
        (ow wq : gmap string pyval) (v_ow v_wq : pyval) (a : Q) :
  NoDup ds.*1 ->
  ("openweather", ow) ∈ ds -> ("waqi", wq) ∈ ds ->
  ow !! "pm2_5" = Some v_ow -> wq !! "pm25" = Some v_wq ->
  offered_aqi ds = Some (PyNum a) ->
  (forall c, Fetcher.combine_data_sources now ds = Ok c ->
             c !! "PM2.5" = Some v_ow) /\
  exists c, Fetcher.combine_data_sources now ds = Ok c /\
            c !! "PM2.5" = Some v_ow.
Proof.
  intros Hnd Hin _ Hpm _ Ha.
  destruct (combine_openweather_pm25 now ds ow Hnd Hin)
    as (_ & _ & Hres & Hok).
  assert (E : dict_get ow "pm2_5" = v_ow).
  { unfold dict_get. now rewrite Hpm. }
  rewrite E in Hres. split.
  - intros c Hc. now apply Hres.
  - destruct (Hok a Ha) as (c & Hc & _). exists c.
    split; [exact Hc|]. now apply Hres.
Qed.

(** C6, witness: OpenWeather says 40, WAQI says 90; in either order of
    the two sources the result holds 40. *)
Lemma openweather_pm25_wins_witness :
  ((forall c,
       Fetcher.combine_data_sources
         0 [("openweather", Samples.openweather_record 40);
            ("waqi", Samples.waqi_record (PyNum 90) (PyNum 75))] = Ok c ->
       c !! "PM2.5" = Some (PyNum 40)) /\
   exists c,
     Fetcher.combine_data_sources
       0 [("openweather", Samples.openweather_record 40);
          ("waqi", Samples.waqi_record (PyNum 90) (PyNum 75))] = Ok c /\
     c !! "PM2.5" = Some (PyNum 40)) /\
  ((forall c,
       Fetcher.combine_data_sources
         0 [("waqi", Samples.waqi_record (PyNum 90) (PyNum 75));
            ("openweather", Samples.openweather_record 40)] = Ok c ->
       c !! "PM2.5" = Some (PyNum 40)) /\
   exists c,
     Fetcher.combine_data_sources
       0 [("waqi", Samples.waqi_record (PyNum 90) (PyNum 75));
          ("openweather", Samples.openweather_record 40)] = Ok c /\
     c !! "PM2.5" = Some (PyNum 40)).
Proof.
  split.
  - apply (openweather_pm25_wins
             0 _ (Samples.openweather_record 40)
             (Samples.waqi_record (PyNum 90) (PyNum 75))
             (PyNum 40) (PyNum 90) 75);
      [by_decide | by_elem_of | by_elem_of | reflexivity..].
  - apply (openweather_pm25_wins
             0 _ (Samples.openweather_record 40)
             (Samples.waqi_record (PyNum 90) (PyNum 75))
             (PyNum 40) (PyNum 90) 75);
      [by_decide | by_elem_of | by_elem_of | reflexivity..].
Defined.

(** C10.  When the OpenWeather record is among the sources but has no
    PM2.5 (or PM10) field, [None] is stored under that key; a WAQI record
    that supplies a value for the pollutant does not replace it, since
    the WAQI branch only asks whether the key is present.  The combined
    reading then holds [None] although WAQI gave a number. *)
Theorem waqi_does_not_fill_a_none_pollutant
        (now : Z) (ds : list (string * gmap string pyval))
        (ow wq : gmap string pyval) (v25 v10 a : Q) :
  NoDup ds.*1 ->
  ("openweather", ow) ∈ ds -> ("waqi", wq) ∈ ds ->
  wq !! "pm25" = Some (PyNum v25) -> wq !! "pm10" = Some (PyNum v10) ->
  offered_aqi ds = Some (PyNum a) ->
  exists c,
    Fetcher.combine_data_sources now ds = Ok c /\
    (ow !! "pm2_5" = None -> c !! "PM2.5" = Some PyNone) /\
    (ow !! "pm10" = None -> c !! "PM10" = Some PyNone).
Proof.
  intros Hnd Hin _ _ _ Ha.
  destruct (combine_openweather_pm25 now ds ow Hnd Hin)
    as (_ & _ & Hres & Hok).
  destruct (Hok a Ha) as (c & Hc & _). exists c.
  destruct (Hres c Hc) as [H25 H10].
  split; [exact Hc|].
  unfold dict_get in H25, H10.
  split; intros E; [rewrite E in H25 | rewrite E in H10]; assumption.
Qed.

(** C10, witness: an OpenWeather record without the two fields, and a
    WAQI record with PM2.5 = 90 and PM10 = 120. *)
Lemma waqi_does_not_fill_a_none_pollutant_witness :
  exists c,
    Fetcher.combine_data_sources
      0 [("openweather", Samples.openweather_partial);
         ("waqi", Samples.waqi_record (PyNum 90) (PyNum 75))] = Ok c /\
    c !! "PM2.5" = Some PyNone /\
    c !! "PM10" = Some PyNone.
Proof.
  destruct (waqi_does_not_fill_a_none_pollutant
              0 [("openweather", Samples.openweather_partial);
                 ("waqi", Samples.waqi_record (PyNum 90) (PyNum 75))]
              Samples.openweather_partial
              (Samples.waqi_record (PyNum 90) (PyNum 75))
              90 120 75)
    as (c & Hc & H25 & H10);
    [by_decide | by_elem_of | by_elem_of | reflexivity..|].
  exists c. split; [exact Hc|].
  split; [apply H25 | apply H10]; reflexivity.
Defined.

(** ** Fetching *)

Section Fetching.
Import Fetcher.

Lemma collect_nil (ow av wq : option (gmap string pyval)) :
  usable ow = false -> usable av = false -> usable wq = false ->
  collect ow av wq = [].
Proof. intros H1 H2 H3. unfold collect. now rewrite H1, H2, H3. Qed.

(** The two attributes that [__init__] never assigns. *)
Lemma init_has_no_airvisual_key (key : option string) :
  getattr (init key) "airvisual_api_key" = Raise AttributeError.
Proof. reflexivity. Qed.

Lemma init_has_no_waqi_token (key : option string) :
  getattr (init key) "waqi_token" = Raise AttributeError.
Proof. reflexivity. Qed.

(** So the fetcher that app.py builds never gets anything from
    AirVisual or from WAQI. *)
Lemma fetch_airvisual_data_init (key : option string) (w : providers)
      (city : jval) :
  fetch_airvisual_data (init key) w city = None.
Proof.
  unfold fetch_airvisual_data.
  destruct (city_get city_mapping city) as [[info|]|]; reflexivity.
Qed.

Lemma fetch_waqi_data_init (key : option string) (w : providers)
      (city : jval) :
  fetch_waqi_data (init key) w city = None.
Proof. reflexivity. Qed.

Lemma city_coords_keys : city_coords.*1 = supported_cities.
Proof. reflexivity. Qed.

Lemma base_pollution_keys : App.base_pollution.*1 = supported_cities.
Proof. reflexivity. Qed.

(** No coordinates, no OpenWeather request. *)
Lemma fetch_openweather_pollution_unsupported
      (self : gmap string pyval) (w : providers) (c : string) :
  c ∉ supported_cities ->
  fetch_openweather_pollution self w (JStr c) = None.
Proof.
  intros Hc. rewrite <- city_coords_keys in Hc.
  apply assoc_None_not_elem_of in Hc.
  unfold fetch_openweather_pollution, city_get. now rewrite Hc.
Qed.

Lemma fetch_combined_data_unsupported (key : option string)
      (w : providers) (t : Z) (c : string) :
  c ∉ supported_cities ->
  fetch_combined_data (init key) w t (JStr c) = Ok None.
Proof.
  intros Hc. unfold fetch_combined_data.
  rewrite fetch_openweather_pollution_unsupported by exact Hc.
  now rewrite fetch_airvisual_data_init, fetch_waqi_data_init.
Qed.

End Fetching.

(** C7.  When none of the three fetchers returns a usable record,
    [fetch_combined_data] returns [None]: no exception, and
    [combine_data_sources] is not entered, so no record is built. *)
Theorem fetch_combined_data_all_absent
        (self : gmap string pyval) (w : Fetcher.providers) (t : Z)
        (city : jval) :
  Fetcher.usable (Fetcher.fetch_openweather_pollution self w city) = false ->
  Fetcher.usable (Fetcher.fetch_airvisual_data self w city) = false ->
  Fetcher.usable (Fetcher.fetch_waqi_data self w city) = false ->
  Fetcher.collect (Fetcher.fetch_openweather_pollution self w city)
                  (Fetcher.fetch_airvisual_data self w city)
                  (Fetcher.fetch_waqi_data self w city) = [] /\
  Fetcher.fetch_combined_data self w t city = Ok None.
Proof.
  intros H1 H2 H3.
  pose proof (collect_nil _ _ _ H1 H2 H3) as E.
  split; [exact E|].
  unfold Fetcher.fetch_combined_data. now rewrite E.
Qed.

(** C7, witness: Mumbai while no provider can be reached. *)
Lemma fetch_combined_data_all_absent_witness :
  Fetcher.collect
    (Fetcher.fetch_openweather_pollution
       (Fetcher.init None) Samples.offline (JStr "Mumbai"))
    (Fetcher.fetch_airvisual_data
       (Fetcher.init None) Samples.offline (JStr "Mumbai"))
    (Fetcher.fetch_waqi_data
       (Fetcher.init None) Samples.offline (JStr "Mumbai")) = [] /\
  Fetcher.fetch_combined_data
    (Fetcher.init None) Samples.offline 0 (JStr "Mumbai") = Ok None.
Proof.
  apply (fetch_combined_data_all_absent
           (Fetcher.init None) Samples.offline 0 (JStr "Mumbai"));
    reflexivity.
Defined.

(** ** The request handlers *)

Section Handlers.
Import Fetcher App.

Lemma city_missing_null : city_missing JNull = Ok true.
Proof. reflexivity. Qed.


Lemma city_missing_with_city (items : list (string * jval)) (city : jval) :
  assoc items "city" = Some city -> city_missing (JObj items) = Ok false.
Proof.
  intros E. unfold city_missing. destruct items as [|item items];
    [discriminate|].
  cbn [jtruthy negb contains bind]. rewrite E. reflexivity.
Qed.

Lemma base_pollution_get_unsupported (c : string) :
  c ∉ supported_cities -> base_pollution_get (JStr c) = Ok 75%Q.
Proof.
  intros Hc. rewrite <- base_pollution_keys in Hc.
  apply assoc_None_not_elem_of in Hc.
  unfold base_pollution_get, city_get. now rewrite Hc.
Qed.


Lemma historical_row_ok (e : env) (base : Q) (day : nat) (s : string) :
  days_ago_str e (Z.of_nat day) = Ok s ->
  exists row, historical_row e base day = Ok row.
Proof.
  intros E. unfold historical_row. rewrite E. cbn [bind]. eauto.
Qed.


End Handlers.

(** C8.  For a city name outside the supported set, the fetcher that
    app.py builds obtains nothing (no coordinates for OpenWeather, and
    the AirVisual key and WAQI token are attributes it does not have), so
    [/api/current] answers 200 with ['success': True], data type
    ['synthetic'] and the conditions that [generate_current_conditions]
    derives from the default base 75. *)
Theorem unsupported_city_gets_default_base
        (e : App.env) (key : option string)
        (items : list (string * jval)) (c : string) :
  App.real_data_fetcher e = Fetcher.init key ->
  assoc items "city" = Some (JStr c) ->
  c ∉ supported_cities ->
  App.base_pollution_get (JStr c) = Ok 75%Q /\
  App.generate_current_conditions e (JStr c)
  = Ok (App.current_conditions_from e 75) /\
  App.get_current_conditions e (JObj items)
  = App.CurrentOk (JStr c) (App.current_conditions_from e 75) "synthetic" /\
  App.status_code (App.get_current_conditions e (JObj items)) = 200 /\
  App.success (App.get_current_conditions e (JObj items)) = true.
Proof.
  intros Hself Hcity Hc.
  pose proof (base_pollution_get_unsupported c Hc) as Hbase.
  assert (Hgen : App.generate_current_conditions e (JStr c)
                 = Ok (App.current_conditions_from e 75)).
  { unfold App.generate_current_conditions. now rewrite Hbase. }
  assert (Hresp : App.get_current_conditions e (JObj items)
                  = App.CurrentOk (JStr c) (App.current_conditions_from e 75)
                                  "synthetic").
  { unfold App.get_current_conditions.
    rewrite (city_missing_with_city items (JStr c) Hcity). cbn [bind getitem].
    rewrite Hcity. cbn [bind].
    unfold App.real_conditions. rewrite Hself.
    rewrite (fetch_combined_data_unsupported key _ _ c Hc). cbn [bind Fetcher.usable].
    now rewrite Hgen. }
  repeat split; [exact Hbase | exact Hgen | exact Hresp | |];
    now rewrite Hresp.
Qed.

(** C8, witness: a request for London while every provider answers. *)
Lemma unsupported_city_gets_default_base_witness :
  App.base_pollution_get (JStr "London") = Ok 75%Q /\
  App.generate_current_conditions Samples.env_sample (JStr "London")
  = Ok (App.current_conditions_from Samples.env_sample 75) /\
  App.get_current_conditions Samples.env_sample
                             (JObj [("city", JStr "London")])
  = App.CurrentOk (JStr "London")
                  (App.current_conditions_from Samples.env_sample 75)
                  "synthetic" /\
  App.status_code
    (App.get_current_conditions Samples.env_sample
                                (JObj [("city", JStr "London")])) = 200 /\
  App.success
    (App.get_current_conditions Samples.env_sample
                                (JObj [("city", JStr "London")])) = true.
Proof.
  apply (unsupported_city_gets_default_base
           Samples.env_sample (Some "0123456789abcdef")
           [("city", JStr "London")] "London").
  - reflexivity.
  - reflexivity.
  - by_decide.
Defined.





(** ** Further properties *)

(** X1.  A provider whose request, status check or parsing raises is
    treated as absent: when all three do, whatever the fetcher object and
    the city, each fetcher returns [None] and [fetch_combined_data]
    returns [None]. *)
Theorem failing_providers_are_absent
        (self : gmap string pyval) (w : Fetcher.providers) (t : Z)
        (city : jval) :
  (forall lat lon k, exists ex, Fetcher.openweather_api w lat lon k = Raise ex) ->
  (forall info k, exists ex, Fetcher.airvisual_api w info k = Raise ex) ->
  (forall c k, exists ex, Fetcher.waqi_api w c k = Raise ex) ->
  Fetcher.fetch_openweather_pollution self w city = None /\
  Fetcher.fetch_airvisual_data self w city = None /\
  Fetcher.fetch_waqi_data self w city = None /\
  Fetcher.fetch_combined_data self w t city = Ok None.
Proof.
  intros How Hav Hwq.
  assert (E1 : Fetcher.fetch_openweather_pollution self w city = None).
  { unfold Fetcher.fetch_openweather_pollution.
    destruct (Fetcher.city_get Fetcher.city_coords city)
      as [[[lat lon]|]|]; [|reflexivity..].
    cbn [bind]. destruct (Fetcher.getattr self "openweather_api_key");
      [|reflexivity].
    cbn [bind]. destruct (How lat lon a) as [ex ->]. reflexivity. }
  assert (E2 : Fetcher.fetch_airvisual_data self w city = None).
  { unfold Fetcher.fetch_airvisual_data.
    destruct (Fetcher.city_get Fetcher.city_mapping city)
      as [[info|]|]; [|reflexivity..].
    cbn [bind]. destruct (Fetcher.getattr self "airvisual_api_key");
      [|reflexivity].
    cbn [bind]. destruct (Hav info a) as [ex ->]. reflexivity. }
  assert (E3 : Fetcher.fetch_waqi_data self w city = None).
  { unfold Fetcher.fetch_waqi_data.
    destruct (Fetcher.getattr self "waqi_token"); [|reflexivity].
    cbn [bind]. destruct (Hwq city a) as [ex ->]. reflexivity. }
  repeat split; [exact E1 | exact E2 | exact E3 |].
  unfold Fetcher.fetch_combined_data. now rewrite E1, E2, E3.
Qed.

(** X1, witness: Delhi while no provider can be reached. *)
Lemma failing_providers_are_absent_witness :
  Fetcher.fetch_openweather_pollution
    (Fetcher.init (Some "k")) Samples.offline (JStr "Delhi") = None /\
  Fetcher.fetch_airvisual_data
    (Fetcher.init (Some "k")) Samples.offline (JStr "Delhi") = None /\
  Fetcher.fetch_waqi_data
    (Fetcher.init (Some "k")) Samples.offline (JStr "Delhi") = None /\
  Fetcher.fetch_combined_data
    (Fetcher.init (Some "k")) Samples.offline 0 (JStr "Delhi") = Ok None.
Proof.
  apply (failing_providers_are_absent
           (Fetcher.init (Some "k")) Samples.offline 0 (JStr "Delhi"));
    intros; eexists; reflexivity.
Defined.

(** X2.  [__init__] assigns [openweather_api_key] only, so reading
    [self.airvisual_api_key] and [self.waqi_token] raises inside the
    fetchers' [try]: with the fetcher as it is built, AirVisual and WAQI
    never contribute, whatever they would answer, and the combined
    reading is built from OpenWeather alone or not at all. *)
Theorem airvisual_and_waqi_are_never_fetched
        (key : option string) (w : Fetcher.providers) (t : Z) (city : jval) :
  Fetcher.fetch_airvisual_data (Fetcher.init key) w city = None /\
  Fetcher.fetch_waqi_data (Fetcher.init key) w city = None /\
  Fetcher.fetch_combined_data (Fetcher.init key) w t city
  = match Fetcher.fetch_openweather_pollution (Fetcher.init key) w city with
    | Some d =>
        if bool_decide (d = ∅) then Ok None
        else bind (Fetcher.combine_data_sources t [("openweather", d)])
                  (fun c => Ok (Some c))
    | None => Ok None
    end.
Proof.
  split; [apply fetch_airvisual_data_init|].
  split; [apply fetch_waqi_data_init|].
  unfold Fetcher.fetch_combined_data.
  rewrite fetch_airvisual_data_init, fetch_waqi_data_init.
  destruct (Fetcher.fetch_openweather_pollution (Fetcher.init key) w city)
    as [d|]; [|reflexivity].
  unfold Fetcher.collect, Fetcher.usable.
  now destruct (bool_decide (d = ∅)).
Qed.

(** X3.  The AQI that [get_air_quality_index] returns lies between 0
    and 400. *)
Theorem get_air_quality_index_range (l : list (string * Q)) :
  0 <= aqi (get_air_quality_index l) <= 400.
Proof.
  assert (Hm : (0 <= max_aqi (run_loop l) <= 400)%Q).
  { destruct (run_loop_invariant l)
      as [_ [(E0 & _) | (_ & pre & p & post & E & _)]].
    - rewrite E0. split; [apply Qle_refl | discriminate].
    - assert (Hin : (p, max_aqi (run_loop l)) ∈ sub_indices l).
      { rewrite E. apply elem_of_app. right. apply elem_of_cons. now left. }
      apply elem_of_sub_indices in Hin as (v & _ & Hs).
      now apply sub_index_range in Hs. }
  unfold get_air_quality_index.
  destruct (Forecaster.aqi_category (max_aqi (run_loop l))). cbn [aqi].
  destruct Hm as [H0 H400]. split.
  - now apply (py_round_ge_Z _ 0).
  - now apply (py_round_le_Z _ 400).
Qed.

(** X4.  [calculate_aqi_from_pm25] is continuous at its breakpoints:
    12.0, 35.4, 55.4, 150.4 and 250.4 give 50, 100, 150, 200 and 300. *)
Theorem calculate_aqi_from_pm25_breakpoints :
  (Fetcher.calculate_aqi_from_pm25 12.0 == 50)%Q /\
  (Fetcher.calculate_aqi_from_pm25 35.4 == 100)%Q /\
  (Fetcher.calculate_aqi_from_pm25 55.4 == 150)%Q /\
  (Fetcher.calculate_aqi_from_pm25 150.4 == 200)%Q /\
  (Fetcher.calculate_aqi_from_pm25 250.4 == 300)%Q.
Proof. repeat split. Qed.

(** ** The calculator, the report and the training rows: further
       lemmas *)

Section ForecasterMore.
Import Report.
Local Open Scope Q_scope.

Lemma lookup_breakpoints_outside (p : string) :
  p ∉ ["PM2.5"; "PM10"; "NO2"] ->
  lookup_breakpoints aqi_breakpoints p = None.
Proof.
  intros Hp. rewrite !not_elem_of_cons in Hp.
  destruct Hp as (H1 & H2 & H3 & _).
  unfold aqi_breakpoints. cbn [lookup_breakpoints].
  destruct (String.eqb_spec "PM2.5" p) as [E|_]; [congruence|].
  destruct (String.eqb_spec "PM10" p) as [E|_]; [congruence|].
  destruct (String.eqb_spec "NO2" p) as [E|_]; [congruence|].
  reflexivity.
Qed.

(** No bracket of the table reaches below 0. *)
Lemma sub_index_negative (p : string) (v : Q) :
  v < 0 -> sub_index p v = None.
Proof.
  intros Hv. destruct (sub_index p v) as [s|] eqn:H; [|reflexivity].
  exfalso. table_cases p; scan_inv H; qconst; lra.
Qed.

Lemma loop_step_no_sub_index (st : loop_state) (p : string) (v : Q) :
  sub_index p v = None -> loop_step st (p, v) = st.
Proof. intros E. cbn. now rewrite E. Qed.

Lemma run_loop_skip (before after : list (string * Q)) (p : string)
      (v : Q) :
  sub_index p v = None ->
  run_loop (before ++ (p, v) :: after) = run_loop (before ++ after).
Proof.
  intros E. unfold run_loop. rewrite !fold_left_app. cbn [fold_left].
  now rewrite (loop_step_no_sub_index _ p v E).
Qed.

Lemma Qle_bool_inject_Z (a n : Z) :
  Qle_bool (inject_Z a) (inject_Z n) = (a <=? n)%Z.
Proof.
  destruct (Z.leb_spec a n) as [H|H].
  - apply Qle_bool_iff. now rewrite <- Zle_Qle.
  - apply Qle_bool_false. now rewrite <- Zlt_Qlt.
Qed.

(** The advice line of the report and the category chain cut the
    integers at the same places up to 200. *)
Lemma report_advice_category (a : Z) :
  let cat := (Forecaster.aqi_category (inject_Z a)).1 in
  (cat = "Good" ->
   report_advice a = "- Air quality is good. Enjoy outdoor activities!") /\
  (cat = "Satisfactory" ->
   report_advice a
   = "- Air quality is satisfactory. Sensitive individuals should limit outdoor exposure.") /\
  (cat = "Moderate" ->
   report_advice a
   = "- Air quality is moderate. Consider reducing outdoor activities.") /\
  (cat = "Poor" \/ cat = "Very Poor" ->
   report_advice a
   = "- Air quality is poor. Avoid outdoor activities. Use air purifiers indoors.").
Proof.
  cbv zeta. unfold Forecaster.aqi_category, report_advice.
  change 50 with (inject_Z 50). change 100 with (inject_Z 100).
  change 200 with (inject_Z 200). change 300 with (inject_Z 300).
  rewrite !Qle_bool_inject_Z.
  destruct (a <=? 50)%Z; [cbn; repeat split; try discriminate;
                          intros [H|H]; discriminate H|].
  destruct (a <=? 100)%Z; [cbn; repeat split; try discriminate;
                           intros [H|H]; discriminate H|].
  destruct (a <=? 200)%Z; [cbn; repeat split; try discriminate;
                           intros [H|H]; discriminate H|].
  destruct (a <=? 300)%Z; cbn; repeat split; discriminate.
Qed.

Lemma find_peak_invariant (predictions : list (list (string * Q))) :
  peak_invariant predictions (find_peak predictions).
Proof.
  unfold find_peak.
  induction predictions as [|pred l IH] using rev_ind.
  - split; [|reflexivity]. intros pred Hp. now apply elem_of_nil in Hp.
  - rewrite imap_app, fold_left_app. cbn [imap fold_left peak_step].
    rewrite Nat.add_0_r.
    destruct IH as [Hub Hpk].
    set (st := fold_left peak_step (imap pair l) (0%Z, None)) in *.
    set (a := aqi (get_air_quality_index pred)).
    destruct (Z.ltb_spec st.1 a) as [Hlt|Hge].
    + split; cbn [fst snd].
      * intros p Hp. apply elem_of_app in Hp as [Hp|Hp].
        -- specialize (Hub p Hp). lia.
        -- apply list_elem_of_singleton in Hp as ->. fold a. lia.
      * split.
        -- destruct st.2; [destruct Hpk as [? _]|]; lia.
        -- exists pred. split; [|split; [reflexivity|]].
           ++ rewrite lookup_app_r by lia. now rewrite Nat.sub_diag.
           ++ intros j p' Hj Hp'. rewrite lookup_app_l in Hp' by exact Hj.
              assert (Hin : p' ∈ l) by (eapply list_elem_of_lookup_2; eauto).
              specialize (Hub p' Hin). lia.
    + split.
      * intros p Hp. apply elem_of_app in Hp as [Hp|Hp].
        -- now apply Hub.
        -- apply list_elem_of_singleton in Hp as ->. fold a. lia.
      * destruct st.2 as [i|]; [|exact Hpk].
        destruct Hpk as (Hpos & p0 & Hi & Ha & Hfirst).
        split; [exact Hpos|]. exists p0.
        assert (Hil : (i < length l)%nat) by (eapply lookup_lt_Some; eauto).
        split; [now rewrite lookup_app_l by exact Hil|].
        split; [exact Ha|].
        intros j p' Hj Hp'. rewrite lookup_app_l in Hp' by lia.
        now apply (Hfirst j p').
Qed.

Lemma py_max_lub (a b c : Q) : a <= c -> b <= c -> py_max a b <= c.
Proof. intros Ha Hb. unfold py_max. now destruct (Qlt_bool a b). Qed.

Lemma py_min_le_l (a b : Q) : py_min a b <= a.
Proof.
  unfold py_min. destruct (Qlt_bool b a) eqn:E.
  - apply Qlt_bool_iff in E. lra.
  - lra.
Qed.

Lemma index_cities (city : string) :
  city ∈ cities -> exists b, index training_base_pollution city = Ok b.
Proof.
  intros H. unfold cities in H.
  repeat (apply elem_of_cons in H as [->|H]; [eexists; reflexivity|]).
  now apply elem_of_nil in H.
Qed.

Lemma index_weather (w : string) :
  w ∈ weather_conditions -> exists m, index weather_mults w = Ok m.
Proof.
  intros H. unfold weather_conditions in H.
  repeat (apply elem_of_cons in H as [->|H]; [eexists; reflexivity|]).
  now apply elem_of_nil in H.
Qed.

Lemma index_season (month : Z) :
  exists m, index seasonal_mults (season_of month).1.1 = Ok m.
Proof.
  unfold season_of.
  destruct (existsb (Z.eqb month) [12; 1; 2])%Z; [eexists; reflexivity|].
  destruct (existsb (Z.eqb month) [3; 4; 5])%Z; [eexists; reflexivity|].
  destruct (existsb (Z.eqb month) [6; 7; 8; 9])%Z; eexists; reflexivity.
Qed.

End ForecasterMore.

(** X5.  An item whose pollutant is not PM2.5, PM10 or NO2 (SO2, CO, O3,
    the timestamp of a prediction), or whose level is negative, has no
    sub-index, and [get_air_quality_index] returns what it returns
    without the item. *)
Theorem items_outside_the_table_are_ignored
        (before after : list (string * Q)) (p : string) (v : Q) :
  p ∉ ["PM2.5"; "PM10"; "NO2"] \/ (v < 0)%Q ->
  sub_index p v = None /\
  get_air_quality_index (before ++ (p, v) :: after)
  = get_air_quality_index (before ++ after).
Proof.
  intros H.
  assert (E : sub_index p v = None).
  { destruct H as [Hp|Hv].
    - unfold sub_index. now rewrite lookup_breakpoints_outside.
    - now apply sub_index_negative. }
  split; [exact E|].
  unfold get_air_quality_index. now rewrite (run_loop_skip _ _ p v E).
Qed.

(** X5, witness: an ozone reading between PM2.5 and PM10. *)
Lemma items_outside_the_table_are_ignored_witness :
  sub_index "O3" 180 = None /\
  get_air_quality_index
    [("PM2.5", 42%Q); ("O3", 180%Q); ("PM10", 95%Q)]
  = get_air_quality_index [("PM2.5", 42%Q); ("PM10", 95%Q)].
Proof.
  apply (items_outside_the_table_are_ignored
           [("PM2.5", 42%Q)] [("PM10", 95%Q)] "O3" 180).
  left. by_decide.
Defined.

(** X6.  [generate_report] fails on an empty list of predictions
    ([predictions[0]]) and on no other.  The peak it reports is the
    largest AQI of the predictions and the first hour that reaches it;
    when every AQI is 0 the peak hour is [None]. *)
Theorem generate_report_peak (predictions : list (list (string * Q))) :
  (Report.generate_report predictions = None <-> predictions = []) /\
  (forall r,
      Report.generate_report predictions = Some r ->
      (exists current rest,
          predictions = current :: rest /\
          Report.aqi_info r = get_air_quality_index current) /\
      (forall pred, pred ∈ predictions ->
                    aqi (get_air_quality_index pred) <= Report.peak_aqi r) /\
      match Report.peak_hour r with
      | None => Report.peak_aqi r = 0
      | Some i =>
          0 < Report.peak_aqi r /\
          exists pred,
            predictions !! i = Some pred /\
            aqi (get_air_quality_index pred) = Report.peak_aqi r /\
            forall j pred',
              (j < i)%nat -> predictions !! j = Some pred' ->
              aqi (get_air_quality_index pred') < Report.peak_aqi r
      end).
Proof.
  split.
  - destruct predictions as [|current rest];
      cbn [Report.generate_report]; [now split|].
    destruct (Report.find_peak (current :: rest)). split; discriminate.
  - intros r Hr. pose proof (find_peak_invariant predictions) as Hinv.
    destruct predictions as [|current rest]; [discriminate|].
    cbn [Report.generate_report] in Hr.
    destruct (Report.find_peak (current :: rest)) as [m pk].
    injection Hr as <-. cbn [Report.aqi_info Report.peak_aqi Report.peak_hour].
    split; [now exists current, rest|]. exact Hinv.
Qed.

(** X7.  The advice line of [generate_report], chosen from the rounded
    AQI, goes with the category of [get_air_quality_index], chosen from
    the AQI before rounding: good with Good, satisfactory with
    Satisfactory, moderate with Moderate, and the last line with both
    Poor and Very Poor. *)
Theorem generate_report_advice_follows_category
        (current : list (string * Q)) (rest : list (list (string * Q))) :
  exists r,
    Report.generate_report (current :: rest) = Some r /\
    Report.aqi_info r = get_air_quality_index current /\
    (category (Report.aqi_info r) = "Good" ->
     Report.advice r
     = "- Air quality is good. Enjoy outdoor activities!") /\
    (category (Report.aqi_info r) = "Satisfactory" ->
     Report.advice r
     = "- Air quality is satisfactory. Sensitive individuals should limit outdoor exposure.") /\
    (category (Report.aqi_info r) = "Moderate" ->
     Report.advice r
     = "- Air quality is moderate. Consider reducing outdoor activities.") /\
    (category (Report.aqi_info r) = "Poor"
     \/ category (Report.aqi_info r) = "Very Poor" ->
     Report.advice r
     = "- Air quality is poor. Avoid outdoor activities. Use air purifiers indoors.").
Proof.
  cbn [Report.generate_report].
  destruct (Report.find_peak (current :: rest)) as [m pk].
  eexists. split; [reflexivity|].
  cbn [Report.aqi_info Report.advice]. split; [reflexivity|].
  rewrite (get_air_quality_index_category current).
  exact (report_advice_category (aqi (get_air_quality_index current))).
Qed.

(** X8.  For a city and a weather condition of the two lists
    [generate_synthetic_data] draws from, and whatever the noise, its
    loop body produces a row whose six concentrations and wind speed are
    not negative and whose humidity lies between 20 and 100. *)
Theorem synthetic_record_is_clamped
        (hour day_of_week month : Z) (d : Report.draws) :
  Report.city_choice d ∈ Report.cities ->
  Report.weather_choice d ∈ Report.weather_conditions ->
  exists row,
    Report.synthetic_record hour day_of_week month d = Ok row /\
    (0 <= Report.row_pm25 row)%Q /\ (0 <= Report.row_pm10 row)%Q /\
    (0 <= Report.row_no2 row)%Q /\ (0 <= Report.row_so2 row)%Q /\
    (0 <= Report.row_co row)%Q /\ (0 <= Report.row_o3 row)%Q /\
    (0 <= Report.row_wind_speed row)%Q /\
    (20 <= Report.row_humidity row <= 100)%Q /\
    (Report.row_is_weekend row = 1 <-> 5 <= day_of_week) /\
    (Report.row_is_weekend row = 0 <-> day_of_week < 5).
Proof.
  intros Hcity Hweather.
  destruct (index_cities _ Hcity) as [b Eb].
  destruct (index_weather _ Hweather) as [wm Ew].
  destruct (index_season month) as [sm Es].
  unfold Report.synthetic_record.
  destruct (Report.season_of month) as [[season temp_base] humidity_base].
  cbn [fst] in Es. rewrite Eb. cbn [bind]. rewrite Es. cbn [bind].
  rewrite Ew. cbn [bind].
  eexists. split; [reflexivity|].
  cbn [Report.row_pm25 Report.row_pm10 Report.row_no2 Report.row_so2
       Report.row_co Report.row_o3 Report.row_wind_speed
       Report.row_humidity Report.row_is_weekend].
  repeat (split; [apply py_max_le_l|]).
  split.
  - split; [apply py_max_le_l|].
    apply py_max_lub; [discriminate | apply py_min_le_l].
  - destruct (Z.leb_spec 5 day_of_week); split; split; intros; lia.
Qed.

(** X8, witness: a foggy winter morning in Delhi with noise that pulls
    every value down. *)
Lemma synthetic_record_is_clamped_witness :
  exists row,
    Report.synthetic_record 8 2 1 More.gloomy_draws = Ok row /\
    (0 <= Report.row_pm25 row)%Q /\ (0 <= Report.row_pm10 row)%Q /\
    (0 <= Report.row_no2 row)%Q /\ (0 <= Report.row_so2 row)%Q /\
    (0 <= Report.row_co row)%Q /\ (0 <= Report.row_o3 row)%Q /\
    (0 <= Report.row_wind_speed row)%Q /\
    (20 <= Report.row_humidity row <= 100)%Q /\
    (Report.row_is_weekend row = 1 <-> 5 <= 2) /\
    (Report.row_is_weekend row = 0 <-> 2 < 5).
Proof.
  apply (synthetic_record_is_clamped 8 2 1 More.gloomy_draws); by_decide.
Defined.

(** ** The reconciler: further lemmas *)


Section ReconcilerMore.
Import Fetcher Service.
Local Open Scope Q_scope.

Implicit Types (c d : gmap string pyval)
         (ds : list (string * gmap string pyval)).


Lemma assoc_elem_of_NoDup {A} (l : list (string * A)) (k : string) (v : A) :
  NoDup l.*1 -> (k, v) ∈ l -> assoc l k = Some v.
Proof.
  induction l as [|[k' v'] l IH]; intros Hnd Hin.
  - now apply elem_of_nil in Hin.
  - cbn in Hnd. apply NoDup_cons in Hnd as [Hk' Hnd]. cbn.
    apply elem_of_cons in Hin as [[= -> ->]|Hin].
    + now rewrite String.eqb_refl.
    + destruct (String.eqb_spec k' k) as [->|Hne]; [|now apply IH].
      exfalso. apply Hk'. apply list_elem_of_fmap. now exists (k, v).
Qed.

(** A missing AQI and a missing, [None] or zero PM2.5: the reading gets
    no AQI and the category of 0. *)
Lemma finish_nothing c :
  c !! "AQI" = None -> truthy (dict_get c "PM2.5") = false ->
  finish c
  = Ok (<["color" := PyStr "#00e400"]> (<["category" := PyStr "Good"]> c)).
Proof.
  intros Ea Ep. unfold finish, derive_aqi. rewrite Ea, Ep. cbn [bind].
  unfold categorize. now rewrite Ea.
Qed.

(** An AQI that is not a number stops the category chain. *)
Lemma finish_not_a_number c (v : pyval) :
  c !! "AQI" = Some v -> (forall a, v <> PyNum a) ->
  finish c = Raise TypeError.
Proof.
  intros Ea Hv. unfold finish, derive_aqi. rewrite Ea. cbn [bind].
  unfold categorize. rewrite Ea. cbn [default].
  destruct v; try reflexivity. now destruct (Hv q).
Qed.

(** The keys each branch of the loop writes. *)
Lemma update_openweather_other c d (k : string) :
  k ∉ ["PM2.5"; "PM10"; "NO2"; "SO2"; "CO"; "O3"] ->
  update_openweather c d !! k = c !! k.
Proof.
  intros Hk. rewrite !not_elem_of_cons in Hk.
  destruct Hk as (K1 & K2 & K3 & K4 & K5 & K6 & _).
  unfold update_openweather. now rewrite !lookup_insert_ne by congruence.
Qed.

Lemma update_airvisual_other c d (k : string) :
  k ∉ ["AQI"; "temperature"; "humidity"; "pressure"; "wind_speed"] ->
  update_airvisual c d !! k = c !! k.
Proof.
  intros Hk. rewrite !not_elem_of_cons in Hk.
  destruct Hk as (K1 & K2 & K3 & K4 & K5 & _).
  unfold update_airvisual. now rewrite !lookup_insert_ne by congruence.
Qed.

Lemma fill_from_waqi_other c d (k : string) :
  k ∉ ["PM2.5"; "PM10"; "AQI"] -> fill_from_waqi c d !! k = c !! k.
Proof.
  intros Hk. rewrite !not_elem_of_cons in Hk.
  destruct Hk as (K1 & K2 & K3 & _).
  unfold fill_from_waqi. now rewrite !fill_if_absent_other by congruence.
Qed.

(** A key that a source's branch does not write keeps its value. *)
Lemma combine_step_other c (name : string) d (k : string) :
  (name = "openweather" ->
   k ∉ ["PM2.5"; "PM10"; "NO2"; "SO2"; "CO"; "O3"]) ->
  (name = "airvisual" ->
   k ∉ ["AQI"; "temperature"; "humidity"; "pressure"; "wind_speed"]) ->
  (name = "waqi" -> k ∉ ["PM2.5"; "PM10"; "AQI"]) ->
  combine_step c (name, d) !! k = c !! k.
Proof.
  intros How Hav Hwq.
  destruct (combine_step_cases c name d)
    as [[E ->] | [[E ->] | [[E ->] | (_ & _ & _ & ->)]]].
  - now apply update_openweather_other, How.
  - now apply update_airvisual_other, Hav.
  - now apply fill_from_waqi_other, Hwq.
  - reflexivity.
Qed.

Lemma fill_if_absent_is_Some (key k : string) (v : pyval) c :
  is_Some (fill_if_absent key v c !! k) -> is_Some (c !! k) \/ k = key.
Proof.
  unfold fill_if_absent. destruct (c !! key) eqn:E; [now left|].
  destruct (decide (key = k)) as [->|Hne]; [now right|].
  rewrite lookup_insert_ne by exact Hne. now left.
Qed.

(** Every key of [combined] after a step was there before or is one of
    the normalised names. *)
Lemma combine_step_keys c (name : string) d (k : string) :
  is_Some (combine_step c (name, d) !! k) ->
  is_Some (c !! k) \/ k ∈ combined_keys.
Proof.
  intros H.
  destruct (decide (k ∈ combined_keys)) as [Hin|Hout]; [now right|]. left.
  rewrite combine_step_other in H; [exact H|..]; intros _ Hk; apply Hout;
    unfold combined_keys;
    repeat (apply elem_of_cons in Hk as [->|Hk]; [by_decide|]);
    now apply elem_of_nil in Hk.
Qed.

Lemma combine_loop_keys (now : Z) ds (k : string) :
  is_Some (combine_loop now ds !! k) -> k ∈ combined_keys.
Proof.
  unfold combine_loop.
  apply (fold_keeps (fun c => is_Some (c !! k) -> k ∈ combined_keys)
                    (fun _ => True)).
  - intros c name d _ IH H.
    destruct (combine_step_keys c name d k H) as [Hc|Hk]; auto.
  - apply Forall_forall. now intros.
  - unfold combine_init. intros H.
    destruct (decide (k = "sources_used")) as [->|N1]; [by_decide|].
    destruct (decide (k = "timestamp")) as [->|N2]; [by_decide|].
    rewrite !lookup_insert_ne, lookup_empty in H by congruence.
    now destruct H.
Qed.

Lemma combine_loop_frame (now : Z) ds :
  combine_loop now ds !! "timestamp" = Some (PyTime now) /\
  combine_loop now ds !! "sources_used" = Some (PyList ds.*1).
Proof.
  unfold combine_loop. split.
  - apply (fold_keeps (fun c => c !! "timestamp" = Some (PyTime now))
                      (fun _ => True)).
    + intros c name d _ IH.
      rewrite combine_step_other; [exact IH|..]; intros _; by_decide.
    + apply Forall_forall. now intros.
    + unfold combine_init. now simplify_map_eq.
  - apply (fold_keeps (fun c => c !! "sources_used" = Some (PyList ds.*1))
                      (fun _ => True)).
    + intros c name d _ IH.
      rewrite combine_step_other; [exact IH|..]; intros _; by_decide.
    + apply Forall_forall. now intros.
    + unfold combine_init. now simplify_map_eq.
Qed.

(** Keys that stay absent when their only writer is not among the
    sources. *)
Lemma combine_loop_absent (now : Z) ds (writer k : string) :
  (forall c d name, name <> writer ->
                    combine_step c (name, d) !! k = c !! k) ->
  writer ∉ ds.*1 ->
  k <> "timestamp" -> k <> "sources_used" ->
  combine_loop now ds !! k = None.
Proof.
  intros Hstep Hw K1 K2. unfold combine_loop.
  apply (fold_keeps (fun c => c !! k = None) (fun n => n <> writer)).
  - intros c name d Hn IH. now rewrite Hstep.
  - apply Forall_forall. intros [n x] Hx E. cbn in E. subst n.
    apply Hw. apply list_elem_of_fmap. now exists (writer, x).
  - unfold combine_init.
    now rewrite !lookup_insert_ne, lookup_empty by congruence.
Qed.

Lemma finish_is_Some c c' (k : string) :
  finish c = Ok c' ->
  is_Some (c' !! k) ->
  is_Some (c !! k) \/ k ∈ ["AQI"; "category"; "color"].
Proof.
  intros Hf H.
  destruct (decide (k ∈ ["AQI"; "category"; "color"])) as [Hin|Hout];
    [now right|left].
  rewrite !not_elem_of_cons in Hout. destruct Hout as (K1 & K2 & K3 & _).
  now rewrite (finish_other_keys _ _ k Hf K1 K2 K3) in H.
Qed.

End ReconcilerMore.



(** X11.  An AQI that a provider supplies as a number is the AQI of the
    combined reading, with its category: AirVisual's [aqi_us] whenever
    AirVisual is among the sources, WAQI's [aqi] otherwise; the order of
    the sources does not matter and nothing is derived from PM2.5. *)
Theorem provided_aqi_is_kept
        (now : Z) (ds : list (string * gmap string pyval)) (a : Q) :
  NoDup ds.*1 ->
  (exists av, ("airvisual", av) ∈ ds /\ av !! "aqi_us" = Some (PyNum a))
  \/ (("airvisual" ∉ ds.*1) /\
      exists wq, ("waqi", wq) ∈ ds /\ wq !! "aqi" = Some (PyNum a)) ->
  exists c,
    Fetcher.combine_data_sources now ds = Ok c /\
    c !! "AQI" = Some (PyNum a) /\
    c !! "category" = Some (PyStr (Fetcher.aqi_category a).1) /\
    c !! "color" = Some (PyStr (Fetcher.aqi_category a).2).
Proof.
  intros Hnd H.
  assert (Ha : Fetcher.combine_loop now ds !! "AQI" = Some (PyNum a)).
  { rewrite (loop_aqi_offered now ds Hnd). unfold offered_aqi.
    destruct H as [(av & Hin & E) | (Hno & wq & Hin & E)].
    - rewrite (assoc_elem_of_NoDup _ _ _ Hnd Hin).
      unfold dict_get. now rewrite E.
    - apply assoc_None_not_elem_of in Hno. rewrite Hno.
      rewrite (assoc_elem_of_NoDup _ _ _ Hnd Hin).
      unfold dict_get. now rewrite E. }
  unfold Fetcher.combine_data_sources. rewrite (finish_provided _ a Ha).
  eexists. split; [reflexivity|]. split; [|split].
  - now rewrite !lookup_insert_ne by discriminate.
  - rewrite lookup_insert_ne by discriminate. apply lookup_insert_eq.
  - apply lookup_insert_eq.
Qed.

(** X11, witness: WAQI says 75 and comes first, AirVisual says 152. *)
Lemma provided_aqi_is_kept_witness :
  exists c,
    Fetcher.combine_data_sources
      0 [("waqi", Samples.waqi_record (PyNum 90) (PyNum 75));
         ("openweather", Samples.openweather_record 40);
         ("airvisual", More.airvisual_record (PyNum 152))] = Ok c /\
    c !! "AQI" = Some (PyNum 152) /\
    c !! "category" = Some (PyStr "Moderate").
Proof.
  destruct (provided_aqi_is_kept
              0 [("waqi", Samples.waqi_record (PyNum 90) (PyNum 75));
                 ("openweather", Samples.openweather_record 40);
                 ("airvisual", More.airvisual_record (PyNum 152))] 152)
    as (c & Hc & Ha & Hcat & _).
  - by_decide.
  - left. exists (More.airvisual_record (PyNum 152)).
    split; [by_elem_of | reflexivity].
  - exists c. split; [exact Hc|]. split; [exact Ha | exact Hcat].
Defined.

(** X12.  When the AQI the providers offer is not a number (the field
    is missing from the record, [None], a string), [combine_data_sources]
    raises [TypeError] at [aqi <= 50] and returns no reading. *)
Theorem non_numeric_aqi_raises
        (now : Z) (ds : list (string * gmap string pyval)) (v : pyval) :
  NoDup ds.*1 ->
  offered_aqi ds = Some v ->
  (forall a, v <> PyNum a) ->
  Fetcher.combine_data_sources now ds = Raise TypeError.
Proof.
  intros Hnd Ho Hv. unfold Fetcher.combine_data_sources.
  apply (finish_not_a_number _ v); [|exact Hv].
  now rewrite (loop_aqi_offered now ds Hnd).
Qed.

(** X12, witness: WAQI reports its AQI as the string of a station
    without data, next to a complete OpenWeather record. *)
Lemma non_numeric_aqi_raises_witness :
  Fetcher.combine_data_sources
    0 [("openweather", Samples.openweather_record 40);
       ("waqi", Samples.waqi_record (PyNum 90) (PyStr "-"))]
  = Raise TypeError.
Proof.
  apply (non_numeric_aqi_raises
           0 [("openweather", Samples.openweather_record 40);
              ("waqi", Samples.waqi_record (PyNum 90) (PyStr "-"))]
           (PyStr "-")).
  - by_decide.
  - reflexivity.
  - intros a H. discriminate H.
Defined.

(** X13.  When neither AirVisual nor WAQI is among the sources and
    OpenWeather's PM2.5 is 0, [None] or missing, no AQI is computed: the
    combined reading has no ['AQI'] key and is categorised Good, the
    category of 0. *)
Theorem zero_pm25_gives_no_aqi
        (now : Z) (ds : list (string * gmap string pyval))
        (ow : gmap string pyval) :
  NoDup ds.*1 -> ("openweather", ow) ∈ ds ->
  "airvisual" ∉ ds.*1 -> "waqi" ∉ ds.*1 ->
  truthy (dict_get ow "pm2_5") = false ->
  exists c,
    Fetcher.combine_data_sources now ds = Ok c /\
    c !! "AQI" = None /\
    c !! "PM2.5" = Some (dict_get ow "pm2_5") /\
    c !! "category" = Some (PyStr "Good") /\
    c !! "color" = Some (PyStr "#00e400").
Proof.
  intros Hnd Hin Hav Hwq Hz.
  assert (Hl : Fetcher.combine_loop now ds !! "PM2.5"
               = Some (dict_get ow "pm2_5")).
  { unfold Fetcher.combine_loop. now apply loop_pm25_openweather. }
  assert (Ha : Fetcher.combine_loop now ds !! "AQI" = None).
  { apply loop_no_aqi; [exact Hav | exact Hwq | apply combine_init_aqi]. }
  unfold Fetcher.combine_data_sources. rewrite finish_nothing.
  - eexists. split; [reflexivity|]. repeat split.
    + now rewrite !lookup_insert_ne by discriminate.
    + now rewrite !lookup_insert_ne by discriminate.
    + rewrite lookup_insert_ne by discriminate. apply lookup_insert_eq.
    + apply lookup_insert_eq.
  - exact Ha.
  - unfold dict_get at 1. rewrite Hl. exact Hz.
Qed.

(** X13, witness: an OpenWeather record with PM2.5 = 0. *)
Lemma zero_pm25_gives_no_aqi_witness :
  exists c,
    Fetcher.combine_data_sources
      0 [("openweather", More.openweather_clean)] = Ok c /\
    c !! "AQI" = None /\
    c !! "PM2.5" = Some (PyNum 0) /\
    c !! "category" = Some (PyStr "Good") /\
    c !! "color" = Some (PyStr "#00e400").
Proof.
  apply (zero_pm25_gives_no_aqi
           0 [("openweather", More.openweather_clean)]
           More.openweather_clean);
    [by_decide | by_elem_of | by_decide | by_decide | reflexivity].
Defined.

(** A key whose only writer is not among the sources is absent from the
    result. *)
Ltac absent_key Hc Hno k writer :=
  rewrite (finish_other_keys _ _ k Hc) by discriminate;
  apply (combine_loop_absent _ _ writer k);
  [ | exact Hno | discriminate | discriminate ];
  intros c0 d name Hn; apply combine_step_other;
  first [ intros E; contradiction | intros _; by_decide ].

(** X14.  NO2, SO2, CO and O3 come from OpenWeather only, and
    temperature, humidity, pressure and wind speed from AirVisual only:
    without OpenWeather (resp. AirVisual) among the sources the combined
    reading has none of the four keys, whatever WAQI supplies. *)
Theorem gases_and_weather_have_one_source
        (now : Z) (ds : list (string * gmap string pyval))
        (c : gmap string pyval) :
  Fetcher.combine_data_sources now ds = Ok c ->
  ("openweather" ∉ ds.*1 ->
   c !! "NO2" = None /\ c !! "SO2" = None /\
   c !! "CO" = None /\ c !! "O3" = None) /\
  ("airvisual" ∉ ds.*1 ->
   c !! "temperature" = None /\ c !! "humidity" = None /\
   c !! "pressure" = None /\ c !! "wind_speed" = None).
Proof.
  intros Hc. unfold Fetcher.combine_data_sources in Hc.
  split; intros Hno; repeat split.
  - absent_key Hc Hno "NO2" "openweather".
  - absent_key Hc Hno "SO2" "openweather".
  - absent_key Hc Hno "CO" "openweather".
  - absent_key Hc Hno "O3" "openweather".
  - absent_key Hc Hno "temperature" "airvisual".
  - absent_key Hc Hno "humidity" "airvisual".
  - absent_key Hc Hno "pressure" "airvisual".
  - absent_key Hc Hno "wind_speed" "airvisual".
Qed.

(** X14, witness: WAQI alone, with an NO2 value of its own. *)
Lemma gases_and_weather_have_one_source_witness :
  Samples.waqi_record (PyNum 90) (PyNum 75) !! "no2" = Some (PyNum 14) /\
  exists c,
    Fetcher.combine_data_sources
      0 [("waqi", Samples.waqi_record (PyNum 90) (PyNum 75))] = Ok c /\
    c !! "NO2" = None /\ c !! "temperature" = None.
Proof.
  split; [reflexivity|].
  assert (Hok : exists c,
             Fetcher.combine_data_sources
               0 [("waqi", Samples.waqi_record (PyNum 90) (PyNum 75))]
             = Ok c).
  { eexists. vm_compute. reflexivity. }
  destruct Hok as [c Hc]. exists c. split; [exact Hc|].
  destruct (gases_and_weather_have_one_source _ _ _ Hc) as [Hg Hw].
  destruct Hg as (H & _); [by_decide|].
  destruct Hw as (H' & _); [by_decide|].
  now split.
Defined.

(** X15.  A combined reading holds the time of the call and the names
    of the sources in their order, always has a category and a colour,
    and has no key besides the fifteen normalised ones: fields of the
    providers' records are never copied under their own names. *)
Theorem combined_reading_keys
        (now : Z) (ds : list (string * gmap string pyval))
        (c : gmap string pyval) :
  Fetcher.combine_data_sources now ds = Ok c ->
  c !! "timestamp" = Some (PyTime now) /\
  c !! "sources_used" = Some (PyList ds.*1) /\
  is_Some (c !! "category") /\ is_Some (c !! "color") /\
  forall k, is_Some (c !! k) -> k ∈ Service.combined_keys.
Proof.
  intros Hc.
  destruct (combine_loop_frame now ds) as [Ht Hs].
  destruct (finish_category _ _ Hc) as (a & _ & Hcat & Hcol).
  unfold Fetcher.combine_data_sources in Hc.
  split; [now rewrite (finish_other_keys _ _ _ Hc) by discriminate|].
  split; [now rewrite (finish_other_keys _ _ _ Hc) by discriminate|].
  split; [now rewrite Hcat|]. split; [now rewrite Hcol|].
  intros k Hk.
  destruct (finish_is_Some _ _ k Hc Hk) as [Hl|Hin].
  - now apply (combine_loop_keys now ds).
  - unfold Service.combined_keys.
    repeat (apply elem_of_cons in Hin as [->|Hin]; [by_decide|]).
    now apply elem_of_nil in Hin.
Qed.

(** X15, witness: the three providers together; [nh3] and [city_name]
    do not come through. *)
Lemma combined_reading_keys_witness :
  exists c,
    Fetcher.combine_data_sources
      7 [("openweather", Samples.openweather_record 40);
         ("airvisual", More.airvisual_record (PyNum 152));
         ("waqi", Samples.waqi_record (PyNum 90) (PyNum 75))] = Ok c /\
    c !! "timestamp" = Some (PyTime 7) /\
    c !! "sources_used"
    = Some (PyList ["openweather"; "airvisual"; "waqi"]) /\
    c !! "nh3" = None /\ c !! "city_name" = None.
Proof.
  assert (Hok : exists c,
             Fetcher.combine_data_sources
               7 [("openweather", Samples.openweather_record 40);
                  ("airvisual", More.airvisual_record (PyNum 152));
                  ("waqi", Samples.waqi_record (PyNum 90) (PyNum 75))]
             = Ok c).
  { eexists. vm_compute. reflexivity. }
  destruct Hok as [c Hc]. exists c. split; [exact Hc|].
  destruct (combined_reading_keys _ _ _ Hc) as (Ht & Hs & _ & _ & Hk).
  split; [exact Ht|]. split; [exact Hs|].
  split.
  - destruct (c !! "nh3") eqn:E; [|reflexivity].
    exfalso. assert (H : "nh3" ∈ Service.combined_keys) by (apply Hk; eauto).
    revert H. by_decide.
  - destruct (c !! "city_name") eqn:E; [|reflexivity].
    exfalso.
    assert (H : "city_name" ∈ Service.combined_keys) by (apply Hk; eauto).
    revert H. by_decide.
Defined.

(** ** The handlers and the generators: further lemmas *)

Section ServiceMore.
Import Fetcher App Service.
Local Open Scope Q_scope.

Lemma py_round_n_1_ge (x : Q) (n : Z) :
  inject_Z n <= x -> inject_Z n <= py_round_n x 1.
Proof.
  intros H. unfold py_round_n.
  change (inject_Z (10 ^ Z.of_nat 1)) with 10.
  assert (Hr : (n * 10 <= py_round (x * 10))%Z).
  { apply py_round_ge_Z. rewrite inject_Z_mult.
    change (inject_Z 10) with 10. lra. }
  rewrite Zle_Qle, inject_Z_mult in Hr. change (inject_Z 10) with 10 in Hr.
  qconst. lra.
Qed.

(** The readings of the synthetic conditions, by key. *)
Lemma current_conditions_lookup (e : env) (base : Q) :
  let c := current_conditions_from e base in
  c !! "PM2.5" = Some (PyNum (py_round_n (current_pm25 e base) 1)) /\
  c !! "AQI" = Some (PyNum (inject_Z (py_round (current_aqi e base)))) /\
  c !! "category"
  = Some (PyStr (current_category (current_aqi e base)).1) /\
  c !! "color" = Some (PyStr (current_category (current_aqi e base)).2) /\
  c !! "timestamp" = Some (PyStr (str_full (now e))) /\
  Forall (fun k => is_Some (c !! k))
         ["PM10"; "NO2"; "SO2"; "CO"; "O3"; "temperature"; "humidity";
          "wind_speed"; "pressure"].
Proof.
  cbv zeta.
  unfold current_conditions_from, current_aqi, current_no2, current_pm10,
    current_pm25, current_rush.
  destruct (current_category _) as [cat col].
  repeat split. repeat (constructor; [eexists; reflexivity|]). constructor.
Qed.

(** The base of every city lies between 60 and 150. *)
Lemma base_pollution_get_range (city : jval) (base : Q) :
  base_pollution_get city = Ok base -> 60 <= base <= 150.
Proof.
  unfold base_pollution_get, city_get, base_pollution.
  destruct city as [| | |s| |]; cbn [bind assoc default];
    try discriminate; try (intros [= <-]; split; discriminate).
  repeat match goal with
         | |- context [String.eqb ?a s] =>
             destruct (String.eqb a s); cbn [default]
         end; intros [= <-]; split; discriminate.
Qed.

Lemma base_pollution_get_hashable (city : jval) :
  match city with
  | JArr _ | JObj _ => base_pollution_get city = Raise TypeError
  | _ => exists base, base_pollution_get city = Ok base
  end.
Proof.
  unfold base_pollution_get.
  destruct city; cbn [city_get bind]; try reflexivity; eauto.
Qed.

Lemma current_rush_ge_1 (e : env) : 1 <= current_rush e.
Proof.
  unfold current_rush. destruct (in_hours _ _); discriminate.
Qed.

(** With a base of at least 60 the synthetic PM2.5 is at least 40 and
    the AQI at least 88. *)
Lemma current_aqi_lower_bound (e : env) (base : Q) :
  60 <= base -> 0 <= rnd e 0 ->
  40 <= current_pm25 e base /\ 88 <= current_aqi e base.
Proof.
  intros Hb Hu.
  assert (Hp : 40 <= current_pm25 e base).
  { unfold current_pm25, uniform.
    pose proof (py_max_le_l 10 (base * current_rush e
                                + (-20 + (25 - -20) * rnd e 0))) as H10.
    unfold py_max in *.
    destruct (Qlt_bool _ _) eqn:E; [|apply Qlt_bool_false in E].
    - pose proof (current_rush_ge_1 e) as Hr. nra.
    - pose proof (current_rush_ge_1 e) as Hr. nra. }
  split; [exact Hp|].
  unfold current_aqi.
  pose proof (py_max_le_l (py_max (current_pm25 e base * 2.2)
                                  (current_pm10 e base * 1.1))
                          (current_no2 e base * 1.8)) as H1.
  pose proof (py_max_le_l (current_pm25 e base * 2.2)
                          (current_pm10 e base * 1.1)) as H2.
  lra.
Qed.

(** Each element and the whole list succeed together. *)
Lemma sequence_ok {A} (l : list (result A)) (ys : list A) :
  sequence l = Ok ys <-> Forall2 (fun r y => r = Ok y) l ys.
Proof.
  revert ys. induction l as [|r l IH]; intros ys; cbn.
  - split; [intros [= <-]; constructor | intros H; now inversion H].
  - destruct r as [a|ex]; cbn [bind].
    + destruct (sequence l) as [l'|ex] eqn:E; cbn [bind].
      * split.
        -- intros [= <-]. constructor; [reflexivity|]. now apply IH.
        -- intros H. inversion H as [|? y ? ys' Hy Hl]; subst.
           injection Hy as <-. apply IH in Hl. now injection Hl as <-.
      * split; [discriminate|].
        intros H. inversion H as [|? y ? ys' Hy Hl]; subst.
        apply IH in Hl. discriminate.
    + split; [discriminate|]. intros H. inversion H; discriminate.
Qed.

Lemma Forall2_total {A B} (R : A -> B -> Prop) (l : list A) :
  (forall x, x ∈ l -> exists y, R x y) -> exists ys, Forall2 R l ys.
Proof.
  induction l as [|x l IH]; intros H.
  - exists []. constructor.
  - destruct (H x) as [y Hy]; [apply elem_of_cons; now left|].
    destruct IH as [ys Hys].
    { intros x' Hx'. apply H. apply elem_of_cons. now right. }
    exists (y :: ys). now constructor.
Qed.

End ServiceMore.

Section CurrentMore.
Import Fetcher App Service.
Local Open Scope Q_scope.

Lemma finish_raises_TypeError (c : gmap string pyval) (ex : exn) :
  finish c = Raise ex -> ex = TypeError.
Proof.
  unfold finish, derive_aqi, categorize.
  destruct (c !! "AQI") as [x|] eqn:E; cbn [bind].
  - rewrite E. cbn -[aqi_category].
    destruct x; try (now intros [= <-]).
    destruct (aqi_category q). discriminate.
  - destruct (truthy (dict_get c "PM2.5")).
    + destruct (dict_get c "PM2.5"); cbn [calculate_aqi_from_pm25_val bind];
        try (now intros [= <-]).
      rewrite lookup_insert_eq. cbn -[aqi_category calculate_aqi_from_pm25].
      destruct (aqi_category _). discriminate.
    + cbn [bind]. rewrite E. cbn -[aqi_category].
      destruct (aqi_category 0). discriminate.
Qed.

(** With the fetcher as it is built, the combined reading comes from
    OpenWeather alone or there is none. *)
Lemma fetch_combined_data_init (key : option string) (w : providers)
      (t : Z) (city : jval) :
  fetch_combined_data (init key) w t city
  = match fetch_openweather_pollution (init key) w city with
    | Some d =>
        if bool_decide (d = ∅) then Ok None
        else bind (combine_data_sources t [("openweather", d)])
                  (fun c => Ok (Some c))
    | None => Ok None
    end.
Proof.
  unfold fetch_combined_data.
  rewrite fetch_airvisual_data_init, fetch_waqi_data_init.
  destruct (fetch_openweather_pollution (init key) w city) as [d|];
    [|reflexivity].
  unfold collect, usable. now destruct (bool_decide (d = ∅)).
Qed.

End CurrentMore.

Section CurrentMore2.
Import Fetcher App Service.
Local Open Scope Q_scope.

(** A reading built from an OpenWeather record alone has the nine keys. *)
Lemma openweather_reading_keys (t : Z) (d c : gmap string pyval) :
  combine_data_sources t [("openweather", d)] = Ok c ->
  Forall (fun k => is_Some (c !! k)) reading_keys.
Proof.
  intros Hc.
  destruct (finish_category _ _ Hc) as (a & _ & Hcat & Hcol).
  destruct (combine_loop_frame t [("openweather", d)]) as [Ht _].
  unfold combine_data_sources in Hc.
  assert (Hl : forall k,
             k ∈ ["PM2.5"; "PM10"; "NO2"; "SO2"; "CO"; "O3"] ->
             is_Some (combine_loop t [("openweather", d)] !! k)).
  { intros k Hk. unfold combine_loop. cbn [fold_left].
    rewrite combine_step_openweather. unfold update_openweather.
    repeat (apply elem_of_cons in Hk as [->|Hk];
            [simplify_map_eq; eauto|]).
    now apply elem_of_nil in Hk. }
  unfold reading_keys.
  repeat (constructor;
          [first [ rewrite (finish_other_keys _ _ _ Hc) by discriminate;
                   first [ apply Hl; by_decide | rewrite Ht; eauto ]
                 | rewrite Hcat; eauto
                 | rewrite Hcol; eauto ]|]).
  constructor.
Qed.

Lemma current_conditions_keys (e : env) (base : Q) :
  Forall (fun k => is_Some (current_conditions_from e base !! k))
         reading_keys.
Proof.
  destruct (current_conditions_lookup e base)
    as (H25 & _ & Hcat & Hcol & Hts & Hrest).
  cbv zeta in *. rewrite !Forall_cons in Hrest.
  destruct Hrest as (P10 & N & S & C & O & _).
  unfold reading_keys.
  repeat (constructor; [first [ assumption | eauto ]|]). constructor.
Qed.

(** What the inner [try] of [get_current_conditions] can give with the
    fetcher as it is built. *)
Lemma real_conditions_init (e : env) (key : option string) (city : jval) :
  real_data_fetcher e = init key ->
  match real_conditions e city with
  | Ok c =>
      exists d,
        fetch_openweather_pollution (init key) (world e) city = Some d /\
        combine_data_sources (fetch_time e) [("openweather", d)] = Ok c
  | Raise _ => True
  end.
Proof.
  intros Hself. unfold real_conditions. rewrite Hself.
  rewrite fetch_combined_data_init.
  destruct (fetch_openweather_pollution (init key) (world e) city) as [d|];
    [|exact I].
  destruct (bool_decide (d = ∅)); [exact I|].
  destruct (combine_data_sources (fetch_time e) [("openweather", d)])
    as [c|ex] eqn:Ec; cbn [bind]; [|exact I].
  destruct (usable (Some c)) eqn:Eu; cbn [bind default]; [|exact I].
  now exists d.
Qed.

Lemma fetch_openweather_pollution_unhashable
      (self : gmap string pyval) (w : providers) (city : jval) :
  match city with
  | JArr _ | JObj _ => fetch_openweather_pollution self w city = None
  | _ => True
  end.
Proof. destruct city; try exact I; reflexivity. Qed.

End CurrentMore2.

(** X16.  [get_real_air_quality] returns a reading only after it has
    printed a line with the city, and the reading then has the nine keys
    PM2.5, PM10, NO2, SO2, CO, O3, category, color and timestamp, whether
    it is real or synthetic.  When it raises, the exception is the
    [TypeError] of the reconciler's category chain or of a city that
    cannot be a dictionary key, the one [print] raised for a city the
    console cannot encode, or the one the import of [app] raised. *)
Theorem get_real_air_quality_reading
        (e : App.env) (key : option string) (import_app : result ())
        (city : jval) :
  match Service.get_real_air_quality e key import_app city with
  | Ok r =>
      App.print_value e city = Ok () /\
      Forall (fun k => is_Some (r !! k)) Service.reading_keys
  | Raise ex =>
      ex = TypeError \/ App.print_value e city = Raise ex \/
      import_app = Raise ex
  end.
Proof.
  unfold Service.get_real_air_quality. rewrite fetch_combined_data_init.
  assert (Hsyn : match bind (App.print_value e city) (fun _ =>
                       bind import_app (fun _ =>
                       App.generate_current_conditions e city)) with
                 | Ok r =>
                     App.print_value e city = Ok () /\
                     Forall (fun k => is_Some (r !! k)) Service.reading_keys
                 | Raise ex =>
                     ex = TypeError \/ App.print_value e city = Raise ex \/
                     import_app = Raise ex
                 end).
  { destruct (App.print_value e city) as [[]|ex]; cbn [bind];
      [|now right; left].
    destruct import_app as [[]|ex]; cbn [bind]; [|now right; right].
    unfold App.generate_current_conditions.
    pose proof (base_pollution_get_hashable city) as Hb.
    destruct city;
      first [ rewrite Hb; now left
            | destruct Hb as [bp ->]; cbn [bind];
              split; [reflexivity | apply current_conditions_keys] ]. }
  destruct (Fetcher.fetch_openweather_pollution (Fetcher.init key)
                                                (App.world e) city) as [d|];
    cbn [bind Fetcher.usable]; [|exact Hsyn].
  destruct (bool_decide (d = ∅)); cbn [bind Fetcher.usable]; [exact Hsyn|].
  destruct (Fetcher.combine_data_sources (App.fetch_time e)
                                         [("openweather", d)])
    as [c|ex] eqn:Ec; cbn [bind].
  - pose proof (openweather_reading_keys _ _ _ Ec) as Hk.
    destruct (Fetcher.usable (Some c)); [|exact Hsyn].
    destruct (App.print_value e city) as [[]|ex]; cbn [bind default];
      [now split | now right; left].
  - left. now apply finish_raises_TypeError in Ec.
Qed.

(** X17.  With the fetcher as app.py builds it, [/api/current] answers
    200 for every body that is an object whose city can be a dictionary
    key (a string, a number, a boolean, null): the conditions are real or
    synthetic and hold the nine keys PM2.5, PM10, NO2, SO2, CO, O3,
    category, color and timestamp; an exception of the reconciler is
    absorbed.  A city that is a list or an object gets 500. *)
Theorem get_current_conditions_outcome
        (e : App.env) (key : option string)
        (items : list (string * jval)) (city : jval) :
  App.real_data_fetcher e = Fetcher.init key ->
  assoc items "city" = Some city ->
  match city with
  | JArr _ | JObj _ =>
      App.get_current_conditions e (JObj items)
      = App.JsonError 500 (App.StrOf TypeError)
  | _ =>
      exists conds data_type,
        App.get_current_conditions e (JObj items)
        = App.CurrentOk city conds data_type /\
        (data_type = "real" \/ data_type = "synthetic") /\
        Forall (fun k => is_Some (conds !! k)) Service.reading_keys
  end.
Proof.
  intros Hself Hcity.
  unfold App.get_current_conditions.
  rewrite (city_missing_with_city items city Hcity). cbn [bind getitem].
  rewrite Hcity. cbn [bind].
  pose proof (real_conditions_init e key city Hself) as Hreal.
  pose proof (base_pollution_get_hashable city) as Hb.
  pose proof (fetch_openweather_pollution_unhashable
                (Fetcher.init key) (App.world e) city) as Hun.
  unfold App.generate_current_conditions.
  destruct (App.real_conditions e city) as [c|ex] eqn:Er.
  - destruct Hreal as (d & Hd & Hc).
    pose proof (openweather_reading_keys _ _ _ Hc) as Hk.
    destruct city; try (exists c, "real"; split; [reflexivity|];
                        split; [now left | exact Hk]);
      rewrite Hun in Hd; discriminate.
  - destruct city;
      first [ rewrite Hb; reflexivity
            | destruct Hb as [bp ->]; cbn [bind];
              exists (App.current_conditions_from e bp), "synthetic";
              split; [reflexivity|]; split; [now right|];
              apply current_conditions_keys ].
Qed.

(** X17, witness: a numeric city. *)
Lemma get_current_conditions_outcome_witness :
  exists conds data_type,
    App.get_current_conditions Samples.env_sample
                               (JObj [("city", JNum 7)])
    = App.CurrentOk (JNum 7) conds data_type /\
    (data_type = "real" \/ data_type = "synthetic") /\
    Forall (fun k => is_Some (conds !! k)) Service.reading_keys.
Proof.
  exact (get_current_conditions_outcome
           Samples.env_sample (Some "0123456789abcdef")
           [("city", JNum 7)] (JNum 7) eq_refl eq_refl).
Defined.

(** X18.  For a supported city whose OpenWeather request succeeds with
    a non-zero numeric PM2.5, [/api/current] with the fetcher as app.py
    builds it answers with data type ['real']: the conditions hold that
    PM2.5, the AQI [calculate_aqi_from_pm25] derives from it, the time of
    the fetch, OpenWeather as the only source used and no weather
    field. *)
Theorem supported_city_gets_openweather_reading
        (e : App.env) (key : option string)
        (items : list (string * jval)) (s : string) (lat lon : Q)
        (ow : gmap string pyval) (v : Q) :
  App.real_data_fetcher e = Fetcher.init key ->
  assoc items "city" = Some (JStr s) ->
  assoc Fetcher.city_coords s = Some (lat, lon) ->
  Fetcher.openweather_api
    (App.world e) lat lon
    (match key with Some k => PyStr k | None => PyNone end) = Ok ow ->
  ow !! "pm2_5" = Some (PyNum v) -> ~ (v == 0)%Q ->
  exists conds,
    App.get_current_conditions e (JObj items)
    = App.CurrentOk (JStr s) conds "real" /\
    conds !! "PM2.5" = Some (PyNum v) /\
    conds !! "AQI" = Some (PyNum (Fetcher.calculate_aqi_from_pm25 v)) /\
    conds !! "timestamp" = Some (PyTime (App.fetch_time e)) /\
    conds !! "sources_used" = Some (PyList ["openweather"]) /\
    conds !! "temperature" = None /\ conds !! "humidity" = None.
Proof.
  intros Hself Hcity Hcoords Hapi Hpm Hv.
  assert (Hfetch : Fetcher.fetch_openweather_pollution
                     (Fetcher.init key) (App.world e) (JStr s) = Some ow).
  { unfold Fetcher.fetch_openweather_pollution, Fetcher.city_get.
    rewrite Hcoords. cbn [bind].
    change (Fetcher.getattr (Fetcher.init key) "openweather_api_key")
      with (@Ok pyval (match key with Some k => PyStr k | None => PyNone end)).
    cbn [bind]. now rewrite Hapi. }
  assert (Hne : bool_decide (ow = ∅) = false).
  { apply bool_decide_eq_false. intros ->. now rewrite lookup_empty in Hpm. }
  destruct (combine_openweather_only
              (App.fetch_time e) [("openweather", ow)] ow v)
    as (c & Hc & H25 & Ha);
    [by_decide | by_elem_of | by_decide | by_decide | exact Hpm | exact Hv |].
  destruct (combine_loop_frame (App.fetch_time e) [("openweather", ow)])
    as [Ht Hs].
  assert (Hreal : App.real_conditions e (JStr s) = Ok c).
  { unfold App.real_conditions. rewrite Hself, fetch_combined_data_init.
    rewrite Hfetch, Hne, Hc. cbn [bind].
    assert (Hu : Fetcher.usable (Some c) = true).
    { unfold Fetcher.usable. apply negb_true_iff, bool_decide_eq_false.
      intros ->. now rewrite lookup_empty in H25. }
    now rewrite Hu. }
  exists c. split.
  - unfold App.get_current_conditions.
    rewrite (city_missing_with_city items (JStr s) Hcity).
    cbn [bind getitem]. rewrite Hcity. cbn [bind]. now rewrite Hreal.
  - split; [exact H25|]. split; [exact Ha|].
    unfold Fetcher.combine_data_sources in Hc.
    split; [now rewrite (finish_other_keys _ _ _ Hc) by discriminate|].
    split; [now rewrite (finish_other_keys _ _ _ Hc) by discriminate|].
    assert (Hno : "airvisual" ∉ [("openweather", ow)].*1) by by_decide.
    split.
    + absent_key Hc Hno "temperature" "airvisual".
    + absent_key Hc Hno "humidity" "airvisual".
Qed.

(** X18, witness: Mumbai while OpenWeather answers with PM2.5 = 40. *)
Lemma supported_city_gets_openweather_reading_witness :
  exists conds,
    App.get_current_conditions Samples.env_sample
                               (JObj [("city", JStr "Mumbai")])
    = App.CurrentOk (JStr "Mumbai") conds "real" /\
    conds !! "PM2.5" = Some (PyNum 40) /\
    conds !! "AQI" = Some (PyNum (Fetcher.calculate_aqi_from_pm25 40)) /\
    conds !! "timestamp" = Some (PyTime 1793700000) /\
    conds !! "sources_used" = Some (PyList ["openweather"]) /\
    conds !! "temperature" = None /\ conds !! "humidity" = None.
Proof.
  apply (supported_city_gets_openweather_reading
           Samples.env_sample (Some "0123456789abcdef")
           [("city", JStr "Mumbai")] "Mumbai" 19.0760%Q 72.8777%Q
           (Samples.openweather_record 40) 40);
    try reflexivity.
  intros H. discriminate H.
Defined.

(** X19.  Whatever the city and the clock, and for every first draw of
    the generator that is not negative, the synthetic conditions of
    [generate_current_conditions] report a PM2.5 of at least 40 and an
    AQI of at least 88, and their category is never Good. *)
Theorem synthetic_conditions_are_never_good (e : App.env) (s : string) :
  (0 <= App.rnd e 0)%Q ->
  exists c pm25 aqi cat,
    App.generate_current_conditions e (JStr s) = Ok c /\
    c !! "PM2.5" = Some (PyNum pm25) /\ (40 <= pm25)%Q /\
    c !! "AQI" = Some (PyNum (inject_Z aqi)) /\ 88 <= aqi /\
    c !! "category" = Some (PyStr cat) /\ cat <> "Good".
Proof.
  intros Hu.
  destruct (base_pollution_get_hashable (JStr s)) as [base Hb].
  destruct (base_pollution_get_range _ _ Hb) as [H60 _].
  destruct (current_aqi_lower_bound e base H60 Hu) as [Hp Ha].
  destruct (current_conditions_lookup e base)
    as (L25 & Laqi & Lcat & _). cbv zeta in *.
  unfold App.generate_current_conditions. rewrite Hb. cbn [bind].
  do 4 eexists. split; [reflexivity|].
  split; [exact L25|]. split; [now apply (py_round_n_1_ge _ 40)|].
  split; [exact Laqi|]. split; [now apply (py_round_ge_Z _ 88)|].
  split; [exact Lcat|].
  destruct (current_chain (Service.current_aqi e base))
    as (_ & C2 & C3 & C4 & C5).
  destruct (Qlt_le_dec 100 (Service.current_aqi e base)) as [G1|G1];
    [destruct (Qlt_le_dec 200 (Service.current_aqi e base)) as [G2|G2];
     [destruct (Qlt_le_dec 300 (Service.current_aqi e base)) as [G3|G3]|]|].
  - rewrite C5 by exact G3. discriminate.
  - rewrite C4 by assumption. discriminate.
  - rewrite C3 by assumption. discriminate.
  - rewrite C2; [discriminate | | exact G1].
    apply Qlt_le_trans with 88%Q; [reflexivity | exact Ha].
Qed.

(** X19, witness: the sample hour and generator, for Bangalore, the city
    with the lowest base. *)
Lemma synthetic_conditions_are_never_good_witness :
  exists c pm25 aqi cat,
    App.generate_current_conditions Samples.env_sample (JStr "Bangalore")
    = Ok c /\
    c !! "PM2.5" = Some (PyNum pm25) /\ (40 <= pm25)%Q /\
    c !! "AQI" = Some (PyNum (inject_Z aqi)) /\ 88 <= aqi /\
    c !! "category" = Some (PyStr cat) /\ cat <> "Good".
Proof.
  apply (synthetic_conditions_are_never_good Samples.env_sample "Bangalore").
  discriminate.
Defined.

(** ** The generated series *)

Section SeriesMore.
Import App.

Lemma rev_lookup_lt {A} (l : list A) (i : nat) :
  (i < length l)%nat -> rev l !! i = l !! (length l - S i)%nat.
Proof.
  intros Hi. rewrite rev_alt. now apply (reverse_lookup l i).
Qed.

(** A sequence of results that are all [Ok] is the list of their
    values. *)
Lemma sequence_total {A} (l : list (result A)) :
  (forall r, r ∈ l -> exists y, r = Ok y) ->
  exists ys,
    sequence l = Ok ys /\ length ys = length l /\
    forall i r, l !! i = Some r -> exists y, ys !! i = Some y /\ r = Ok y.
Proof.
  intros H. destruct (Forall2_total (fun r y => r = Ok y) l H) as [ys Hys].
  exists ys. split; [now apply sequence_ok|].
  split; [symmetry; exact (Forall2_length _ _ _ Hys)|].
  intros i r Hr. exact (Forall2_lookup_l _ _ _ _ _ Hys Hr).
Qed.

Lemma historical_row_fields (e : env) (base : Q) (day : nat)
      (date : string) (row : gmap string pyval) :
  days_ago_str e (Z.of_nat day) = Ok date ->
  historical_row e base day = Ok row ->
  row !! "date" = Some (PyStr date) /\
  exists pm, row !! "PM2.5" = Some (PyNum pm) /\ (15 <= pm)%Q.
Proof.
  intros Ed. unfold historical_row. rewrite Ed. cbn [bind].
  intros [= <-]. split; [reflexivity|].
  eexists. split; [reflexivity|].
  apply (py_round_n_1_ge _ 15), py_max_le_l.
Qed.

Lemma forecast_row_fields (e : env) (base : Q) (i : nat) (hour : Z)
      (t : moment) (row : gmap string pyval) :
  now_plus_hours e hour = Ok t ->
  forecast_row e base i hour = Ok row ->
  row !! "timestamp" = Some (PyStr (str_full t)) /\
  row !! "hour" = Some (PyNum (inject_Z (hour_of t))) /\
  exists pm, row !! "PM2.5" = Some (PyNum pm) /\ (5 <= pm)%Q.
Proof.
  intros Et. unfold forecast_row. rewrite Et. cbn [bind].
  intros [= <-]. split; [reflexivity|]. split; [reflexivity|].
  eexists. split; [reflexivity|].
  apply (py_round_n_1_ge _ 5), py_max_le_l.
Qed.

Lemma range_step_length (hours step : Z) :
  length (range_step hours step) = Z.to_nat ((hours + step - 1) / step).
Proof. unfold range_step. now rewrite length_map, length_seq. Qed.

Lemma range_step_lookup (hours step : Z) (i : nat) :
  (i < Z.to_nat ((hours + step - 1) / step))%nat ->
  range_step hours step !! i = Some (Z.of_nat i * step).
Proof.
  intros Hi. unfold range_step.
  rewrite list_lookup_fmap, lookup_seq_lt by exact Hi. reflexivity.
Qed.

End SeriesMore.

(** X20.  When every date of the last [days] days can be formatted,
    [generate_historical_data] returns one row a day, [days] rows in all
    (none when [days] is zero or negative), oldest first: row [i] carries
    the date of [days - 1 - i] days ago, and its PM2.5 is at least 15. *)
Theorem generate_historical_data_is_chronological
        (e : App.env) (s : string) (days : Z) :
  (forall d, 0 <= d < days -> exists date, App.days_ago_str e d = Ok date) ->
  exists rows,
    App.generate_historical_data e (JStr s) days = Ok rows /\
    length rows = Z.to_nat days /\
    forall (i : nat) (date : string),
      (i < Z.to_nat days)%nat ->
      App.days_ago_str e (days - 1 - Z.of_nat i) = Ok date ->
      exists row pm,
        rows !! i = Some row /\ row !! "date" = Some (PyStr date) /\
        row !! "PM2.5" = Some (PyNum pm) /\ (15 <= pm)%Q.
Proof.
  intros Hdates.
  destruct (base_pollution_get_hashable (JStr s)) as [base Hb].
  destruct (sequence_total
              (map (App.historical_row e base) (seq 0 (Z.to_nat days))))
    as (ys & Hseq & Hlen & Hrows).
  { intros r Hr. apply list_elem_of_fmap in Hr as (d & -> & Hd).
    apply elem_of_seq in Hd.
    destruct (Hdates (Z.of_nat d)) as [date Ed]; [lia|].
    exact (historical_row_ok e base d date Ed). }
  rewrite length_map, length_seq in Hlen.
  exists (rev ys). split.
  { unfold App.generate_historical_data. rewrite Hb. cbn [bind].
    rewrite Hseq. reflexivity. }
  split; [now rewrite length_rev|].
  intros i date Hi Ed.
  rewrite rev_lookup_lt by lia. rewrite Hlen.
  destruct (Hrows (Z.to_nat days - S i)%nat
                  (App.historical_row e base (Z.to_nat days - S i)))
    as (row & Hrow & Erow).
  { rewrite list_lookup_fmap, lookup_seq_lt by lia. reflexivity. }
  replace (days - 1 - Z.of_nat i) with (Z.of_nat (Z.to_nat days - S i))
    in Ed by lia.
  destruct (historical_row_fields e base _ date row Ed Erow)
    as (Hdate & pm & Hpm & Hge).
  now exists row, pm.
Qed.

(** X20, witness: three days of Mumbai. *)
Lemma generate_historical_data_is_chronological_witness :
  exists rows,
    App.generate_historical_data Samples.env_sample (JStr "Mumbai") 3
    = Ok rows /\
    length rows = 3%nat /\
    forall (i : nat) (date : string),
      (i < 3)%nat ->
      App.days_ago_str Samples.env_sample (3 - 1 - Z.of_nat i) = Ok date ->
      exists row pm,
        rows !! i = Some row /\ row !! "date" = Some (PyStr date) /\
        row !! "PM2.5" = Some (PyNum pm) /\ (15 <= pm)%Q.
Proof.
  apply (generate_historical_data_is_chronological
           Samples.env_sample "Mumbai" 3).
  intros d _. eexists. reflexivity.
Defined.

(** X21.  For a request with a string city that the console can print
    and 1 to 168 hours, when the clock can be advanced over the whole
    horizon, [/api/forecast] answers 200 with one prediction an hour up
    to 48 hours and one every second hour beyond that:
    [ceil(hours / step)] predictions, never more than 84, the [i]-th of
    which is for [i * step] hours from now and has a PM2.5 of at least
    5. *)
Theorem long_forecasts_are_subsampled
        (e : App.env) (items : list (string * jval)) (s : string)
        (hours : Z) :
  assoc items "city" = Some (JStr s) ->
  App.stdout_encodes e s = true ->
  py_int (App.int_of_str e) (default (JNum 24) (assoc items "hours"))
  = Ok hours ->
  1 <= hours <= 168 ->
  (forall h, 0 <= h < hours -> exists t, App.now_plus_hours e h = Ok t) ->
  exists preds,
    App.get_forecast e (JObj items)
    = App.ForecastOk (JStr s) preds hours (App.str_full (App.now e)) /\
    Service.forecast_step hours = (if hours <=? 48 then 1 else 2) /\
    Z.of_nat (length preds)
    = (hours + Service.forecast_step hours - 1)
      / Service.forecast_step hours /\
    (length preds <= 84)%nat /\
    forall (i : nat) (t : App.moment),
      (i < length preds)%nat ->
      App.now_plus_hours e (Z.of_nat i * Service.forecast_step hours)
      = Ok t ->
      exists row pm,
        preds !! i = Some row /\
        row !! "timestamp" = Some (PyStr (App.str_full t)) /\
        row !! "hour" = Some (PyNum (inject_Z (App.hour_of t))) /\
        row !! "PM2.5" = Some (PyNum pm) /\ (5 <= pm)%Q.
Proof.
  intros Hcity Henc Hint Hh Hclock.
  destruct (base_pollution_get_hashable (JStr s)) as [base Hb].
  set (step := Service.forecast_step hours).
  assert (Hstep : step = (if hours <=? 48 then 1 else 2)).
  { unfold step, Service.forecast_step.
    destruct (hours <=? 48); [reflexivity|].
    destruct (Z.leb_spec hours 168); [reflexivity | lia]. }
  assert (Hs12 : step = 1 /\ hours <= 48 \/ step = 2 /\ 48 < hours).
  { rewrite Hstep. destruct (Z.leb_spec hours 48); [left | right]; lia. }
  assert (Hn : 0 <= (hours + step - 1) / step <= 84 /\
               forall i, 0 <= i < (hours + step - 1) / step ->
                         0 <= i * step < hours).
  { destruct Hs12 as [[-> H48]|[-> H48]].
    - replace (hours + 1 - 1) with hours by lia. rewrite Z.div_1_r.
      split; [lia|]. intros i Hi. lia.
    - split.
      + split; [apply Z.div_pos; lia|].
        assert ((hours + 2 - 1) / 2 < 85); [|lia].
        apply Z.div_lt_upper_bound; lia.
      + intros i Hi.
        pose proof (Z.mul_div_le (hours + 2 - 1) 2 ltac:(lia)). lia. }
  destruct Hn as [Hn Hoff].
  destruct (sequence_total
              (imap (App.forecast_row e base) (App.range_step hours step)))
    as (preds & Hseq & Hlen & Hrows).
  { intros r Hr.
    apply elem_of_lookup_imap_1 in Hr as (i & h & -> & Hi).
    assert (Hlt : (i < Z.to_nat ((hours + step - 1) / step))%nat).
    { rewrite <- range_step_length. now apply lookup_lt_Some in Hi. }
    rewrite range_step_lookup in Hi by exact Hlt. injection Hi as <-.
    destruct (Hclock (Z.of_nat i * step)) as [t Et]; [apply Hoff; lia|].
    unfold App.forecast_row. rewrite Et. cbn [bind]. eauto. }
  rewrite length_imap, range_step_length in Hlen.
  exists preds. split.
  { unfold App.get_forecast. cbn [App.print_value bind].
    rewrite (city_missing_with_city items (JStr s) Hcity).
    cbn [bind getitem jget]. rewrite Hcity. cbn [bind]. rewrite Hint.
    cbn [bind App.print_value]. rewrite Henc. cbn [bind].
    replace ((hours <? 1) || (168 <? hours)) with false
      by (symmetry; apply orb_false_iff; split; apply Z.ltb_ge; lia).
    unfold App.generate_mock_forecast. cbn [App.print_value].
    rewrite Henc, Hb. cbn [bind].
    fold (Service.forecast_step hours). fold step.
    rewrite Hseq. reflexivity. }
  split; [exact Hstep|].
  split; [rewrite Hlen; lia|].
  split; [lia|].
  intros i t Hi Et.
  destruct (Hrows i (App.forecast_row e base i (Z.of_nat i * step)))
    as (row & Hrow & Erow).
  { rewrite list_lookup_imap, range_step_lookup by lia. reflexivity. }
  destruct (forecast_row_fields e base i _ t row Et Erow)
    as (Hts & Hhour & pm & Hpm & Hge).
  now exists row, pm.
Qed.

(** X21, witness: 72 hours of Mumbai, 36 predictions. *)
Lemma long_forecasts_are_subsampled_witness :
  exists preds,
    App.get_forecast Samples.env_sample
                     (JObj [("city", JStr "Mumbai"); ("hours", JNum 72)])
    = App.ForecastOk (JStr "Mumbai") preds 72
                     (App.str_full (App.now Samples.env_sample)) /\
    Service.forecast_step 72 = 2 /\
    Z.of_nat (length preds) = 36 /\
    (length preds <= 84)%nat /\
    forall (i : nat) (t : App.moment),
      (i < length preds)%nat ->
      App.now_plus_hours Samples.env_sample
                         (Z.of_nat i * Service.forecast_step 72) = Ok t ->
      exists row pm,
        preds !! i = Some row /\
        row !! "timestamp" = Some (PyStr (App.str_full t)) /\
        row !! "hour" = Some (PyNum (inject_Z (App.hour_of t))) /\
        row !! "PM2.5" = Some (PyNum pm) /\ (5 <= pm)%Q.
Proof.
  apply (long_forecasts_are_subsampled
           Samples.env_sample
           [("city", JStr "Mumbai"); ("hours", JNum 72)] "Mumbai" 72).
  - reflexivity.
  - reflexivity.
  - reflexivity.
  - lia.
  - intros h _. eexists. reflexivity.
Defined.

(** ** The small handlers *)

Section HandlersMore.
Import App Service.

(** [int()] of a float against an integer bound: truncation towards
    zero stays at or below [k] exactly below [k + 1]. *)
Lemma py_int_float_le (q : Q) (k : Z) :
  0 <= k ->
  Z.quot (Qnum q) (Z.pos (Qden q)) <= k <-> (q < inject_Z (k + 1))%Q.
Proof.
  intros Hk. destruct q as [n d]. unfold Qlt. cbn [Qnum Qden inject_Z].
  rewrite Z.mul_1_r.
  destruct (Z.neg_nonneg_cases n) as [Hn|Hn].
  - assert (Hq : Z.quot n (Z.pos d) <= 0)
      by (apply Z.quot_le_upper_bound; lia).
    split; intros _; [nia | lia].
  - rewrite Z.quot_div_nonneg by lia.
    pose proof (Z.div_mod n (Z.pos d) ltac:(lia)) as Hdm.
    pose proof (Z.mod_pos_bound n (Z.pos d) ltac:(lia)) as Hm.
    split; intros H; nia.
Qed.

Lemma source_status_inactive : source_status None = ("inactive", PyNone).
Proof. reflexivity. Qed.

End HandlersMore.

(** X22.  [/api/health-recommendations] truncates a fractional AQI
    before it chooses the level: the level is Good (with no precaution)
    for every AQI below 51, Satisfactory from 51 to below 101, Moderate
    from 101 to below 201 and Unhealthy from 201 on; there is no Poor or
    Very Poor level. *)
Theorem health_level_follows_truncated_aqi
        (e : App.env) (items : list (string * jval)) (q : Q) :
  assoc items "aqi" = Some (JNum q) ->
  exists aqi r,
    Service.get_health_recommendations e (JObj items)
    = Service.Reply200 (aqi, r) /\
    (Service.level r = "Good" <-> (q < 51)%Q) /\
    (Service.level r = "Satisfactory" <-> (51 <= q)%Q /\ (q < 101)%Q) /\
    (Service.level r = "Moderate" <-> (101 <= q)%Q /\ (q < 201)%Q) /\
    (Service.level r = "Unhealthy" <-> (201 <= q)%Q) /\
    (Service.precautions r = [] <-> (q < 51)%Q) /\
    Service.level r <> "Poor" /\ Service.level r <> "Very Poor".
Proof.
  intros Ha.
  set (aqi := Z.quot (Qnum q) (Z.pos (Qden q))).
  exists aqi, (Service.generate_health_recommendations aqi).
  split.
  { unfold Service.get_health_recommendations. cbn [jget bind].
    rewrite Ha. reflexivity. }
  pose proof (py_int_float_le q 50 ltac:(lia)) as H50.
  pose proof (py_int_float_le q 100 ltac:(lia)) as H100.
  pose proof (py_int_float_le q 200 ltac:(lia)) as H200.
  fold aqi in H50, H100, H200.
  change (inject_Z (50 + 1)) with 51%Q in H50.
  change (inject_Z (100 + 1)) with 101%Q in H100.
  change (inject_Z (200 + 1)) with 201%Q in H200.
  unfold Service.generate_health_recommendations.
  destruct (Z.leb_spec aqi 50) as [L1|L1];
    [|destruct (Z.leb_spec aqi 100) as [L2|L2];
      [|destruct (Z.leb_spec aqi 200) as [L3|L3]]];
    cbn [Service.level Service.precautions].
  - apply H50 in L1.
    repeat split; intros;
      first [reflexivity | discriminate | lra | exfalso; lra].
  - apply H100 in L2.
    assert (51 <= q)%Q by (apply Qnot_lt_le; intros C; apply H50 in C; lia).
    repeat split; intros;
      first [reflexivity | discriminate | lra | exfalso; lra].
  - apply H200 in L3.
    assert (101 <= q)%Q by (apply Qnot_lt_le; intros C; apply H100 in C; lia).
    repeat split; intros;
      first [reflexivity | discriminate | lra | exfalso; lra].
  - assert (201 <= q)%Q by (apply Qnot_lt_le; intros C; apply H200 in C; lia).
    repeat split; intros;
      first [reflexivity | discriminate | lra | exfalso; lra].
Qed.

(** X22, witness: an AQI of 50.9 is Good. *)
Lemma health_level_follows_truncated_aqi_witness :
  exists aqi r,
    Service.get_health_recommendations
      Samples.env_sample (JObj [("aqi", JNum 50.9)])
    = Service.Reply200 (aqi, r) /\
    (Service.level r = "Good" <-> (50.9 < 51)%Q) /\
    (Service.level r = "Satisfactory" <-> (51 <= 50.9)%Q /\ (50.9 < 101)%Q) /\
    (Service.level r = "Moderate" <-> (101 <= 50.9)%Q /\ (50.9 < 201)%Q) /\
    (Service.level r = "Unhealthy" <-> (201 <= 50.9)%Q) /\
    (Service.precautions r = [] <-> (50.9 < 51)%Q) /\
    Service.level r <> "Poor" /\ Service.level r <> "Very Poor".
Proof.
  exact (health_level_follows_truncated_aqi
           Samples.env_sample [("aqi", JNum 50.9)] 50.9%Q eq_refl).
Defined.

(** X23.  A number that [int] cannot parse is answered differently by
    the handlers: [/api/forecast] turns the [ValueError] of ['hours']
    into a 400, while [/api/historical] (for ['days']) and
    [/api/health-recommendations] (for ['aqi']) answer 500; and a body
    that is not a JSON object gets 500 from these two as well. *)
Theorem unparsable_numbers_are_500_outside_forecast
        (e : App.env) (items : list (string * jval)) (s : string) :
  App.int_of_str e s = None ->
  (forall city,
      assoc items "city" = Some city ->
      assoc items "hours" = Some (JStr s) ->
      App.get_forecast e (JObj items)
      = App.JsonError 400 (App.InvalidInput ValueError)) /\
  (assoc items "days" = Some (JStr s) ->
   App.get_historical_data e (JObj items)
   = App.JsonError 500 (App.StrOf ValueError)) /\
  (assoc items "aqi" = Some (JStr s) ->
   Service.get_health_recommendations e (JObj items)
   = Service.ReplyError 500 (App.StrOf ValueError)) /\
  (forall data,
      match data with JObj _ => False | _ => True end ->
      App.get_historical_data e data
      = App.JsonError 500 (App.StrOf AttributeError) /\
      Service.get_health_recommendations e data
      = Service.ReplyError 500 (App.StrOf AttributeError)).
Proof.
  intros Hs. repeat split.
  - intros city Hcity Hh. unfold App.get_forecast.
    rewrite (city_missing_with_city items city Hcity).
    cbn [bind getitem jget]. rewrite Hcity, Hh.
    cbn [bind default from_option id py_int]. now rewrite Hs.
  - intros Hd. unfold App.get_historical_data. cbn [bind jget].
    rewrite Hd. cbn [bind default from_option id py_int]. now rewrite Hs.
  - intros Ha. unfold Service.get_health_recommendations. cbn [bind jget].
    rewrite Ha. cbn [bind default from_option id py_int]. now rewrite Hs.
  - destruct data; try reflexivity; contradiction.
  - destruct data; try reflexivity; contradiction.
Qed.

(** X23, witness: the sample parser rejects every string. *)
Lemma unparsable_numbers_are_500_outside_forecast_witness :
  App.get_historical_data Samples.env_sample (JObj [("days", JStr "week")])
  = App.JsonError 500 (App.StrOf ValueError).
Proof.
  apply (unparsable_numbers_are_500_outside_forecast
           Samples.env_sample [("days", JStr "week")] "week" eq_refl).
  reflexivity.
Defined.

(** X24.  With the fetcher as app.py builds it, [/api/data-sources]
    always reports AirVisual and WAQI as inactive, whatever these
    providers would answer: at most one source is active, and it is
    OpenWeather. *)
Theorem data_sources_at_most_one_active
        (e : App.env) (key : option string) :
  App.real_data_fetcher e = Fetcher.init key ->
  exists ow total,
    Service.get_data_sources e
    = Service.Reply200
        ([ ("openweather", ow);
           ("airvisual", ("inactive", PyNone));
           ("waqi", ("inactive", PyNone)) ], total) /\
    (total = 0 \/ total = 1) /\
    (total = 1 <-> ow.1 = "active") /\
    (ow.1 = "active" <->
     Fetcher.usable (Fetcher.fetch_openweather_pollution
                       (Fetcher.init key) (App.world e) (JStr "Mumbai"))
     = true).
Proof.
  intros Hself. unfold Service.get_data_sources. rewrite Hself.
  rewrite fetch_airvisual_data_init, fetch_waqi_data_init.
  rewrite source_status_inactive.
  unfold Service.source_status.
  destruct (Fetcher.usable (Fetcher.fetch_openweather_pollution _ _ _)).
  - do 2 eexists. split; [reflexivity|]. split; [now right|].
    repeat split; intros; reflexivity.
  - do 2 eexists. split; [reflexivity|]. split; [now left|].
    repeat split; intros; discriminate.
Qed.

(** X24, witness: the sample environment. *)
Lemma data_sources_at_most_one_active_witness :
  exists ow total,
    Service.get_data_sources Samples.env_sample
    = Service.Reply200
        ([ ("openweather", ow);
           ("airvisual", ("inactive", PyNone));
           ("waqi", ("inactive", PyNone)) ], total) /\
    (total = 0 \/ total = 1) /\
    (total = 1 <-> ow.1 = "active") /\
    (ow.1 = "active" <->
     Fetcher.usable (Fetcher.fetch_openweather_pollution
                       (Fetcher.init (Some "0123456789abcdef"))
                       (App.world Samples.env_sample) (JStr "Mumbai"))
     = true).
Proof.
  exact (data_sources_at_most_one_active
           Samples.env_sample (Some "0123456789abcdef") eq_refl).
Defined.

(** ** Binary64 rounding *)

Section Rounding.
Import Binary64.
Local Open Scope Q_scope.

Lemma py_round_comp (x y : Q) : x == y -> py_round x = py_round y.
Proof.
  intros E. apply Z.le_antisymm; apply py_round_mono; rewrite E; apply Qle_refl.
Qed.

(** [round] moves a number by at most one half. *)
Lemma py_round_half (y : Q) :
  y - (1 # 2) <= inject_Z (py_round y) <= y + (1 # 2).
Proof.
  pose proof (Qfloor_le y) as Hlo.
  pose proof (Qlt_floor y) as Hhi.
  unfold py_round.
  rewrite inject_Z_plus in Hhi. change (inject_Z 1) with 1 in Hhi.
  destruct (Qcompare_spec (y - inject_Z (Qfloor y)) (1 # 2)) as [E|E|E].
  - destruct (Z.even (Qfloor y));
      rewrite ?inject_Z_plus; change (inject_Z 1) with 1; lra.
  - lra.
  - rewrite inject_Z_plus. change (inject_Z 1) with 1. lra.
Qed.

Lemma pow2_pos (e : Z) : 0 < 2 ^ e.
Proof. now apply Qpower_0_lt. Qed.

Lemma pow2_plus (a b : Z) : 2 ^ (a + b) == 2 ^ a * 2 ^ b.
Proof. now apply Qpower_plus. Qed.

Lemma pow2_succ (a : Z) : 2 ^ (a + 1) == 2 * 2 ^ a.
Proof. rewrite pow2_plus. change (2 ^ 1) with 2. ring. Qed.

Lemma pow2_pred (a : Z) : 2 * 2 ^ (a - 1) == 2 ^ a.
Proof.
  rewrite <- pow2_succ. now replace (a - 1 + 1)%Z with a by lia.
Qed.

Lemma pow2_le (a b : Z) : (a <= b)%Z -> 2 ^ a <= 2 ^ b.
Proof. intros H. now apply Qpower_le_compat_l. Qed.

Lemma pow2_lt (a b : Z) : (a < b)%Z -> 2 ^ a < 2 ^ b.
Proof. intros H. now apply Qpower_lt_compat_l. Qed.

Lemma pow2_opp (e : Z) : 2 ^ (- e) * 2 ^ e == 1.
Proof.
  rewrite <- pow2_plus. now replace (- e + e)%Z with 0%Z by lia.
Qed.

Lemma pow2_inject (n : Z) : (0 <= n)%Z -> 2 ^ n == inject_Z (2 ^ n).
Proof. intros H. now rewrite Zpower_Qpower. Qed.

(** [ilog2 x] is the exponent of the power of two at or below [x]. *)
Lemma ilog2_spec (x : Q) :
  0 < x -> 2 ^ ilog2 x <= x /\ x < 2 ^ (ilog2 x + 1).
Proof.
  intros Hx. unfold ilog2.
  destruct x as [n d]. cbn [Qnum Qden].
  assert (Hn : (0 < n)%Z).
  { unfold Qlt in Hx. cbn in Hx. lia. }
  set (a := Z.log2 n). set (b := Z.log2 (Z.pos d)).
  destruct (Z.log2_spec n Hn) as [Ha1 Ha2]. fold a in Ha1, Ha2.
  destruct (Z.log2_spec (Z.pos d) ltac:(lia)) as [Hb1 Hb2].
  fold b in Hb1, Hb2.
  assert (Ha0 : (0 <= a)%Z) by apply Z.log2_nonneg.
  assert (Hb0 : (0 <= b)%Z) by apply Z.log2_nonneg.
  assert (HA1 : 2 ^ a <= inject_Z n).
  { rewrite pow2_inject by exact Ha0. now rewrite <- Zle_Qle. }
  assert (HA2 : inject_Z n < 2 * 2 ^ a).
  { rewrite <- pow2_succ, pow2_inject by lia.
    rewrite <- Zlt_Qlt. now rewrite <- Z.add_1_r in Ha2. }
  assert (HB1 : 2 ^ b <= inject_Z (Z.pos d)).
  { rewrite pow2_inject by exact Hb0. now rewrite <- Zle_Qle. }
  assert (HB2 : inject_Z (Z.pos d) < 2 * 2 ^ b).
  { rewrite <- pow2_succ, pow2_inject by lia.
    rewrite <- Zlt_Qlt. now rewrite <- Z.add_1_r in Hb2. }
  assert (Hxd : (n # d) * inject_Z (Z.pos d) == inject_Z n).
  { unfold Qeq, Qmult, inject_Z. cbn. lia. }
  assert (Hk : 2 ^ (a - b) * 2 ^ b == 2 ^ a).
  { rewrite <- pow2_plus. now replace (a - b + b)%Z with a by lia. }
  pose proof (pow2_pos a) as PA. pose proof (pow2_pos b) as PB.
  pose proof (pow2_pos (a - b)) as PK.
  set (X := n # d) in *. set (D := inject_Z (Z.pos d)) in *.
  set (N := inject_Z n) in *.
  set (A := 2 ^ a) in *. set (B := 2 ^ b) in *. set (K := 2 ^ (a - b)) in *.
  destruct (Qle_bool K X) eqn:E.
  - apply Qle_bool_iff in E. split; [exact E|].
    rewrite pow2_succ. fold K. 
    apply Qnot_le_lt. intros C. nra.
  - assert (E' : X < K).
    { apply Qnot_le_lt. intros C. apply Qle_bool_iff in C. congruence. }
    replace (a - b - 1 + 1)%Z with (a - b)%Z by lia. fold K.
    split; [|exact E'].
    pose proof (pow2_pred (a - b)) as HP. fold K in HP.
    pose proof (pow2_pos (a - b - 1)) as PP.
    set (K' := 2 ^ (a - b - 1)) in *.
    apply Qnot_lt_le. intros C. nra.
Qed.

Lemma ilog2_le (x y : Q) : 0 < x -> x <= y -> (ilog2 x <= ilog2 y)%Z.
Proof.
  intros Hx Hxy.
  destruct (ilog2_spec x Hx) as [Lx _].
  destruct (ilog2_spec y ltac:(lra)) as [_ Uy].
  assert (H : 2 ^ ilog2 x < 2 ^ (ilog2 y + 1)) by lra.
  apply Qpower_lt_compat_l_inv in H; [lia | reflexivity].
Qed.

Lemma ilog2_bound (x : Q) (k : Z) : 0 < x -> x <= 2 ^ k -> (ilog2 x <= k)%Z.
Proof.
  intros Hx Hk. destruct (ilog2_spec x Hx) as [Lx _].
  assert (H : 2 ^ ilog2 x <= 2 ^ k) by lra.
  apply Qpower_le_compat_l_inv in H; [exact H | reflexivity].
Qed.

Lemma Qabs_pos_eq (x : Q) : 0 < x -> Qabs x = x.
Proof.
  destruct x as [n d]. unfold Qlt, Qabs. cbn. intros H.
  f_equal. apply Z.abs_eq. lia.
Qed.

Lemma Qeq_bool_pos (x : Q) : 0 < x -> Qeq_bool x 0 = false.
Proof.
  intros H. apply not_true_iff_false. intros E.
  apply Qeq_bool_iff in E. lra.
Qed.

Lemma round64_pos (x : Q) :
  0 < x ->
  round64 x
  = inject_Z (py_round (x * 2 ^ (- Z.max (ilog2 x - 52) (-1074))))
    * 2 ^ Z.max (ilog2 x - 52) (-1074).
Proof.
  intros H. unfold round64, ulp_exponent.
  now rewrite Qeq_bool_pos, Qabs_pos_eq.
Qed.

(** Rounding keeps the sign. *)
Lemma round64_nonneg (x : Q) : 0 <= x -> 0 <= round64 x.
Proof.
  intros H. unfold round64.
  destruct (Qeq_bool x 0); [apply Qle_refl|].
  set (e := ulp_exponent x).
  pose proof (pow2_pos e) as Pe. pose proof (pow2_pos (- e)) as Pe'.
  assert (Hr : (0 <= py_round (x * 2 ^ (- e)))%Z).
  { apply py_round_ge_Z. change (inject_Z 0) with 0. nra. }
  rewrite Zle_Qle in Hr. change (inject_Z 0) with 0 in Hr. nra.
Qed.

(** Rounding never reorders two numbers. *)
Lemma round64_mono_pos (x y : Q) :
  0 < x -> x <= y -> round64 x <= round64 y.
Proof.
  intros Hx Hxy.
  assert (Hy : 0 < y) by lra.
  rewrite (round64_pos x Hx), (round64_pos y Hy).
  pose proof (ilog2_le x y Hx Hxy) as Hk.
  destruct (ilog2_spec x Hx) as [_ Ux].
  destruct (ilog2_spec y Hy) as [Ly _].
  set (kx := ilog2 x) in *. set (ky := ilog2 y) in *.
  set (ex := Z.max (kx - 52) (-1074)). set (ey := Z.max (ky - 52) (-1074)).
  pose proof (pow2_pos ex) as Pex. pose proof (pow2_pos (- ex)) as Pex'.
  pose proof (pow2_pos ey) as Pey. pose proof (pow2_pos (- ey)) as Pey'.
  destruct (Z.eq_dec ex ey) as [E|E].
  - rewrite <- E.
    assert (Hr : (py_round (x * 2 ^ (- ex)) <= py_round (y * 2 ^ (- ex)))%Z).
    { apply py_round_mono. nra. }
    rewrite Zle_Qle in Hr. nra.
  - assert (Hey : ey = (ky - 52)%Z) by lia.
    assert (Hkk : (kx + 1 <= ky)%Z) by lia.
    assert (Hex : (0 <= ky - ex)%Z) by lia.
    pose proof (pow2_le (kx + 1) ky Hkk) as HB.
    (* the power of two between them is on both grids *)
    assert (H1 : inject_Z (py_round (x * 2 ^ (- ex))) * 2 ^ ex <= 2 ^ ky).
    { assert (Hr : (py_round (x * 2 ^ (- ex)) <= 2 ^ (ky - ex))%Z).
      { apply py_round_le_Z. rewrite <- pow2_inject by exact Hex.
        replace (ky - ex)%Z with (ky + - ex)%Z by lia.
        rewrite pow2_plus. nra. }
      rewrite Zle_Qle, <- pow2_inject in Hr by exact Hex.
      assert (Hs : 2 ^ (ky - ex) * 2 ^ ex == 2 ^ ky).
      { rewrite <- pow2_plus. now replace (ky - ex + ex)%Z with ky by lia. }
      nra. }
    assert (H2 : 2 ^ ky <= inject_Z (py_round (y * 2 ^ (- ey))) * 2 ^ ey).
    { assert (Hr : (2 ^ 52 <= py_round (y * 2 ^ (- ey)))%Z).
      { apply py_round_ge_Z. rewrite <- pow2_inject by lia.
        assert (Hs : 2 ^ ky * 2 ^ (- ey) == 2 ^ 52).
        { rewrite <- pow2_plus. now replace (ky + - ey)%Z with 52%Z by lia. }
        nra. }
      rewrite Zle_Qle, <- pow2_inject in Hr by lia.
      assert (Hs : 2 ^ 52 * 2 ^ ey == 2 ^ ky).
      { rewrite <- pow2_plus. now replace (52 + ey)%Z with ky by lia. }
      nra. }
    lra.
Qed.

Lemma round64_mono (x y : Q) : 0 <= x -> x <= y -> round64 x <= round64 y.
Proof.
  intros Hx Hxy. destruct (Qlt_le_dec 0 x) as [Hp|Hz].
  - now apply round64_mono_pos.
  - assert (E : Qeq_bool x 0 = true) by (apply Qeq_bool_iff; lra).
    unfold round64 at 1. rewrite E. apply round64_nonneg. lra.
Qed.

(** The rounding error of a number of size at most [2 ^ k]. *)
Lemma round64_error (x : Q) (k : Z) :
  (-1022 <= k)%Z -> Qabs x <= 2 ^ k ->
  x - 2 ^ (k - 53) <= round64 x <= x + 2 ^ (k - 53).
Proof.
  intros Hk Hx. pose proof (pow2_pos (k - 53)) as Pk.
  unfold round64. destruct (Qeq_bool x 0) eqn:E0.
  - apply Qeq_bool_iff in E0. lra.
  - assert (Hne : ~ x == 0).
    { intros C. apply Qeq_bool_iff in C. congruence. }
    assert (Hpos : 0 < Qabs x).
    { apply Qabs_case; intros; apply Qnot_le_lt; intros C; apply Hne; lra. }
    pose proof (ilog2_bound (Qabs x) k Hpos Hx) as Hl.
    unfold ulp_exponent.
    set (e := Z.max (ilog2 (Qabs x) - 52) (-1074)).
    assert (He : (e <= k - 52)%Z) by lia.
    pose proof (pow2_le e (k - 52) He) as Hp.
    pose proof (pow2_succ (k - 53)) as Hs.
    replace (k - 53 + 1)%Z with (k - 52)%Z in Hs by lia.
    pose proof (pow2_pos e) as Pe. pose proof (pow2_opp e) as Po.
    pose proof (py_round_half (x * 2 ^ (- e))) as Hr.
    set (r := inject_Z (py_round (x * 2 ^ (- e)))) in *.
    set (P := 2 ^ e) in *. set (P' := 2 ^ (- e)) in *.
    set (Q53 := 2 ^ (k - 53)) in *. set (Q52 := 2 ^ (k - 52)) in *.
    assert (Hx' : x == x * P' * P) by (rewrite <- Qmult_assoc, Po; ring).
    split; nra.
Qed.

End Rounding.

(** ** The table-driven calculator in binary64 *)

Section Calculator64.
Import Binary64.
Local Open Scope Q_scope.

Lemma scan_brackets64_first_hit (bps : list bracket) (v s : Q) :
  Forecaster64.scan_brackets bps v = Some s <->
  exists b, first_hit bps v b /\ s = Forecaster64.interpolate b v.
Proof.
  induction bps as [|b0 bps IH]; cbn.
  - split; [discriminate|].
    intros (b & (pre & post & E & _) & _). now destruct pre.
  - destruct (in_bracket b0 v) eqn:E0.
    + split.
      * intros [= <-]. exists b0. split; [|reflexivity].
        exists [], bps. repeat split; [constructor | exact E0].
      * intros (b & (pre & post & E & Hpre & Hb) & ->).
        destruct pre as [|b1 pre]; cbn in E; injection E as -> ->.
        -- reflexivity.
        -- apply Forall_cons in Hpre as [Hb1 _]. congruence.
    + rewrite IH. split.
      * intros (b & (pre & post & -> & Hpre & Hb) & ->).
        exists b. split; [|reflexivity].
        exists (b0 :: pre), post. repeat split;
          [now apply Forall_in_bracket_false_cons | exact Hb].
      * intros (b & (pre & post & E & Hpre & Hb) & ->).
        destruct pre as [|b1 pre]; cbn in E; injection E as -> ->.
        -- congruence.
        -- apply Forall_cons in Hpre as [_ Hpre].
           exists b. split; [|reflexivity]. now exists pre, post.
Qed.

Lemma sub_index64_first_hit (p : string) (v s : Q) :
  Forecaster64.sub_index p v = Some s <->
  exists bps b,
    lookup_breakpoints aqi_breakpoints p = Some bps /\
    first_hit bps v b /\ s = Forecaster64.interpolate b v.
Proof.
  unfold Forecaster64.sub_index.
  destruct (lookup_breakpoints aqi_breakpoints p) as [bps|].
  - rewrite scan_brackets64_first_hit. split.
    + intros (b & Hb & E). now exists bps, b.
    + intros (bps' & b & [= <-] & Hb & E). now exists b.
  - split; [discriminate|]. now intros (? & ? & [=] & _).
Qed.

Lemma aqi_breakpoints_shape (p : string) (bps : list bracket) (b : bracket) :
  lookup_breakpoints aqi_breakpoints p = Some bps ->
  In b bps -> Forecaster64.bracket_shape b.
Proof.
  intros L Hb. apply lookup_breakpoints_In in L.
  cbn [In aqi_breakpoints] in L.
  repeat (destruct L as [L | L]; [injection L as <- <- |]);
    [..| contradiction];
    cbn [In] in Hb;
    repeat (destruct Hb as [<- | Hb]; [unfold Forecaster64.bracket_shape; lia|]);
    contradiction.
Qed.

Lemma first_hit_In (bps : list bracket) (v : Q) (b : bracket) :
  first_hit bps v b -> In b bps /\ in_bracket b v = true.
Proof.
  intros (pre & post & -> & _ & Hb). split; [|exact Hb].
  apply in_or_app. right. now left.
Qed.

End Calculator64.

(** Closed powers of two are evaluated. *)
Ltac pow2const :=
  repeat match goal with
    | |- context [Qpower 2 ?e] =>
        let c := eval vm_compute in (Qpower 2 e) in
        progress change (Qpower 2 e) with c
    | H : context [Qpower 2 ?e] |- _ =>
        let c := eval vm_compute in (Qpower 2 e) in
        progress change (Qpower 2 e) with c in H
    end.

Section Calculator64b.
Import Binary64.
Local Open Scope Q_scope.

Lemma round64_error_nonneg (x : Q) (k : Z) :
  (-1022 <= k)%Z -> 0 <= x -> x <= 2 ^ k ->
  0 <= round64 x /\
  x - 2 ^ (k - 53) <= round64 x /\ round64 x <= x + 2 ^ (k - 53).
Proof.
  intros Hk H0 Hx. split; [now apply round64_nonneg|].
  apply round64_error; [exact Hk|].
  now rewrite Qabs_pos.
Qed.

(** The binary64 interpolation is within [2 ^ -35] of the exact one. *)
Lemma interpolate64_error (b : bracket) (v : Q) :
  Forecaster64.bracket_shape b -> in_bracket b v = true ->
  0 <= Forecaster64.interpolate b v /\
  spec_sub_index b v - 2 ^ (-35) <= Forecaster64.interpolate b v /\
  Forecaster64.interpolate b v <= spec_sub_index b v + 2 ^ (-35).
Proof.
  destruct b as [[[lo hi] al] ah].
  intros (Hlo & Hw & Hw150 & Hal & Hah & H400 & H100) Hin.
  apply in_bracket_true in Hin. cbn [fst snd] in Hin.
  destruct Hin as [Hv1 Hv2].
  unfold Forecaster64.interpolate, spec_sub_index, fadd, fmul, fdiv, fsub.
  assert (Hd : inject_Z (hi - lo) == inject_Z hi - inject_Z lo).
  { unfold Z.sub. rewrite inject_Z_plus, inject_Z_opp. ring. }
  assert (Hn : inject_Z (ah - al) == inject_Z ah - inject_Z al).
  { unfold Z.sub. rewrite inject_Z_plus, inject_Z_opp. ring. }
  assert (Hd1 : inject_Z 1 <= inject_Z (hi - lo)
                /\ inject_Z (hi - lo) <= inject_Z 150)
    by (rewrite <- !Zle_Qle; lia).
  assert (Hn1 : inject_Z 0 <= inject_Z (ah - al)
                /\ inject_Z (ah - al) <= inject_Z 100)
    by (rewrite <- !Zle_Qle; lia).
  rewrite Zle_Qle in Hal, Hah, H400.
  change (inject_Z 1) with 1 in Hd1. change (inject_Z 150) with 150 in Hd1.
  change (inject_Z 0) with 0 in Hn1. change (inject_Z 100) with 100 in Hn1.
  set (D := inject_Z (hi - lo)) in *. set (N := inject_Z (ah - al)) in *.
  set (L := inject_Z lo) in *. set (H := inject_Z hi) in *.
  set (A := inject_Z al) in *. set (Ah := inject_Z ah) in *.
  change (inject_Z 0) with 0 in Hal. change (inject_Z 400) with 400 in H400.
  (* the slope *)
  assert (Hi : 0 < / D <= 1).
  { pose proof (Qinv_lt_0_compat D ltac:(lra)) as Hp.
    pose proof (Qmult_inv_r D ltac:(lra)) as Hm. split; [exact Hp|]. nra. }
  set (r := N / D).
  assert (Hr : 0 <= r <= 100) by (unfold r, Qdiv; nra).
  destruct (round64_error_nonneg r 7 ltac:(lia) ltac:(lra))
    as (Hc0 & Hc1 & Hc2); [pow2const; lra|].
  set (c := round64 r) in *.
  (* the offset in the bracket *)
  destruct (round64_error_nonneg (v - L) 8 ltac:(lia) ltac:(lra))
    as (Hu0 & Hu1 & Hu2); [pow2const; lra|].
  set (u := round64 (v - L)) in *.
  pow2const.
  assert (Hcu : r * (v - L) - (1 # 137438953472) <= c * u
                /\ c * u <= r * (v - L) + (1 # 137438953472)) by (split; nra).
  assert (Hcu0 : 0 <= c * u <= 16000) by (split; nra).
  destruct (round64_error_nonneg (c * u) 14 ltac:(lia) ltac:(lra))
    as (Hp0 & Hp1 & Hp2); [pow2const; lra|].
  set (p := round64 (c * u)) in *.
  pow2const.
  destruct (round64_error_nonneg (p + A) 15 ltac:(lia) ltac:(lra))
    as (Hq0 & Hq1 & Hq2); [pow2const; lra|].
  set (q := round64 (p + A)) in *.
  pow2const.
  assert (Hs : A + (Ah - A) * (v - L) / (H - L) == A + r * (v - L)).
  { unfold r. rewrite Hn, Hd. field. lra. }
  rewrite Hs. split; [exact Hq0|]. split; lra.
Qed.

End Calculator64b.

Section Loop64.
Import Binary64.
Local Open Scope Q_scope.

Lemma sub_index64_close (p : string) (v s : Q) :
  Forecaster64.sub_index p v = Some s ->
  exists bps b,
    lookup_breakpoints aqi_breakpoints p = Some bps /\
    first_hit bps v b /\ s = Forecaster64.interpolate b v /\
    0 <= s /\
    spec_sub_index b v - 2 ^ (-35) <= s /\
    s <= spec_sub_index b v + 2 ^ (-35).
Proof.
  intros Hs. apply sub_index64_first_hit in Hs as (bps & b & L & Hb & ->).
  exists bps, b. split; [exact L|]. split; [exact Hb|].
  split; [reflexivity|].
  destruct (first_hit_In _ _ _ Hb) as [Hin Hbr].
  apply interpolate64_error; [|exact Hbr].
  exact (aqi_breakpoints_shape p bps b L Hin).
Qed.

Lemma elem_of_sub_indices64 (l : list (string * Q)) (p : string) (s : Q) :
  (p, s) ∈ Forecaster64.sub_indices l <->
  exists v, (p, v) ∈ l /\ Forecaster64.sub_index p v = Some s.
Proof.
  unfold Forecaster64.sub_indices. rewrite list_elem_of_omap. split.
  - intros ([p' v] & Hin & Hs). cbn in Hs.
    destruct (Forecaster64.sub_index p' v) as [s'|] eqn:E; [|discriminate].
    injection Hs as -> ->. eauto.
  - intros (v & Hin & Hs). exists (p, v). split; [exact Hin|].
    cbn. now rewrite Hs.
Qed.

Lemma sub_indices64_snoc (l : list (string * Q)) (p : string) (v : Q) :
  Forecaster64.sub_indices (l ++ [(p, v)]) =
  Forecaster64.sub_indices l
  ++ match Forecaster64.sub_index p v with
     | Some s => [(p, s)]
     | None => []
     end.
Proof.
  unfold Forecaster64.sub_indices. rewrite omap_app. f_equal.
  cbn. now destruct (Forecaster64.sub_index p v).
Qed.

(** What the two loop variables hold after any number of iterations. *)
Lemma run_loop64_invariant (l : list (string * Q)) :
  loop_invariant (Forecaster64.sub_indices l) (Forecaster64.run_loop l).
Proof.
  unfold Forecaster64.run_loop.
  induction l as [|[p v] l IH] using rev_ind.
  - split.
    + intros x Hx. cbn in Hx. now apply elem_of_nil in Hx.
    + left. cbn. repeat split. intros x Hx. now apply elem_of_nil in Hx.
  - rewrite fold_left_app, sub_indices64_snoc.
    cbn [fold_left Forecaster64.loop_step].
    destruct IH as [Hub Hdom].
    set (st := fold_left Forecaster64.loop_step l loop_init) in *.
    destruct (Forecaster64.sub_index p v) as [s|] eqn:Es;
      [|now rewrite app_nil_r].
    assert (Hs0 : 0 <= s).
    { now apply sub_index64_close in Es as (? & ? & _ & _ & _ & H0 & _). }
    destruct (Qlt_bool (max_aqi st) s) eqn:Elt.
    + apply Qlt_bool_iff in Elt. split; cbn [max_aqi dominant].
      * intros x Hx. apply elem_of_app in Hx as [Hx | Hx].
        -- specialize (Hub x Hx). lra.
        -- apply list_elem_of_singleton in Hx as ->. cbn. lra.
      * right. split.
        -- destruct Hdom as [(E0 & _) | (Hpos & _)];
             [rewrite E0 in Elt|]; lra.
        -- exists (Forecaster64.sub_indices l), p, []. repeat split.
           intros x Hx. specialize (Hub x Hx). lra.
    + apply Qlt_bool_false in Elt. split.
      * intros x Hx. apply elem_of_app in Hx as [Hx | Hx].
        -- now apply Hub.
        -- apply list_elem_of_singleton in Hx as ->. exact Elt.
      * destruct Hdom as [(E0 & Hnone & Hz)
                         | (Hpos & pre & q & post & E & Hpre & Hq)].
        -- left. repeat split; [exact E0 | exact Hnone |].
           intros x Hx. apply elem_of_app in Hx as [Hx | Hx].
           ++ now apply Hz.
           ++ apply list_elem_of_singleton in Hx as ->. cbn.
              rewrite E0 in Elt. lra.
        -- right. split; [exact Hpos|].
           exists pre, q, (post ++ [(p, s)]). repeat split.
           ++ rewrite E. now rewrite <- app_assoc.
           ++ exact Hpre.
           ++ exact Hq.
Qed.

End Loop64.

(** C1 (amended).  [get_air_quality_index] gives a sub-index exactly to
    the items whose pollutant is in the breakpoint table and whose level
    lies in a bracket.  The sub-index is the binary64 value of
    [((aqi_hi - aqi_lo) / (bp_hi - bp_lo)) * (level - bp_lo) + aqi_lo] in
    the first such bracket: it is not negative and within [2 ^ -35] of
    the interpolation
    [aqi_lo + (aqi_hi - aqi_lo) * (value - bp_lo) / (bp_hi - bp_lo)],
    without being that number.  With [m] the maximum of the sub-indices
    (0 when there is none), the returned ['aqi'] is [round(m)], not [m]
    itself; the dominant pollutant is the first one whose sub-index is
    [m], a later one taking over only with a strictly greater sub-index,
    and it is [None] when [m] is 0. *)
Theorem get_air_quality_index_rounds_the_binary64_max
        (pollutant_levels : list (string * Q)) :
  (forall p v s,
      Forecaster64.sub_index p v = Some s ->
      exists bps b,
        lookup_breakpoints aqi_breakpoints p = Some bps /\
        first_hit bps v b /\ s = Forecaster64.interpolate b v /\
        (0 <= s)%Q /\
        (spec_sub_index b v - 2 ^ (-35) <= s)%Q /\
        (s <= spec_sub_index b v + 2 ^ (-35))%Q) /\
  (forall p v bps b,
      lookup_breakpoints aqi_breakpoints p = Some bps ->
      first_hit bps v b ->
      Forecaster64.sub_index p v = Some (Forecaster64.interpolate b v)) /\
  (forall p s,
      (p, s) ∈ Forecaster64.sub_indices pollutant_levels <->
      exists v, (p, v) ∈ pollutant_levels /\
                Forecaster64.sub_index p v = Some s) /\
  exists m : Q,
    aqi (Forecaster64.get_air_quality_index pollutant_levels) = py_round m /\
    loop_invariant
      (Forecaster64.sub_indices pollutant_levels)
      (LoopState m
         (dominant_pollutant
            (Forecaster64.get_air_quality_index pollutant_levels))).
Proof.
  split; [|split; [|split]].
  - exact sub_index64_close.
  - intros p v bps b L Hb. apply sub_index64_first_hit. now exists bps, b.
  - exact (elem_of_sub_indices64 pollutant_levels).
  - exists (max_aqi (Forecaster64.run_loop pollutant_levels)).
    pose proof (run_loop64_invariant pollutant_levels) as Hinv.
    unfold Forecaster64.get_air_quality_index.
    destruct (Forecaster.aqi_category
                (max_aqi (Forecaster64.run_loop pollutant_levels))).
    cbn [aqi dominant_pollutant]. split; [reflexivity|].
    now destruct (Forecaster64.run_loop pollutant_levels).
Qed.

(** C1, as stated, fails.  For PM2.5 = 10 the only sub-index is the
    float 16.666666666666668 and the AQI returned is 17.  For the float
    PM2.5 = 0.8999999999999999 the sub-index is the float 1.5, above the
    interpolation, and the AQI returned is 2 where the interpolation
    rounds to 1.  For PM2.5 = 0 the sub-index 0 is the maximum, PM2.5
    attains it, and no dominant pollutant is returned. *)
Lemma get_air_quality_index_is_not_the_max_sub_index :
  (exists s : Q,
      Forecaster64.sub_indices [("PM2.5", 10%Q)] = [("PM2.5", s)] /\
      (s == 4691249611844267 # 281474976710656)%Q /\
      aqi (Forecaster64.get_air_quality_index [("PM2.5", 10%Q)]) = 17 /\
      ~ (inject_Z 17 == s)%Q) /\
  (exists s : Q,
      Forecaster64.sub_indices [("PM2.5", Forecaster64.just_below_0_9)]
      = [("PM2.5", s)] /\
      (s == 3 # 2)%Q /\
      (spec_sub_index (0%Z, 30%Z, 0%Z, 50%Z) Forecaster64.just_below_0_9
       < 3 # 2)%Q /\
      aqi (Forecaster64.get_air_quality_index
             [("PM2.5", Forecaster64.just_below_0_9)]) = 2 /\
      py_round (spec_sub_index (0, 30, 0, 50) Forecaster64.just_below_0_9)
      = 1) /\
  (exists s : Q,
      Forecaster64.sub_indices [("PM2.5", 0%Q)] = [("PM2.5", s)] /\
      (s == 0)%Q /\
      dominant_pollutant (Forecaster64.get_air_quality_index [("PM2.5", 0%Q)])
      = None).
Proof.
  split; [|split].
  - eexists. split; [vm_compute; reflexivity|].
    split; [reflexivity|]. split; [vm_compute; reflexivity|].
    intros H. vm_compute in H. discriminate H.
  - eexists. split; [vm_compute; reflexivity|].
    split; [reflexivity|]. split; [reflexivity|].
    split; vm_compute; reflexivity.
  - eexists. split; [vm_compute; reflexivity|].
    split; reflexivity.
Qed.

(** ** [calculate_aqi_from_pm25] in binary64 *)

Section Fetcher64More.
Import Binary64.
Local Open Scope Q_scope.

(** One branch of [calculate_aqi_from_pm25]:
    [base + (pm25 - lo) * m / d], every operation rounded. *)
Lemma branch64_mono (base lo m d v1 v2 : Q) :
  0 <= base -> 0 <= m -> 0 < d -> lo <= v1 -> v1 <= v2 ->
  fadd base (fdiv (fmul (fsub v1 lo) m) d)
  <= fadd base (fdiv (fmul (fsub v2 lo) m) d).
Proof.
  intros Hb Hm Hd H1 H12. unfold fadd, fdiv, fmul, fsub.
  pose proof (Qinv_lt_0_compat d Hd) as Hi.
  assert (Ha : round64 (v1 - lo) <= round64 (v2 - lo))
    by (apply round64_mono; lra).
  pose proof (round64_nonneg (v1 - lo) ltac:(lra)) as Ha0.
  set (a1 := round64 (v1 - lo)) in *. set (a2 := round64 (v2 - lo)) in *.
  assert (Hp : round64 (a1 * m) <= round64 (a2 * m))
    by (apply round64_mono; nra).
  pose proof (round64_nonneg (a1 * m) ltac:(nra)) as Hp0.
  set (p1 := round64 (a1 * m)) in *. set (p2 := round64 (a2 * m)) in *.
  assert (Hq : round64 (p1 / d) <= round64 (p2 / d))
    by (apply round64_mono; unfold Qdiv; nra).
  pose proof (round64_nonneg (p1 / d) ltac:(unfold Qdiv; nra)) as Hq0.
  apply round64_mono; lra.
Qed.

(** A branch is at least its base, when the base is a float. *)
Lemma branch64_ge_base (t base lo m d v : Q) :
  t <= base -> base <= round64 base -> 0 <= base -> 0 <= m -> 0 < d ->
  lo <= v ->
  t <= fadd base (fdiv (fmul (fsub v lo) m) d).
Proof.
  intros Ht Hr Hb Hm Hd Hv. unfold fadd, fdiv, fmul, fsub.
  pose proof (Qinv_lt_0_compat d Hd) as Hi.
  pose proof (round64_nonneg (v - lo) ltac:(lra)) as Ha0.
  set (a := round64 (v - lo)) in *.
  pose proof (round64_nonneg (a * m) ltac:(nra)) as Hp0.
  set (p := round64 (a * m)) in *.
  pose proof (round64_nonneg (p / d) ltac:(unfold Qdiv; nra)) as Hq0.
  apply Qle_trans with (round64 base); [lra|].
  apply round64_mono; lra.
Qed.

(** A branch is at most its value at the upper end of its interval. *)
Lemma branch64_le_top (t base lo m d hi v : Q) :
  fadd base (fdiv (fmul (fsub hi lo) m) d) <= t ->
  0 <= base -> 0 <= m -> 0 < d -> lo <= v -> v <= hi ->
  fadd base (fdiv (fmul (fsub v lo) m) d) <= t.
Proof.
  intros Ht Hb Hm Hd H1 H2.
  apply Qle_trans with (fadd base (fdiv (fmul (fsub hi lo) m) d));
    [|exact Ht].
  now apply branch64_mono.
Qed.

(** The first branch, [pm25 * 50 / 12.0]. *)
Lemma first64_mono (d v1 v2 : Q) :
  0 < d -> 0 <= v1 -> v1 <= v2 ->
  fdiv (fmul v1 50) d <= fdiv (fmul v2 50) d.
Proof.
  intros Hd H1 H12. unfold fdiv, fmul.
  pose proof (Qinv_lt_0_compat d Hd) as Hi.
  assert (Hp : round64 (v1 * 50) <= round64 (v2 * 50))
    by (apply round64_mono; lra).
  pose proof (round64_nonneg (v1 * 50) ltac:(lra)) as Hp0.
  apply round64_mono; unfold Qdiv; nra.
Qed.

Lemma first64_le_top (t d hi v : Q) :
  fdiv (fmul hi 50) d <= t -> 0 < d -> 0 <= v -> v <= hi ->
  fdiv (fmul v 50) d <= t.
Proof.
  intros Ht Hd H1 H2.
  apply Qle_trans with (fdiv (fmul hi 50) d); [|exact Ht].
  now apply first64_mono.
Qed.

End Fetcher64More.

(** A comparison of two closed rationals. *)
Ltac by_compute := vm_compute; first [reflexivity | discriminate].

(** From one branch to a later one, through the value [t] that the
    first never exceeds and the second never goes below. *)
Ltac cross t :=
  apply Qle_trans with t;
  [ first [ eapply first64_le_top; [eassumption | assumption | lra | lra]
          | eapply branch64_le_top;
            [eassumption | lra | lra | assumption | lra | lra] ]
  | apply branch64_ge_base;
    [lra | assumption | lra | lra | assumption | lra] ].

Section Fetcher64Mono.
Import Binary64.
Local Open Scope Q_scope.

Lemma calculate_aqi_from_pm25_64_mono (v1 v2 : Q) :
  0 <= v1 -> v1 <= v2 ->
  Fetcher64.calculate_aqi_from_pm25 v1
  <= Fetcher64.calculate_aqi_from_pm25 v2.
Proof.
  intros H0 H12. unfold Fetcher64.calculate_aqi_from_pm25. cbv zeta.
  assert (K1 : round64 12.0 < round64 35.4) by by_compute.
  assert (K2 : round64 35.4 < round64 55.4) by by_compute.
  assert (K3 : round64 55.4 < round64 150.4) by by_compute.
  assert (K4 : round64 150.4 < round64 250.4) by by_compute.
  assert (K0 : 0 < round64 12.0) by by_compute.
  set (c12 := round64 12.0) in *. set (c354 := round64 35.4) in *.
  set (c554 := round64 55.4) in *. set (c1504 := round64 150.4) in *.
  set (c2504 := round64 250.4) in *. set (c3504 := round64 350.4) in *.
  assert (D1 : 0 < fsub c354 c12) by by_compute.
  assert (D2 : 0 < fsub c554 c354) by by_compute.
  assert (D3 : 0 < fsub c1504 c554) by by_compute.
  assert (D4 : 0 < fsub c2504 c1504) by by_compute.
  assert (D5 : 0 < fsub c3504 c2504) by by_compute.
  assert (T1 : fdiv (fmul c12 50) c12 <= 50) by by_compute.
  assert (T2 : fadd 50 (fdiv (fmul (fsub c354 c12) 50) (fsub c354 c12))
               <= 100) by by_compute.
  assert (T3 : fadd 100 (fdiv (fmul (fsub c554 c354) 50) (fsub c554 c354))
               <= 150) by by_compute.
  assert (T4 : fadd 150 (fdiv (fmul (fsub c1504 c554) 50) (fsub c1504 c554))
               <= 200) by by_compute.
  assert (T5 : fadd 200 (fdiv (fmul (fsub c2504 c1504) 100)
                              (fsub c2504 c1504))
               <= 300) by by_compute.
  assert (B1 : 50 <= round64 50) by by_compute.
  assert (B2 : 100 <= round64 100) by by_compute.
  assert (B3 : 150 <= round64 150) by by_compute.
  assert (B4 : 200 <= round64 200) by by_compute.
  assert (B5 : 300 <= round64 300) by by_compute.
  clearbody c12 c354 c554 c1504 c2504 c3504.
  repeat match goal with
         | |- context [Qle_bool ?a ?b] =>
             let E := fresh "E" in
             destruct (Qle_bool a b) eqn:E;
             [apply Qle_bool_iff in E | apply Qle_bool_false in E]
         end.
  all: try (exfalso; lra).
  all: try (apply first64_mono; [assumption | lra | lra]).
  all: try (apply branch64_mono; [lra | lra | assumption | lra | lra]).
  all: first [ cross 50%Q | cross 100%Q | cross 150%Q | cross 200%Q
             | cross 300%Q ].
Qed.
End Fetcher64Mono.

(** X10.  With the arithmetic of the source, [calculate_aqi_from_pm25]
    is non-decreasing on the non-negative PM2.5 values (taken up to
    [10 ^ 300], far below overflow), but it is not strictly increasing:
    60 and the float after it get the same AQI.  It does not stop at the
    top of the AQI scale: PM2.5 = 500 gets more than 500. *)
Theorem calculate_aqi_from_pm25_binary64_is_monotone (v1 v2 : Q) :
  (0 <= v1)%Q -> (v1 <= v2)%Q -> (v2 <= inject_Z (10 ^ 300))%Q ->
  (Fetcher64.calculate_aqi_from_pm25 v1
   <= Fetcher64.calculate_aqi_from_pm25 v2)%Q /\
  ((60 < Fetcher64.just_above_60)%Q /\
   (Fetcher64.calculate_aqi_from_pm25 60
    == Fetcher64.calculate_aqi_from_pm25 Fetcher64.just_above_60)%Q) /\
  (500 < Fetcher64.calculate_aqi_from_pm25 500)%Q.
Proof.
  intros H0 H12 _.
  split; [now apply calculate_aqi_from_pm25_64_mono|].
  split; [split|]; by_compute.
Qed.

(** X10, witness: from the first branch to the third. *)
Lemma calculate_aqi_from_pm25_binary64_is_monotone_witness :
  (Fetcher64.calculate_aqi_from_pm25 12
   <= Fetcher64.calculate_aqi_from_pm25 40)%Q.
Proof.
  apply (calculate_aqi_from_pm25_binary64_is_monotone 12 40); by_compute.
Defined.

(** ** The exact calculator and the binary64 one *)

Section Bridge.
Import Binary64.
Local Open Scope Q_scope.

(** The two models look at the same brackets, and their sub-indices
    are within [2 ^ -35] of each other. *)
Lemma scan_brackets_agree (bps : list bracket) (v : Q) :
  Forall Forecaster64.bracket_shape bps ->
  match scan_brackets bps v, Forecaster64.scan_brackets bps v with
  | Some s, Some s' => s - 2 ^ (-35) <= s' /\ s' <= s + 2 ^ (-35)
  | None, None => True
  | _, _ => False
  end.
Proof.
  induction 1 as [|b bps Hb _ IH]; cbn; [exact I|].
  destruct (in_bracket b v) eqn:E; [|exact IH].
  destruct (interpolate64_error b v Hb E) as (_ & H1 & H2).
  rewrite (interpolate_spec b v). now split.
Qed.

Lemma sub_index_agree (p : string) (v : Q) :
  match sub_index p v, Forecaster64.sub_index p v with
  | Some s, Some s' => s - 2 ^ (-35) <= s' /\ s' <= s + 2 ^ (-35)
  | None, None => True
  | _, _ => False
  end.
Proof.
  unfold sub_index, Forecaster64.sub_index.
  destruct (lookup_breakpoints aqi_breakpoints p) as [bps|] eqn:L;
    [|exact I].
  apply scan_brackets_agree. apply Forall_forall. intros b Hb.
  apply (aqi_breakpoints_shape p bps b L). now apply list_elem_of_In.
Qed.

Lemma loop_step_agree (st st' : loop_state) (item : string * Q) :
  max_aqi st - 2 ^ (-35) <= max_aqi st' <= max_aqi st + 2 ^ (-35) ->
  max_aqi (loop_step st item) - 2 ^ (-35)
  <= max_aqi (Forecaster64.loop_step st' item)
  <= max_aqi (loop_step st item) + 2 ^ (-35).
Proof.
  intros Hst. destruct item as [p v].
  pose proof (sub_index_agree p v) as Hs.
  pose proof (pow2_pos (-35)) as Hpos.
  set (eps := 2 ^ (-35)) in *. clearbody eps.
  cbn [loop_step Forecaster64.loop_step].
  destruct (sub_index p v) as [s|];
    destruct (Forecaster64.sub_index p v) as [s'|]; try contradiction;
    [|exact Hst].
  destruct (Qlt_bool (max_aqi st) s) eqn:E1;
    destruct (Qlt_bool (max_aqi st') s') eqn:E2; cbn;
    rewrite ?Qlt_bool_iff, ?Qlt_bool_false in *; lra.
Qed.

Lemma run_loop_agree (l : list (string * Q)) (st st' : loop_state) :
  max_aqi st - 2 ^ (-35) <= max_aqi st' <= max_aqi st + 2 ^ (-35) ->
  max_aqi (fold_left loop_step l st) - 2 ^ (-35)
  <= max_aqi (fold_left Forecaster64.loop_step l st')
  <= max_aqi (fold_left loop_step l st) + 2 ^ (-35).
Proof.
  revert st st'. induction l as [|item l IH]; intros st st' Hst.
  - exact Hst.
  - cbn [fold_left]. apply IH. now apply loop_step_agree.
Qed.

End Bridge.

(** X26.  The AQI that [get_air_quality_index] computes in binary64 and
    the one exact arithmetic gives differ by at most 1: the two maxima
    are within [2 ^ -35] of each other, so the two roundings part only
    next to a tie. *)
Theorem binary64_aqi_is_within_one_of_the_exact_aqi
        (pollutant_levels : list (string * Q)) :
  (max_aqi (run_loop pollutant_levels) - 2 ^ (-35)
   <= max_aqi (Forecaster64.run_loop pollutant_levels)
   <= max_aqi (run_loop pollutant_levels) + 2 ^ (-35))%Q /\
  aqi (get_air_quality_index pollutant_levels) - 1
  <= aqi (Forecaster64.get_air_quality_index pollutant_levels)
  <= aqi (get_air_quality_index pollutant_levels) + 1.
Proof.
  assert (Hm : (max_aqi (run_loop pollutant_levels) - 2 ^ (-35)
                <= max_aqi (Forecaster64.run_loop pollutant_levels)
                <= max_aqi (run_loop pollutant_levels) + 2 ^ (-35))%Q).
  { unfold run_loop, Forecaster64.run_loop. apply run_loop_agree.
    unfold loop_init. cbn [max_aqi]. pose proof (pow2_pos (-35)). lra. }
  split; [exact Hm|].
  unfold get_air_quality_index, Forecaster64.get_air_quality_index.
  destruct (aqi_category (max_aqi (run_loop pollutant_levels))).
  destruct (aqi_category (max_aqi (Forecaster64.run_loop pollutant_levels))).
  cbn [aqi].
  pose proof (py_round_half (max_aqi (run_loop pollutant_levels))) as H1.
  pose proof (py_round_half
                (max_aqi (Forecaster64.run_loop pollutant_levels))) as H2.
  set (r := py_round (max_aqi (run_loop pollutant_levels))) in *.
  set (r' := py_round (max_aqi (Forecaster64.run_loop pollutant_levels)))
    in *.
  pow2const.
  assert (Ha : (inject_Z r' < inject_Z (r + 2))%Q).
  { rewrite inject_Z_plus. change (inject_Z 2) with 2%Q. lra. }
  assert (Hb : (inject_Z r < inject_Z (r' + 2))%Q).
  { rewrite inject_Z_plus. change (inject_Z 2) with 2%Q. lra. }
  rewrite <- Zlt_Qlt in Ha, Hb. lia.
Qed.

(** X25.  A string city that the console cannot encode gets 400 from
    [/api/forecast] whatever the hours, as soon as [int] accepts them:
    the [print] of the city raises [UnicodeEncodeError], which the
    [except ValueError] clause reports as an invalid input. *)
Theorem unprintable_city_is_400_on_forecast
        (e : App.env) (items : list (string * jval)) (s : string)
        (hours : Z) :
  assoc items "city" = Some (JStr s) ->
  App.stdout_encodes e s = false ->
  py_int (App.int_of_str e) (default (JNum 24) (assoc items "hours"))
  = Ok hours ->
  App.get_forecast e (JObj items)
  = App.JsonError 400 (App.InvalidInput UnicodeEncodeError).
Proof.
  intros Hcity Henc Hint.
  unfold App.get_forecast. cbn [App.print_value bind].
  rewrite (city_missing_with_city items (JStr s) Hcity).
  cbn [bind getitem jget]. rewrite Hcity. cbn [bind]. rewrite Hint.
  cbn [bind App.print_value]. now rewrite Henc.
Qed.

(** X25, witness: a city the sample console cannot encode. *)
Lemma unprintable_city_is_400_on_forecast_witness :
  App.get_forecast Samples.env_sample (JObj [("city", JStr "?")])
  = App.JsonError 400 (App.InvalidInput UnicodeEncodeError).
Proof.
  exact (unprintable_city_is_400_on_forecast
           Samples.env_sample [("city", JStr "?")] "?" 24
           eq_refl eq_refl eq_refl).
Defined.
